(** * HD44780 dot-matrix LCD driver of WiringPi (wiringPi/hd44780.c)

    A shallow embedding of the bus-protocol engine: the per-node data
    structure, the busy-wait routines, the 4-bit and 8-bit write and read
    handlers and [hd44780Setup].  The driver talks to the outside world only
    through the GPIO and timing primitives of wiringPi and libc; here every
    such call is recorded in a trace, and the level a [digitalRead] returns
    is given by a bus, a function of the pin and of the history so far. *)

From Stdlib Require Import ZArith List Ascii String Bool Lia DecimalString.
Import ListNotations.
Local Open Scope Z_scope.

(** ** Constants of wiringPi.h, stdlib.h, time.h and errno.h *)

Inductive PinModeT := INPUT | OUTPUT.

Definition LOW : Z := 0.
Definition HIGH : Z := 1.
Definition PUD_UP : Z := 2.
Definition EXIT_SUCCESS : Z := 0.
Definition EXIT_FAILURE : Z := 1.
Definition EINTR : Z := 4.
Definition ENOTSUP : Z := 95.
Definition CLOCK_MONOTONIC_RAW : Z := 4.

(** ** struct timespec and the two helpers of hd44780.c

    [tv_sec] is a [time_t] and [tv_nsec] a [long], signed integers of a
    width the platform fixes.  The fields are unbounded integers here:
    [timespec_add] is the C function on the arguments for which none of its
    sums overflows ([no_overflow] below); beyond them the C function is
    undefined and nothing is claimed of it.  The driver only ever adds a
    delay of at most 1.52 ms to a reading of the monotonic clock, far from
    that range.  C's [/] and [%] truncate toward zero: [Z.quot] and
    [Z.rem]. *)

Record timespec := mkTimespec { tv_sec : Z; tv_nsec : Z }.

Definition enable_duration : Z := 300.

Definition standard_busy_delay : timespec := mkTimespec 0 37000.
Definition extended_busy_delay : timespec := mkTimespec 0 41000.
Definition reset_busy_delay : timespec := mkTimespec 0 1520000.

Definition timespec_add (lhs rhs : timespec) : timespec :=
  mkTimespec
    (tv_sec lhs + tv_sec rhs + Z.quot (tv_nsec lhs + tv_nsec rhs) 1000000000)
    (Z.rem (tv_nsec lhs + tv_nsec rhs) 1000000000).

Definition timespec_gt (lhs rhs : timespec) : bool :=
  if tv_sec lhs =? tv_sec rhs
  then tv_nsec lhs >? tv_nsec rhs
  else tv_sec lhs >? tv_sec rhs.

(** Nanoseconds denoted by a timespec. *)
Definition ts_ns (t : timespec) : Z := tv_sec t * 1000000000 + tv_nsec t.

(** A normalised timespec, as [clock_gettime] and [timespec_add] produce. *)
Definition ts_wf (t : timespec) : Prop := 0 <= tv_nsec t < 1000000000.

(** [x] is a value of the signed integer type of [bits] bits. *)
Definition fits (bits x : Z) : Prop := - 2 ^ (bits - 1) <= x < 2 ^ (bits - 1).

(** The arguments are values of their types, [tv_sec] being [sec_bits] wide
    and [tv_nsec] [nsec_bits] wide, and none of the three sums of lines 53
    and 54 overflows. *)
Definition no_overflow (sec_bits nsec_bits : Z) (lhs rhs : timespec) : Prop :=
  fits sec_bits (tv_sec lhs) /\ fits sec_bits (tv_sec rhs)
  /\ fits nsec_bits (tv_nsec lhs) /\ fits nsec_bits (tv_nsec rhs)
  /\ fits nsec_bits (tv_nsec lhs + tv_nsec rhs)
  /\ fits sec_bits (tv_sec lhs + tv_sec rhs)
  /\ fits sec_bits (tv_sec lhs + tv_sec rhs
                    + Z.quot (tv_nsec lhs + tv_nsec rhs) 1000000000).

(** ** struct hd44780DataStruct *)

Record hd44780DataStruct := mkData {
  readEnabled : bool;
  mode8Enabled : bool;
  mode8 : bool;
  pinRS : Z;
  pinRW : Z;
  pinE : Z;
  pinDB : list Z;
  operation_end : timespec
}.

(** [nodeData->pinDB[i]] *)
Definition DB (nd : hd44780DataStruct) (i : Z) : Z := nth (Z.to_nat i) (pinDB nd) 0.

Definition with_mode8 (nd : hd44780DataStruct) (b : bool) : hd44780DataStruct :=
  mkData (readEnabled nd) (mode8Enabled nd) b (pinRS nd) (pinRW nd) (pinE nd)
         (pinDB nd) (operation_end nd).

Definition with_operation_end (nd : hd44780DataStruct) (t : timespec) : hd44780DataStruct :=
  mkData (readEnabled nd) (mode8Enabled nd) (mode8 nd) (pinRS nd) (pinRW nd) (pinE nd)
         (pinDB nd) t.

(** ** struct wiringPiNodeStruct

    Only the fields the driver uses.  The two function pointers are a tag
    naming the handler they point to; [wiringPiNewNode] leaves them at
    wiringPi's dummy handlers. *)

Inductive WriteHandler := digitalWriteDummy | Handler_DigitalWrite_8 | Handler_DigitalWrite_4.
Inductive ReadHandler := digitalReadDummy | Handler_DigitalRead_8 | Handler_DigitalRead_4.

Record wiringPiNodeStruct := mkNode {
  pinBase : Z;
  pinMax : Z;
  dataStruct : option hd44780DataStruct;
  digitalWrite_h : WriteHandler;
  digitalRead_h : ReadHandler
}.

(** ** The outside world *)

Inductive Event :=
| EvWrite (pin : Z) (level : bool)
| EvMode (pin : Z) (mode : PinModeT)
| EvPull (pin : Z) (pud : Z)
| EvRead (pin : Z) (level : bool)
| EvDelayNs (ns : Z)
| EvDelayUs (us : Z)
| EvSleep (request : timespec) (ret : Z).

(** [trace]: every GPIO and timing call made so far, oldest first.
    [clock]: CLOCK_MONOTONIC_RAW in nanoseconds.
    [signals]: instants at which a signal will interrupt a sleep in progress.
    [stderr]: what was printed to stderr, oldest first.
    [nodeAvailable], [memAvailable]: whether [wiringPiNewNode] and [malloc]
    will return a non-null pointer.
    [rawSleep]: whether the platform lets a thread sleep against
    CLOCK_MONOTONIC_RAW; Linux does not, its [clock_nanosleep] on that clock
    fails at once with ENOTSUP.
    [node]: what the driver's node pointer refers to, the node record with
    the data structure hanging off it; [None] is the null pointer. *)
Record State := mkState {
  trace : list Event;
  clock : Z;
  signals : list Z;
  stderr : list string;
  nodeAvailable : bool;
  memAvailable : bool;
  node : option wiringPiNodeStruct;
  rawSleep : bool
}.

(** The reading of the monotonic clock in state [s]. *)
Definition now_of (s : State) : timespec :=
  mkTimespec (clock s / 1000000000) (clock s mod 1000000000).

Definition set_trace (s : State) (t : list Event) : State :=
  mkState t (clock s) (signals s) (stderr s) (nodeAvailable s) (memAvailable s) (node s)
          (rawSleep s).
Definition set_clock (s : State) (c : Z) : State :=
  mkState (trace s) c (signals s) (stderr s) (nodeAvailable s) (memAvailable s) (node s)
          (rawSleep s).
Definition set_signals (s : State) (l : list Z) : State :=
  mkState (trace s) (clock s) l (stderr s) (nodeAvailable s) (memAvailable s) (node s)
          (rawSleep s).
Definition set_stderr (s : State) (l : list string) : State :=
  mkState (trace s) (clock s) (signals s) l (nodeAvailable s) (memAvailable s) (node s)
          (rawSleep s).
Definition set_node (s : State) (n : option wiringPiNodeStruct) : State :=
  mkState (trace s) (clock s) (signals s) (stderr s) (nodeAvailable s) (memAvailable s) n
          (rawSleep s).
Definition set_rawSleep (s : State) (b : bool) : State :=
  mkState (trace s) (clock s) (signals s) (stderr s) (nodeAvailable s) (memAvailable s)
          (node s) b.

(** ** A state monad with faults

    A computation either returns, or is cut short: by a loop that used up
    its fuel, by a dereference of a null pointer, or by a [[gnu::assume]]
    that does not hold.  The state reached is kept in every case, so that
    what was done to the pins before the fault stays visible. *)

Inductive Fault := OutOfFuel | NullDereference | AssumptionViolated.

Inductive Outcome (A : Type) :=
| Returned (a : A) (s : State)
| Aborted (f : Fault) (s : State).
Arguments Returned {A} a s.
Arguments Aborted {A} f s.

Definition final {A} (o : Outcome A) : State :=
  match o with Returned _ s => s | Aborted _ s => s end.

Definition M (A : Type) : Type := State -> Outcome A.

Definition ret {A} (a : A) : M A := fun s => Returned a s.

Definition bind {A B} (m : M A) (k : A -> M B) : M B :=
  fun s => match m s with
           | Returned a s' => k a s'
           | Aborted f s' => Aborted f s'
           end.

Definition abort {A} (f : Fault) : M A := fun s => Aborted f s.

Declare Scope drv_scope.
Delimit Scope drv_scope with drv.
Notation "x <- m ;; k" := (bind m (fun x => k))
  (at level 61, m at next level, right associativity) : drv_scope.
Notation "m ;; k" := (bind m (fun _ => k))
  (at level 61, right associativity) : drv_scope.
Local Open Scope drv_scope.

Definition when (c : bool) (m : M unit) : M unit := if c then m else ret tt.

(** [[gnu::assume(c)]]: nothing when [c] holds, undefined behaviour otherwise *)
Definition assume (c : bool) : M unit := if c then ret tt else abort AssumptionViolated.

(** [while (cond) { body }] *)
Fixpoint while (fuel : nat) (cond : M bool) (body : M unit) : M unit :=
  match fuel with
  | O => abort OutOfFuel
  | S fuel' => c <- cond ;; if c then body ;; while fuel' cond body else ret tt
  end.

(** [for] over the successive values of the loop variable *)
Fixpoint forM (l : list Z) (body : Z -> M unit) : M unit :=
  match l with
  | [] => ret tt
  | i :: l' => body i ;; forM l' body
  end.

Fixpoint foldM {A} (l : list Z) (body : Z -> A -> M A) (a : A) : M A :=
  match l with
  | [] => ret a
  | i :: l' => a' <- body i a ;; foldM l' body a'
  end.

(** The values [lo], [lo+1], ..., [hi-1] *)
Definition range (lo hi : nat) : list Z := map Z.of_nat (seq lo (hi - lo)).

(** The conversion [%i] of fprintf, and the newline character *)
Definition Z_to_string (z : Z) : string := NilZero.string_of_int (Z.to_int z).
Definition nl : string := String (Ascii.ascii_of_nat 10) EmptyString.

(** What CHECK_PIN prints for the parameter [name] holding [id] *)
Definition pin_error (name : string) (id : Z) : string :=
  ("Error: invalid pin number for " ++ name ++ ": ") ++ Z_to_string id ++ nl.

Section Driver.

(** The level seen on a pin, given everything done so far. *)
Variable bus : list Event -> Z -> bool.

(** Whether a pseudo-pin belongs to a node registered before the call. *)
Variable wiringPiFindNode : Z -> bool.

(** ** The primitives the driver calls *)

(** Modelled from the spec: the Pin Abstraction of section 2 ([digitalWrite],
    [pinMode], [pullUpDnControl], [digitalRead] of wiringPi.c, which is not
    among the sources).  A pin call is recorded in the trace and nothing
    more; a read returns the level the bus gives for the pin. *)
Definition emit (e : Event) : M unit :=
  fun s => Returned tt (set_trace s (trace s ++ [e])).

Definition digitalWrite (pin value : Z) : M unit :=
  emit (EvWrite pin (negb (value =? LOW))).

Definition pinMode (pin : Z) (mode : PinModeT) : M unit := emit (EvMode pin mode).

Definition pullUpDnControl (pin pud : Z) : M unit := emit (EvPull pin pud).

Definition digitalRead (pin : Z) : M Z :=
  fun s => let v := bus (trace s) pin in
           Returned (Z.b2z v) (set_trace s (trace s ++ [EvRead pin v])).

(** Modelled from the spec: the Timing Primitive of section 2
    ([delayNanoseconds], [delayMicroseconds] of wiringPi.c, [clock_gettime]
    and [clock_nanosleep] of libc).  A delay is recorded and advances the
    clock by its length.  [clock_nanosleep] is called with TIMER_ABSTIME:
    where the platform refuses to sleep against the clock named it fails at
    once with [ENOTSUP], the clock not advanced; otherwise the sleep ends at
    its deadline with 0, or earlier with [EINTR] when a signal arrives
    first. *)
Definition delayNanoseconds (ns : Z) : M unit :=
  fun s => Returned tt (set_clock (set_trace s (trace s ++ [EvDelayNs ns])) (clock s + ns)).

Definition delayMicroseconds (us : Z) : M unit :=
  fun s => Returned tt (set_clock (set_trace s (trace s ++ [EvDelayUs us])) (clock s + us * 1000)).

Definition clock_gettime : M timespec := fun s => Returned (now_of s) s.

Definition clock_nanosleep (clock_id : Z) (request : timespec) : M Z :=
  fun s =>
    let logged r := set_trace s (trace s ++ [EvSleep request r]) in
    if (clock_id =? CLOCK_MONOTONIC_RAW) && negb (rawSleep s)
    then Returned ENOTSUP (logged ENOTSUP)
    else if ts_ns request <=? clock s then Returned 0 (logged 0)
    else match signals s with
         | t :: rest =>
             if t <? ts_ns request
             then Returned EINTR
                    (set_signals (set_clock (logged EINTR) (Z.max (clock s) t)) rest)
             else Returned 0 (set_clock (logged 0) (ts_ns request))
         | [] => Returned 0 (set_clock (logged 0) (ts_ns request))
         end.

Definition fputs (msg : string) : M unit :=
  fun s => Returned tt (set_stderr s (stderr s ++ [msg])).

(** Modelled from the spec: the creation of the node record (section 7,
    allocation errors), [wiringPiNewNode] of wiringPi.c and [malloc].  The
    result tells whether the pointer returned is non-null. *)
Definition wiringPiNewNode (base numPins : Z) : M bool :=
  fun s =>
    if nodeAvailable s
    then Returned true
           (set_node s (Some (mkNode base (base + numPins - 1) None
                                     digitalWriteDummy digitalReadDummy)))
    else Returned false (set_node s None).

Definition malloc : M bool := fun s => Returned (memAvailable s) s.

(** ** Access to the node and to its data structure through their pointers *)

(** [*node] *)
Definition nodeStruct : M wiringPiNodeStruct :=
  fun s => match node s with
           | Some n => Returned n s
           | None => Aborted NullDereference s
           end.

(** [*(node->dataStruct)] *)
Definition nodeData : M hd44780DataStruct :=
  n <- nodeStruct ;;
  match dataStruct n with
  | Some nd => ret nd
  | None => abort NullDereference
  end.

Definition store_node (f : wiringPiNodeStruct -> wiringPiNodeStruct) : M unit :=
  n <- nodeStruct ;; fun s => Returned tt (set_node s (Some (f n))).

Definition store_nodeData (f : hd44780DataStruct -> hd44780DataStruct) : M unit :=
  nd <- nodeData ;;
  store_node (fun n => mkNode (pinBase n) (pinMax n) (Some (f nd))
                              (digitalWrite_h n) (digitalRead_h n)).

(** ** hd44780.c, lines 101-145 *)

Definition setStatusPins (RS RW : bool) : M unit :=
  nd <- nodeData ;;
  digitalWrite (pinRS nd) (Z.b2z RS) ;;
  when (readEnabled nd) (digitalWrite (pinRW nd) (Z.b2z RW)) ;;
  delayNanoseconds 50.

Definition writeCycleStart (pinE : Z) : M unit := digitalWrite pinE HIGH.

Definition writeCycleEnd (pinE : Z) : M unit :=
  delayNanoseconds enable_duration ;;
  digitalWrite pinE LOW ;;
  delayNanoseconds enable_duration.

Definition writeCycleEndShort (pinE : Z) : M unit :=
  delayNanoseconds enable_duration ;;
  digitalWrite pinE LOW.

Definition readCycleStart (pinE : Z) : M unit :=
  digitalWrite pinE HIGH ;;
  delayNanoseconds enable_duration.

Definition readCycleEnd (pinE : Z) : M unit :=
  digitalWrite pinE LOW ;;
  delayNanoseconds enable_duration.

Definition readCycleEndShort (pinE : Z) : M unit := digitalWrite pinE LOW.

(** ** The busy-wait routines, lines 148-231 *)

Definition waitWhileBusy_ReadDisabled (fuel : nat) : M unit :=
  nd <- nodeData ;;
  tsNow <- clock_gettime ;;
  when (timespec_gt (operation_end nd) tsNow)
    (while fuel
       (r <- clock_nanosleep CLOCK_MONOTONIC_RAW (operation_end nd) ;; ret (negb (r =? 0)))
       (ret tt)).

(** Lines 152-158, and again 184-190: the sleep taken by the read-capable
    routines when the deadline is more than 100 us away.  Its result is
    dropped. *)
Definition sleepIfFar : M unit :=
  nd <- nodeData ;;
  now <- clock_gettime ;;
  when ((tv_sec (operation_end nd) - tv_sec now) * 1000000000
        + (tv_nsec (operation_end nd) - tv_nsec now) >? 100000)
    (_ <- clock_nanosleep CLOCK_MONOTONIC_RAW (operation_end nd) ;; ret tt).

Definition waitWhileBusy_8 (fuel : nat) : M unit :=
  nd <- nodeData ;;
  if readEnabled nd then
    sleepIfFar ;;
    pinMode (DB nd 7) INPUT ;;
    setStatusPins false true ;;
    readCycleStart (pinE nd) ;;
    while fuel
      (v <- digitalRead (DB nd 7) ;; ret (negb (v =? LOW)))
      (readCycleEnd (pinE nd) ;;
       readCycleStart (pinE nd)) ;;
    pinMode (DB nd 7) OUTPUT ;;
    readCycleEnd (pinE nd)
  else
    waitWhileBusy_ReadDisabled fuel.

Definition waitWhileBusy_4 (fuel : nat) : M unit :=
  nd <- nodeData ;;
  if readEnabled nd then
    sleepIfFar ;;
    pinMode (DB nd 7) INPUT ;;
    setStatusPins false true ;;
    readCycleStart (pinE nd) ;;
    while fuel
      (v <- digitalRead (DB nd 7) ;; ret (negb (v =? LOW)))
      (readCycleEnd (pinE nd) ;;
       readCycleStart (pinE nd) ;;
       readCycleEnd (pinE nd) ;;
       readCycleStart (pinE nd)) ;;
    pinMode (DB nd 7) OUTPUT ;;
    readCycleEnd (pinE nd) ;;
    readCycleStart (pinE nd) ;;
    readCycleEnd (pinE nd)
  else
    waitWhileBusy_ReadDisabled fuel.

(** ** The write handlers, lines 234-332 *)

(** Lines 272-281, and again 318-327: the recovery delay of a command. *)
Definition busy_delay (RS : bool) (data8 : Z) : timespec :=
  if RS then extended_busy_delay
  else if Z.land data8 0xFF >? 0x03 then standard_busy_delay
  else reset_busy_delay.

(** Lines 283-284, and again 329-330. *)
Definition setOperationEnd (delay : timespec) : M unit :=
  now <- clock_gettime ;;
  store_nodeData (fun nd => with_operation_end nd (timespec_add now delay)).

Definition hd44780DigitalWrite_4 (fuel : nat) (pin data : Z) : M unit :=
  n <- nodeStruct ;;
  nd <- nodeData ;;
  let data8 := data mod 256 in
  let RS := pin =? pinBase n in
  waitWhileBusy_4 fuel ;;
  setStatusPins RS false ;;
  writeCycleStart (pinE nd) ;;
  forM (range 4 8) (fun i => digitalWrite (DB nd i) (Z.land (Z.shiftr data8 i) 1)) ;;
  writeCycleEnd (pinE nd) ;;
  writeCycleStart (pinE nd) ;;
  forM (range 4 8) (fun i => digitalWrite (DB nd i) (Z.land (Z.shiftr data8 (i - 4)) 1)) ;;
  writeCycleEnd (pinE nd) ;;
  setOperationEnd (busy_delay RS data8).

Definition hd44780DigitalWrite_8 (fuel : nat) (pin data : Z) : M unit :=
  n <- nodeStruct ;;
  nd <- nodeData ;;
  let data8 := data mod 256 in
  let RS := pin =? pinBase n in
  if negb (mode8 nd) then
    when (negb RS && (Z.land data8 0xF0 =? 0x30))
      (store_nodeData (fun nd => with_mode8 nd true)) ;;
    hd44780DigitalWrite_4 fuel pin data8
  else
    when (negb RS && (Z.land data8 0xF0 =? 0x20))
      (store_nodeData (fun nd => with_mode8 nd false)) ;;
    waitWhileBusy_8 fuel ;;
    setStatusPins RS false ;;
    writeCycleStart (pinE nd) ;;
    forM (range 0 8) (fun i => digitalWrite (DB nd i) (Z.land (Z.shiftr data8 i) 1)) ;;
    writeCycleEnd (pinE nd) ;;
    setOperationEnd (busy_delay RS data8).

(** ** The read handlers, lines 336-418 *)

(** [data = (data << 1) | level], [data] being a [uint8_t] *)
Definition shift_in (data level : Z) : Z := Z.lor (Z.shiftl data 1) level mod 256.

Definition hd44780DigitalRead_4 (fuel : nat) (pin : Z) : M Z :=
  n <- nodeStruct ;;
  nd <- nodeData ;;
  forM (range 4 8) (fun i => pinMode (DB nd i) INPUT) ;;
  (if pin =? pinBase n
   then assume (readEnabled nd) ;; waitWhileBusy_4 fuel ;; setStatusPins true true
   else setStatusPins false true) ;;
  readCycleStart (pinE nd) ;;
  data <- foldM (rev (range 4 8))
            (fun i data => v <- digitalRead (DB nd i) ;;
                           ret (shift_in data (Z.b2z (negb (v =? 0))))) 0 ;;
  readCycleEnd (pinE nd) ;;
  readCycleStart (pinE nd) ;;
  data <- foldM (rev (range 4 8))
            (fun i data => v <- digitalRead (DB nd i) ;;
                           ret (shift_in data (Z.b2z (negb (v =? 0))))) data ;;
  readCycleEnd (pinE nd) ;;
  forM (range 4 8) (fun i => pinMode (DB nd i) OUTPUT) ;;
  ret data.

Definition hd44780DigitalRead_8 (fuel : nat) (pin : Z) : M Z :=
  n <- nodeStruct ;;
  nd <- nodeData ;;
  if negb (mode8 nd) then hd44780DigitalRead_4 fuel pin
  else
    (if pin =? pinBase n
     then assume (readEnabled nd) ;; waitWhileBusy_8 fuel ;; setStatusPins true true
     else setStatusPins false true) ;;
    forM (range 0 8) (fun i => pinMode (DB nd i) INPUT) ;;
    readCycleStart (pinE nd) ;;
    data <- foldM (rev (range 0 8))
              (fun i data => v <- digitalRead (DB nd i) ;;
                             ret (shift_in data v)) 0 ;;
    readCycleEnd (pinE nd) ;;
    forM (range 0 8) (fun i => pinMode (DB nd i) OUTPUT) ;;
    ret data.

(** ** hd44780Setup, lines 421-529 *)

Definition setupPin (pin : Z) : M unit :=
  pullUpDnControl pin PUD_UP ;;
  pinMode pin OUTPUT ;;
  digitalWrite pin LOW.

(** The macro CHECK_PIN; [fail] is [fail_preconditions] before the check and
    the result is its value after. *)
Definition CHECK_PIN (name : string) (id : Z) (fail : bool) : M bool :=
  if (id <? 0) || ((id >=? 64) && negb (wiringPiFindNode id))
  then fputs (pin_error name id) ;;
       ret true
  else ret fail.

(** Lines 471-528: what follows the block that checks the preconditions. *)
Definition hd44780Setup_install (base : Z) (readEnabled mode8Enabled : bool)
    (pinRS pinRW pinE pinDB7 pinDB6 pinDB5 pinDB4 pinDB3 pinDB2 pinDB1 pinDB0 : Z) : M Z :=
  created <- wiringPiNewNode base 2 ;;
  when (negb created) (fputs ("Error: unable to allocate WiringPi node." ++ nl)) ;;
  allocated <- malloc ;;
  if allocated then
    store_node (fun n =>
      mkNode (pinBase n) (pinMax n)
             (Some (mkData readEnabled mode8Enabled mode8Enabled pinRS pinRW pinE
                           [pinDB0; pinDB1; pinDB2; pinDB3; pinDB4; pinDB5; pinDB6; pinDB7]
                           (mkTimespec 0 0)))
             (digitalWrite_h n) (digitalRead_h n)) ;;
    setupPin pinRS ;;
    when readEnabled (setupPin pinRW) ;;
    setupPin pinE ;;
    setupPin pinDB7 ;;
    setupPin pinDB6 ;;
    setupPin pinDB5 ;;
    setupPin pinDB4 ;;
    if mode8Enabled then
      setupPin pinDB3 ;;
      setupPin pinDB2 ;;
      setupPin pinDB1 ;;
      setupPin pinDB0 ;;
      store_node (fun n => mkNode (pinBase n) (pinMax n) (dataStruct n)
                                  Handler_DigitalWrite_8 (digitalRead_h n)) ;;
      when readEnabled
        (store_node (fun n => mkNode (pinBase n) (pinMax n) (dataStruct n)
                                     (digitalWrite_h n) Handler_DigitalRead_8)) ;;
      ret EXIT_SUCCESS
    else
      writeCycleStart pinE ;;
      digitalWrite pinDB5 HIGH ;;
      writeCycleEnd pinE ;;
      digitalWrite pinDB5 LOW ;;
      delayMicroseconds 37 ;;
      store_node (fun n => mkNode (pinBase n) (pinMax n) (dataStruct n)
                                  Handler_DigitalWrite_4 (digitalRead_h n)) ;;
      when readEnabled
        (store_node (fun n => mkNode (pinBase n) (pinMax n) (dataStruct n)
                                     (digitalWrite_h n) Handler_DigitalRead_4)) ;;
      ret EXIT_SUCCESS
  else
    store_node (fun n => mkNode (pinBase n) (pinMax n) None
                                (digitalWrite_h n) (digitalRead_h n)) ;;
    fputs ("Error: unable to allocate node data structure." ++ nl) ;;
    ret EXIT_FAILURE.

Definition hd44780Setup (base : Z) (readEnabled mode8Enabled : bool)
    (pinRS pinRW pinE pinDB7 pinDB6 pinDB5 pinDB4 pinDB3 pinDB2 pinDB1 pinDB0 : Z) : M Z :=
  fail <- CHECK_PIN "pinRS" pinRS false ;;
  fail <- (if readEnabled then CHECK_PIN "pinRW" pinRW fail else ret fail) ;;
  fail <- CHECK_PIN "pinE" pinE fail ;;
  fail <- CHECK_PIN "pinDB7" pinDB7 fail ;;
  fail <- CHECK_PIN "pinDB6" pinDB6 fail ;;
  fail <- CHECK_PIN "pinDB5" pinDB5 fail ;;
  fail <- CHECK_PIN "pinDB4" pinDB4 fail ;;
  fail <- (if mode8Enabled
           then fail <- CHECK_PIN "pinDB3" pinDB3 fail ;;
                fail <- CHECK_PIN "pinDB2" pinDB2 fail ;;
                fail <- CHECK_PIN "pinDB1" pinDB1 fail ;;
                CHECK_PIN "pinDB0" pinDB0 fail
           else ret fail) ;;
  if fail then
    fputs ("hd44780Setup() failed." ++ nl) ;;
    ret EXIT_FAILURE
  else
    hd44780Setup_install base readEnabled mode8Enabled
      pinRS pinRW pinE pinDB7 pinDB6 pinDB5 pinDB4 pinDB3 pinDB2 pinDB1 pinDB0.

(** ** Dispatch of a pseudo-pin call to the handler the node carries *)

(** Modelled from the spec: the generic digital-write and digital-read
    dispatch of the pseudo-pin mechanism (section 6; wiringPi.c), which
    calls [node->digitalWrite (node, pin, value)] and [node->digitalRead
    (node, pin)]; the dummy handlers do nothing and read [LOW]. *)
Definition nodeDigitalWrite (fuel : nat) (pin value : Z) : M unit :=
  n <- nodeStruct ;;
  match digitalWrite_h n with
  | digitalWriteDummy => ret tt
  | Handler_DigitalWrite_8 => hd44780DigitalWrite_8 fuel pin value
  | Handler_DigitalWrite_4 => hd44780DigitalWrite_4 fuel pin value
  end.

Definition nodeDigitalRead (fuel : nat) (pin : Z) : M Z :=
  n <- nodeStruct ;;
  match digitalRead_h n with
  | digitalReadDummy => ret LOW
  | Handler_DigitalRead_8 => hd44780DigitalRead_8 fuel pin
  | Handler_DigitalRead_4 => hd44780DigitalRead_4 fuel pin
  end.

End Driver.

(** ** Command instruction helpers, lines 536-566 *)

Definition hd44780CMD_Clear : Z := 0x01.
Definition hd44780CMD_Home : Z := 0x02.
Definition hd44780CMD_EntryMode (decrement shift : bool) : Z :=
  Z.lor (Z.lor 0x04 (Z.b2z decrement * 0x02)) (Z.b2z shift * 0x01).
Definition hd44780CMD_OnOff (display cursor blink : bool) : Z :=
  Z.lor (Z.lor (Z.lor 0x08 (Z.b2z display * 0x04)) (Z.b2z cursor * 0x02)) (Z.b2z blink * 0x01).
Definition hd44780CMD_Shift (cursorDisplay leftRight : bool) : Z :=
  Z.lor (Z.lor 0x10 (Z.b2z cursorDisplay * 0x08)) (Z.b2z leftRight * 0x04).
Definition hd44780CMD_FnSet (dataLength displayLines font : bool) : Z :=
  Z.lor (Z.lor (Z.lor 0x20 (Z.b2z dataLength * 0x10)) (Z.b2z displayLines * 0x08))
        (Z.b2z font * 0x04).
Definition hd44780CMD_SetCGRAM (address : Z) : Z := Z.lor 0x40 (Z.land (address mod 256) 0x3F).
Definition hd44780CMD_SetDDRAM (address : Z) : Z := Z.lor 0x80 (Z.land (address mod 256) 0x7F).


(** ** Observations on a trace *)

(** The event writes, pulls or reconfigures pin [p]. *)
Definition touches (p : Z) (e : Event) : bool :=
  match e with
  | EvWrite q _ => q =? p
  | EvMode q _ => q =? p
  | EvPull q _ => q =? p
  | _ => false
  end.

Definition is_sleep (e : Event) : bool :=
  match e with EvSleep _ _ => true | _ => false end.

(** The direction pin [p] had at each read of it, in order. *)
Fixpoint directions_at_reads (tr : list Event) (p : Z) (m : PinModeT) : list PinModeT :=
  match tr with
  | [] => []
  | EvMode q m' :: tr' => directions_at_reads tr' p (if q =? p then m' else m)
  | EvRead q _ :: tr' =>
      if q =? p then m :: directions_at_reads tr' p m else directions_at_reads tr' p m
  | _ :: tr' => directions_at_reads tr' p m
  end.

(** ** The state of the driver, as the properties below speak of it *)

Definition data_of (s : State) : option hd44780DataStruct :=
  match node s with
  | Some n => dataStruct n
  | None => None
  end.

Definition write_handler_of (s : State) : WriteHandler :=
  match node s with
  | Some n => digitalWrite_h n
  | None => digitalWriteDummy
  end.

Definition read_handler_of (s : State) : ReadHandler :=
  match node s with
  | Some n => digitalRead_h n
  | None => digitalReadDummy
  end.

(** The configuration of a node: its data structure with the two mutable
    fields blanked. *)
Definition config (nd : hd44780DataStruct) : hd44780DataStruct :=
  with_operation_end (with_mode8 nd false) (mkTimespec 0 0).

(** The node of state [s] carries a data structure of configuration [cfg]. *)
Definition configured (cfg : hd44780DataStruct) (n : option wiringPiNodeStruct) : Prop :=
  match n with
  | Some n' => match dataStruct n' with
               | Some nd => config nd = cfg
               | None => True
               end
  | None => True
  end.

(** The pins [hd44780Setup] checks, with the names it reports them under. *)
Definition referenced_pins (readEnabled mode8Enabled : bool)
    (pinRS pinRW pinE pinDB7 pinDB6 pinDB5 pinDB4 pinDB3 pinDB2 pinDB1 pinDB0 : Z)
    : list (string * Z) :=
  [("pinRS"%string, pinRS)]
  ++ (if readEnabled then [("pinRW"%string, pinRW)] else [])
  ++ [("pinE"%string, pinE); ("pinDB7"%string, pinDB7); ("pinDB6"%string, pinDB6);
      ("pinDB5"%string, pinDB5); ("pinDB4"%string, pinDB4)]
  ++ (if mode8Enabled
      then [("pinDB3"%string, pinDB3); ("pinDB2"%string, pinDB2);
            ("pinDB1"%string, pinDB1); ("pinDB0"%string, pinDB0)]
      else []).

(** A pin id is invalid when negative, or at least 64 with no node
    registered for it. *)
Definition invalid_pin (registered : Z -> bool) (id : Z) : bool :=
  (id <? 0) || ((64 <=? id) && negb (registered id)).

(** ** The Mode Negotiator and the two encodings, in the words of the spec *)

(** Section 4.4: the active width after an outgoing byte; [true] is EightBit. *)
Definition negotiate (width8 RS : bool) (byte : Z) : bool :=
  if RS then width8
  else if negb width8 && (Z.land byte 0xF0 =? 0x30) then true
  else if width8 && (Z.land byte 0xF0 =? 0x20) then false
  else width8.

(** Section 4.1: the delay class as the spec words it, on the low six bits. *)
Definition spec_delay_class (RS : bool) (byte : Z) : timespec :=
  if RS then extended_busy_delay
  else if Z.land byte 0x3F <=? 3 then reset_busy_delay
  else standard_busy_delay.

Definition bit (byte i : Z) : bool := Z.testbit byte i.

(** The control lines as [setStatusPins] drives them for a write. *)
Definition status_events (nd : hd44780DataStruct) (RS RW : bool) : list Event :=
  [EvWrite (pinRS nd) RS]
  ++ (if readEnabled nd then [EvWrite (pinRW nd) RW] else [])
  ++ [EvDelayNs 50].

(** Section 4.2, 8-bit variant: one strobe cycle with all eight lines. *)
Definition encode_8 (nd : hd44780DataStruct) (RS : bool) (byte : Z) : list Event :=
  status_events nd RS false
  ++ [EvWrite (pinE nd) true]
  ++ map (fun i => EvWrite (DB nd i) (bit byte i)) (range 0 8)
  ++ [EvDelayNs 300; EvWrite (pinE nd) false; EvDelayNs 300].

(** Section 4.2, 4-bit variant: two strobe cycles on lines 4 to 7, the high
    nibble first. *)
Definition encode_4 (nd : hd44780DataStruct) (RS : bool) (byte : Z) : list Event :=
  status_events nd RS false
  ++ [EvWrite (pinE nd) true]
  ++ map (fun i => EvWrite (DB nd i) (bit byte i)) (range 4 8)
  ++ [EvDelayNs 300; EvWrite (pinE nd) false; EvDelayNs 300]
  ++ [EvWrite (pinE nd) true]
  ++ map (fun i => EvWrite (DB nd i) (bit byte (i - 4))) (range 4 8)
  ++ [EvDelayNs 300; EvWrite (pinE nd) false; EvDelayNs 300].

(** ** The polls of the read-capable 4-bit busy-wait *)

(** A strobe cycle: the enable line raised and lowered, each level held. *)
Definition strobe_up (nd : hd44780DataStruct) : list Event :=
  [EvWrite (pinE nd) true; EvDelayNs 300].
Definition strobe_down (nd : hd44780DataStruct) : list Event :=
  [EvWrite (pinE nd) false; EvDelayNs 300].

(** What precedes the first poll. *)
Definition poll_open (nd : hd44780DataStruct) : list Event :=
  [EvMode (DB nd 7) INPUT] ++ status_events nd false true.

(** A poll that finds the busy line high: a transfer of two strobe cycles,
    the busy line sampled in the first, nothing sampled in the second. *)
Definition poll_busy_4 (nd : hd44780DataStruct) : list Event :=
  strobe_up nd ++ [EvRead (DB nd 7) true] ++ strobe_down nd
  ++ strobe_up nd ++ strobe_down nd.

(** The poll that finds the busy line low: the cycle in progress is
    completed, and one more full cycle follows. *)
Definition poll_ready_4 (nd : hd44780DataStruct) : list Event :=
  strobe_up nd ++ [EvRead (DB nd 7) false; EvMode (DB nd 7) OUTPUT] ++ strobe_down nd
  ++ strobe_up nd ++ strobe_down nd.

(** The trace at the moment of the poll number [j], [t] being the trace
    before the first. *)
Definition at_poll_4 (nd : hd44780DataStruct) (t : list Event) (j : nat) : list Event :=
  t ++ poll_open nd ++ List.concat (repeat (poll_busy_4 nd) j) ++ strobe_up nd.

(** Rising edges of the enable line. *)
Definition strobes (nd : hd44780DataStruct) (tr : list Event) : nat :=
  List.length (filter (fun e => match e with
                                | EvWrite p true => p =? pinE nd
                                | _ => false
                                end) tr).

(** ** A simulated display on the bus *)

(** Modelled from the spec: the simulated bus of section 8, a display
    controller that latches what is driven to it.  It keeps one byte per
    target (memory, instruction), taken on the falling edge of the enable
    line while read/write-control is low: in one cycle from the eight lines
    when its interface is 8 bits wide, in two cycles from lines 4 to 7, high
    nibble first, when it is 4 bits wide.  It powers on 8 bits wide, and an
    instruction of the function-set class sets the width.  While the enable
    line and read/write-control are high it drives the byte of the selected
    target onto the lines, nibble by nibble when 4 bits wide.  A host pin
    configured as output reads back the level the host drives; an input pin
    reads what the display drives, or its pull-up. *)
Record Lcd := mkLcd {
  host_mode : Z -> PinModeT;
  host_level : Z -> bool;
  lcd_dl8 : bool;
  lcd_second : bool;
  lcd_high : Z;
  lcd_mem : Z;
  lcd_ins : Z
}.

Definition lcd_power_on : Lcd :=
  mkLcd (fun _ => INPUT) (fun _ => false) true false 0 0 0.

Definition upd {A} (f : Z -> A) (p : Z) (v : A) : Z -> A :=
  fun q => if q =? p then v else f q.

(** The level the host puts on data line [i]; the lines 0 to 3 of a node
    without the 8-bit capability are tied to ground. *)
Definition line_level (nd : hd44780DataStruct) (d : Lcd) (i : Z) : bool :=
  if (i <? 4) && negb (mode8Enabled nd) then false
  else match host_mode d (DB nd i) with
       | OUTPUT => host_level d (DB nd i)
       | INPUT => true
       end.

Definition lines_value (nd : hd44780DataStruct) (d : Lcd) (ls : list Z) : Z :=
  fold_left (fun acc i => 2 * acc + Z.b2z (line_level nd d i)) ls 0.

Definition rs_level (nd : hd44780DataStruct) (d : Lcd) : bool := host_level d (pinRS nd).
Definition rw_level (nd : hd44780DataStruct) (d : Lcd) : bool :=
  readEnabled nd && host_level d (pinRW nd).

Definition lcd_commit (d : Lcd) (rs : bool) (byte : Z) : Lcd :=
  if rs then
    mkLcd (host_mode d) (host_level d) (lcd_dl8 d) false (lcd_high d) byte (lcd_ins d)
  else
    mkLcd (host_mode d) (host_level d)
          (if Z.land byte 0xE0 =? 0x20 then Z.testbit byte 4 else lcd_dl8 d)
          false (lcd_high d) (lcd_mem d) byte.

(** The falling edge of the enable line. *)
Definition lcd_strobe (nd : hd44780DataStruct) (d : Lcd) : Lcd :=
  if rw_level nd d then
    mkLcd (host_mode d) (host_level d) (lcd_dl8 d)
          (if lcd_dl8 d then false else negb (lcd_second d))
          (lcd_high d) (lcd_mem d) (lcd_ins d)
  else if lcd_dl8 d then
    lcd_commit d (rs_level nd d) (lines_value nd d [7; 6; 5; 4; 3; 2; 1; 0])
  else if lcd_second d then
    lcd_commit d (rs_level nd d) (16 * lcd_high d + lines_value nd d [7; 6; 5; 4])
  else
    mkLcd (host_mode d) (host_level d) (lcd_dl8 d) true
          (lines_value nd d [7; 6; 5; 4]) (lcd_mem d) (lcd_ins d).

Definition lcd_step (nd : hd44780DataStruct) (d : Lcd) (e : Event) : Lcd :=
  match e with
  | EvMode p m =>
      mkLcd (upd (host_mode d) p m) (host_level d) (lcd_dl8 d) (lcd_second d)
            (lcd_high d) (lcd_mem d) (lcd_ins d)
  | EvWrite p v =>
      let d' := mkLcd (host_mode d) (upd (host_level d) p v) (lcd_dl8 d) (lcd_second d)
                      (lcd_high d) (lcd_mem d) (lcd_ins d) in
      if (p =? pinE nd) && host_level d p && negb v then lcd_strobe nd d' else d'
  | _ => d
  end.

(** The data line a host pin is wired to, if any. *)
Definition line_of (nd : hd44780DataStruct) (p : Z) : option Z :=
  find (fun i => DB nd i =? p)
       (if mode8Enabled nd then [7; 6; 5; 4; 3; 2; 1; 0] else [7; 6; 5; 4]).

Definition lcd_drives (nd : hd44780DataStruct) (d : Lcd) (i : Z) : bool :=
  let byte := if rs_level nd d then lcd_mem d else lcd_ins d in
  if lcd_dl8 d then Z.testbit byte i
  else if lcd_second d then Z.testbit byte (i - 4)
  else Z.testbit byte i.

Definition lcd_bus (nd : hd44780DataStruct) (tr : list Event) (p : Z) : bool :=
  let d := fold_left (lcd_step nd) tr lcd_power_on in
  match host_mode d p with
  | OUTPUT => host_level d p
  | INPUT =>
      match line_of nd p with
      | Some i => if host_level d (pinE nd) && rw_level nd d
                  then lcd_drives nd d i else true
      | None => true
      end
  end.

(** Pins a 4-bit transfer works on, and pins a node works on at all. *)
Definition pins_4 (cfg : hd44780DataStruct) : list Z :=
  [pinRS cfg; pinE cfg; DB cfg 4; DB cfg 5; DB cfg 6; DB cfg 7]
  ++ (if readEnabled cfg then [pinRW cfg] else []).

Definition pins_used (cfg : hd44780DataStruct) : list Z :=
  pins_4 cfg
  ++ (if mode8Enabled cfg then [DB cfg 0; DB cfg 1; DB cfg 2; DB cfg 3] else []).

(** Every pin the event writes, pulls or reconfigures is one of [pins]. *)
Definition within (pins : list Z) (e : Event) : Prop :=
  forall p, touches p e = true -> In p pins.

(** From [s] to [s'] the trace only grew, by events that leave [p] alone. *)
Definition untouched (p : Z) (s s' : State) : Prop :=
  exists d, trace s' = trace s ++ d /\ Forall (fun e => touches p e = false) d.

(** A node as [hd44780Setup] leaves it and the handlers keep it: of
    configuration [cfg], 8 bits wide only when capable of it, and with an
    8-bit handler only when capable of it. *)
Definition node_ok (cfg : hd44780DataStruct) (n : option wiringPiNodeStruct) : Prop :=
  match n with
  | Some n' =>
      match dataStruct n' with
      | Some nd => config nd = cfg /\ (mode8 nd = true -> mode8Enabled cfg = true)
      | None => True
      end
      /\ (digitalWrite_h n' = Handler_DigitalWrite_8 -> mode8Enabled cfg = true)
      /\ (digitalRead_h n' = Handler_DigitalRead_8 -> mode8Enabled cfg = true)
  | None => True
  end.

(** The message for an invalid entry of [referenced_pins]. *)
Definition report (x : string * Z) : string := pin_error (fst x) (snd x).

(** The state before anything was done, with memory to spare, on a platform
    that refuses to sleep against CLOCK_MONOTONIC_RAW, as Linux does. *)
Definition power_on : State := mkState [] 0 [] [] true true None false.

(** A bus on which every line reads low, and a registry without nodes. *)
Definition quiet : list Event -> Z -> bool := fun _ _ => false.
Definition noreg : Z -> bool := fun _ => false.

(** State [s] after the events [d] were made, taking [dt] nanoseconds. *)
Definition log (s : State) (d : list Event) (dt : Z) : State :=
  set_clock (set_trace s (trace s ++ d)) (clock s + dt).

(** State [s] with the active width of its node set to [b]. *)
Definition set_mode8 (s : State) (b : bool) : State :=
  match node s with
  | Some n =>
      match dataStruct n with
      | Some nd => set_node s (Some (mkNode (pinBase n) (pinMax n) (Some (with_mode8 nd b))
                                            (digitalWrite_h n) (digitalRead_h n)))
      | None => s
      end
  | None => s
  end.

(** A node without read-back on a 4-bit bus, as [hd44780Setup] leaves it,
    and one with read-back on an 8-bit bus. *)
Definition after_setup_4 : State :=
  final (hd44780Setup noreg 64 false false 1 2 3 7 6 5 4 11 10 9 8 power_on).

Definition after_setup_8 : State :=
  final (hd44780Setup noreg 64 true true 1 2 3 7 6 5 4 11 10 9 8 power_on).

(** [runs nd m d dt]: on a node of data [nd], [m] returns having made
    exactly the events [d] and taken [dt] nanoseconds, whatever the bus. *)
Definition runs (nd : hd44780DataStruct) (m : M unit) (d : list Event) (dt : Z) : Prop :=
  forall s, data_of s = Some nd -> m s = Returned tt (log s d dt).

(** The node and the data structure of [after_setup_8]. *)
Definition data_8 : hd44780DataStruct :=
  mkData true true true 1 2 3 [8; 9; 10; 11; 4; 5; 6; 7] (mkTimespec 0 0).

Definition node_8 : wiringPiNodeStruct :=
  mkNode 64 65 (Some data_8) Handler_DigitalWrite_8 Handler_DigitalRead_8.

(** The node and the data structure of [after_setup_4]. *)
Definition data_4 : hd44780DataStruct :=
  mkData false false false 1 2 3 [8; 9; 10; 11; 4; 5; 6; 7] (mkTimespec 0 0).

Definition node_4 : wiringPiNodeStruct :=
  mkNode 64 65 (Some data_4) Handler_DigitalWrite_4 digitalReadDummy.

(** One turn of the loop of [waitWhileBusy_4]: the busy line read high, then
    the body. *)
Definition turn_4 (nd : hd44780DataStruct) : list Event :=
  [EvRead (DB nd 7) true] ++ strobe_down nd ++ strobe_up nd ++ strobe_down nd
  ++ strobe_up nd.

(** A node with read-back on a 4-bit bus, as [hd44780Setup] leaves it. *)
Definition after_setup_4r : State :=
  final (hd44780Setup noreg 64 true false 1 2 3 7 6 5 4 11 10 9 8 power_on).

Definition data_4r : hd44780DataStruct :=
  mkData true false false 1 2 3 [8; 9; 10; 11; 4; 5; 6; 7] (mkTimespec 0 0).

(** How many times [pin] was read in [tr]. *)
Definition reads_of (pin : Z) (tr : list Event) : nat :=
  List.length (filter (fun e => match e with
                                | EvRead p _ => p =? pin
                                | _ => false
                                end) tr).

(** A bus on which [pin] reads high the first [n] times it is read and low
    afterwards, every other line reading low. *)
Definition busy_times (n : nat) (pin : Z) : list Event -> Z -> bool :=
  fun tr p => (p =? pin) && Nat.ltb (reads_of pin tr) n.

(** [after_setup_8] once the instruction Home was written to it, with a
    signal due 1 us later. *)
Definition after_home : State :=
  let s := final (nodeDigitalWrite quiet 1 65 hd44780CMD_Home after_setup_8) in
  set_signals s [clock s + 1000].

(** [after_setup_4] once the instruction Home was written to it, with two
    signals due, 1 us and 2 us later. *)
Definition after_home_4 : State :=
  let s := final (nodeDigitalWrite quiet 1 65 hd44780CMD_Home after_setup_4) in
  set_signals s [clock s + 1000; clock s + 2000].

(** What a read of [target] returns right after [byte] was written to it,
    on the node [after_setup_4r] wired to the simulated display. *)
Definition read_back (target byte : Z) : option Z :=
  match nodeDigitalWrite (lcd_bus data_4r) 1 target byte after_setup_4r with
  | Returned _ s2 =>
      match nodeDigitalRead (lcd_bus data_4r) 1 target s2 with
      | Returned v _ => Some v
      | Aborted _ _ => None
      end
  | Aborted _ _ => None
  end.

(** The last level written to any pin in a trace, with the pin, starting
    from [acc]. *)
Fixpoint last_write_from (acc : option (Z * bool)) (tr : list Event) : option (Z * bool) :=
  match tr with
  | [] => acc
  | EvWrite p l :: tr' => last_write_from (Some (p, l)) tr'
  | _ :: tr' => last_write_from acc tr'
  end.

Definition last_write (tr : list Event) : option (Z * bool) := last_write_from None tr.

(** The state a 4-bit write leaves, [sw] being the state after its
    busy-wait. *)
Definition after_write_4 (sw : State) (n : wiringPiNodeStruct) (nd : hd44780DataStruct)
    (RS : bool) (byte : Z) : State :=
  set_node (log sw (encode_4 nd RS byte) 1250)
    (Some (mkNode (pinBase n) (pinMax n)
             (Some (with_operation_end nd
                      (timespec_add (now_of (log sw (encode_4 nd RS byte) 1250))
                                    (busy_delay RS byte))))
             (digitalWrite_h n) (digitalRead_h n))).

(** The state an 8-bit write leaves, [sw] being the state after its
    busy-wait. *)
Definition after_write_8 (sw : State) (n : wiringPiNodeStruct) (nd : hd44780DataStruct)
    (RS : bool) (byte : Z) : State :=
  set_node (log sw (encode_8 nd RS byte) 650)
    (Some (mkNode (pinBase n) (pinMax n)
             (Some (with_operation_end nd
                      (timespec_add (now_of (log sw (encode_8 nd RS byte) 650))
                                    (busy_delay RS byte))))
             (digitalWrite_h n) (digitalRead_h n))).

Definition is_write (e : Event) : bool :=
  match e with EvWrite _ _ => true | _ => false end.

(** ** What a read samples *)

(** The levels the bus gives when the pins [pins] are read one after the
    other, the trace being [tr] before the first read. *)
Fixpoint sample (bus : list Event -> Z -> bool) (pins : list Z) (tr : list Event)
    : list bool :=
  match pins with
  | [] => []
  | p :: ps => bus tr p :: sample bus ps (tr ++ [EvRead p (bus tr p)])
  end.

(** The reads of [pins] that found the levels [bits]. *)
Definition read_events (pins : list Z) (bits : list bool) : list Event :=
  map (fun pb => EvRead (fst pb) (snd pb)) (combine pins bits).

(** The number whose binary digits are [bits], most significant first. *)
Definition bits_value (bits : list bool) : Z :=
  fold_left (fun acc b => 2 * acc + Z.b2z b) bits 0.

(** The pins of data lines 7 down to 0, and 7 down to 4. *)
Definition lines_8 (nd : hd44780DataStruct) : list Z := map (DB nd) (rev (range 0 8)).
Definition lines_4 (nd : hd44780DataStruct) : list Z := map (DB nd) (rev (range 4 8)).

(** What an 8-bit read does before it samples and after, and the same for a
    4-bit read. *)
Definition open_read_8 (nd : hd44780DataStruct) (RS : bool) : list Event :=
  status_events nd RS true
  ++ map (fun i => EvMode (DB nd i) INPUT) (range 0 8)
  ++ strobe_up nd.

Definition close_read_8 (nd : hd44780DataStruct) : list Event :=
  strobe_down nd ++ map (fun i => EvMode (DB nd i) OUTPUT) (range 0 8).

Definition open_read_4 (nd : hd44780DataStruct) (RS : bool) : list Event :=
  map (fun i => EvMode (DB nd i) INPUT) (range 4 8)
  ++ status_events nd RS true
  ++ strobe_up nd.

Definition close_read_4 (nd : hd44780DataStruct) : list Event :=
  strobe_down nd ++ map (fun i => EvMode (DB nd i) OUTPUT) (range 4 8).

(** The two nibbles a 4-bit status read samples, [t] being the trace before
    the read. *)
Definition status_hi_4 (bus : list Event -> Z -> bool) (nd : hd44780DataStruct)
    (t : list Event) : list bool :=
  sample bus (lines_4 nd) (t ++ open_read_4 nd false).

Definition status_lo_4 (bus : list Event -> Z -> bool) (nd : hd44780DataStruct)
    (t : list Event) : list bool :=
  sample bus (lines_4 nd)
    (t ++ open_read_4 nd false ++ read_events (lines_4 nd) (status_hi_4 bus nd t)
       ++ strobe_down nd ++ strobe_up nd).

(** ** The polls of the read-capable 8-bit busy-wait *)

(** A poll that finds the busy line high: one strobe cycle in which the busy
    line is sampled. *)
Definition poll_busy_8 (nd : hd44780DataStruct) : list Event :=
  strobe_up nd ++ [EvRead (DB nd 7) true] ++ strobe_down nd.

(** The poll that finds the busy line low: the line goes back to output
    before the cycle in progress is completed. *)
Definition poll_ready_8 (nd : hd44780DataStruct) : list Event :=
  strobe_up nd ++ [EvRead (DB nd 7) false; EvMode (DB nd 7) OUTPUT] ++ strobe_down nd.

(** One turn of the loop of [waitWhileBusy_8]: the busy line read high, then
    the body. *)
Definition turn_8 (nd : hd44780DataStruct) : list Event :=
  [EvRead (DB nd 7) true] ++ strobe_down nd ++ strobe_up nd.

(** The trace at the moment of the poll number [j], [t] being the trace
    before the first. *)
Definition at_poll_8 (nd : hd44780DataStruct) (t : list Event) (j : nat) : list Event :=
  t ++ poll_open nd ++ List.concat (repeat (poll_busy_8 nd) j) ++ strobe_up nd.

(** A bus on which every line reads high, as the pull-ups that [setupPin]
    turns on leave the lines when nothing drives them. *)
Definition pulled_up : list Event -> Z -> bool := fun _ _ => true.

(** ** What a successful hd44780Setup does *)

(** What [setupPin] does to a pin: pull-up on, output, driven low. *)
Definition idle_events (pin : Z) : list Event :=
  [EvPull pin PUD_UP; EvMode pin OUTPUT; EvWrite pin false].

(** Lines 516-520: one enable pulse with DB5 alone high, and the wait. *)
Definition prime_4 (pinE pinDB5 : Z) : list Event :=
  [EvWrite pinE true; EvWrite pinDB5 true; EvDelayNs 300; EvWrite pinE false;
   EvDelayNs 300; EvWrite pinDB5 false; EvDelayUs 37].

Definition setup_events (readEnabled mode8Enabled : bool)
    (pinRS pinRW pinE pinDB7 pinDB6 pinDB5 pinDB4 pinDB3 pinDB2 pinDB1 pinDB0 : Z)
    : list Event :=
  List.concat
    (map (fun x => idle_events (snd x))
         (referenced_pins readEnabled mode8Enabled pinRS pinRW pinE
            pinDB7 pinDB6 pinDB5 pinDB4 pinDB3 pinDB2 pinDB1 pinDB0))
  ++ (if mode8Enabled then [] else prime_4 pinE pinDB5).

(** The node a successful call leaves. *)
Definition installed_node (base : Z) (readEnabled mode8Enabled : bool)
    (pinRS pinRW pinE pinDB7 pinDB6 pinDB5 pinDB4 pinDB3 pinDB2 pinDB1 pinDB0 : Z)
    : wiringPiNodeStruct :=
  mkNode base (base + 1)
    (Some (mkData readEnabled mode8Enabled mode8Enabled pinRS pinRW pinE
                  [pinDB0; pinDB1; pinDB2; pinDB3; pinDB4; pinDB5; pinDB6; pinDB7]
                  (mkTimespec 0 0)))
    (if mode8Enabled then Handler_DigitalWrite_8 else Handler_DigitalWrite_4)
    (if readEnabled
     then if mode8Enabled then Handler_DigitalRead_8 else Handler_DigitalRead_4
     else digitalReadDummy).

(** ** A session: calls made through the pseudo-pins of the node *)

Inductive Call : Type :=
| CallWrite (pin value : Z)
| CallRead (pin : Z).

(** The calls of [l] made one after the other, each dispatched to the
    handler the node holds at that moment. *)
Fixpoint calls (bus : list Event -> Z -> bool) (fuel : nat) (l : list Call) : M unit :=
  match l with
  | [] => ret tt
  | CallWrite pin value :: l' => nodeDigitalWrite bus fuel pin value ;; calls bus fuel l'
  | CallRead pin :: l' => _ <- nodeDigitalRead bus fuel pin ;; calls bus fuel l'
  end.

(** The node [o] is there with its data structure, and has the pins and the
    handlers of [n0]. *)
Definition same_static (n0 : wiringPiNodeStruct) (o : option wiringPiNodeStruct) : Prop :=
  match o with
  | Some n => pinBase n = pinBase n0 /\ pinMax n = pinMax n0
              /\ digitalWrite_h n = digitalWrite_h n0
              /\ digitalRead_h n = digitalRead_h n0
              /\ dataStruct n <> None
  | None => False
  end.

(** ** Faults *)

(** From a state whose node satisfies [K], the computation keeps [K] and can
    be cut short only by running out of fuel: it dereferences no null
    pointer and violates no [[gnu::assume]]. *)
Definition safe {A} (K : option wiringPiNodeStruct -> Prop) (m : M A) : Prop :=
  forall s, K (node s) ->
    K (node (final (m s)))
    /\ forall f s', m s = Aborted f s' -> f = OutOfFuel.

(** The node is there with its data structure, its read handler is [h] and
    its read-capability is [re]. *)
Definition held (h : ReadHandler) (re : bool) (o : option wiringPiNodeStruct) : Prop :=
  match o with
  | Some n => digitalRead_h n = h
              /\ match dataStruct n with
                 | Some nd => readEnabled nd = re
                 | None => False
                 end
  | None => False
  end.

(** The node is there with its data structure, and holds a read handler of
    the driver only if capable of read-back. *)
Definition serviceable (o : option wiringPiNodeStruct) : Prop :=
  match o with
  | Some n => match dataStruct n with
              | Some nd => digitalRead_h n <> digitalReadDummy -> readEnabled nd = true
              | None => False
              end
  | None => False
  end.

(** ** The direction of a line when it is sampled *)

(** The direction pin [p] has after [tr], having had [m] before. *)
Fixpoint direction_of (tr : list Event) (p : Z) (m : PinModeT) : PinModeT :=
  match tr with
  | [] => m
  | EvMode q m' :: tr' => direction_of tr' p (if q =? p then m' else m)
  | _ :: tr' => direction_of tr' p m
  end.

(** How the read-capable busy-waits end, once the busy line has read low. *)
Definition wait_close_4 (nd : hd44780DataStruct) : list Event :=
  [EvMode (DB nd 7) OUTPUT] ++ strobe_down nd ++ strobe_up nd ++ strobe_down nd.

Definition wait_close_8 (nd : hd44780DataStruct) : list Event :=
  [EvMode (DB nd 7) OUTPUT] ++ strobe_down nd.

(** The two nibbles a 4-bit read of the data pseudo-pin samples, [t] being
    the trace after its busy-wait. *)
Definition data_hi_4 (bus : list Event -> Z -> bool) (nd : hd44780DataStruct)
    (t : list Event) : list bool :=
  sample bus (lines_4 nd) (t ++ status_events nd true true ++ strobe_up nd).

Definition data_lo_4 (bus : list Event -> Z -> bool) (nd : hd44780DataStruct)
    (t : list Event) : list bool :=
  sample bus (lines_4 nd)
    (t ++ status_events nd true true ++ strobe_up nd
       ++ read_events (lines_4 nd) (data_hi_4 bus nd t)
       ++ strobe_down nd ++ strobe_up nd).

(** * Reasoning about computations *)

(** [triple I P m]: run from a state whose node satisfies [I], [m] ends
    (returning or not) in a state whose node satisfies [I], having extended
    the trace by events that all satisfy [P]. *)
Definition triple {A} (I : option wiringPiNodeStruct -> Prop) (P : Event -> Prop)
    (m : M A) : Prop :=
  forall s, I (node s) ->
    I (node (final (m s)))
    /\ exists d, trace (final (m s)) = trace s ++ d /\ Forall P d.

Lemma bind_Returned {A B} (m : M A) (k : A -> M B) s b s' :
  bind m k s = Returned b s' ->
  exists a s1, m s = Returned a s1 /\ k a s1 = Returned b s'.
Proof.
  unfold bind. destruct (m s) as [a s1 | f s1]; intros H.
  - exists a, s1. split; [reflexivity | exact H].
  - discriminate.
Qed.

Lemma bind_step {A B} (m : M A) (k : A -> M B) s a s1 :
  m s = Returned a s1 -> bind m k s = k a s1.
Proof. unfold bind. intros ->. reflexivity. Qed.

Section Triples.

Variable bus : list Event -> Z -> bool.
Variable I : option wiringPiNodeStruct -> Prop.
Variable P : Event -> Prop.

Lemma triple_ret {A} (a : A) : triple I P (ret a).
Proof.
  intros s HI. cbn. split; [exact HI|]. exists []. rewrite app_nil_r. auto.
Qed.

Lemma triple_abort {A} f : triple I P (@abort A f).
Proof.
  intros s HI. cbn. split; [exact HI|]. exists []. rewrite app_nil_r. auto.
Qed.

Lemma triple_bind {A B} (m : M A) (k : A -> M B) :
  triple I P m -> (forall a, triple I P (k a)) -> triple I P (bind m k).
Proof.
  intros Hm Hk s HI. destruct (Hm s HI) as [HI1 [d1 [E1 F1]]].
  unfold bind. destruct (m s) as [a s1 | f s1]; cbn in *.
  - destruct (Hk a s1 HI1) as [HI2 [d2 [E2 F2]]].
    split; [exact HI2|]. exists (d1 ++ d2). split.
    + rewrite E2, E1, app_assoc. reflexivity.
    + apply Forall_app. auto.
  - split; [exact HI1|]. exists d1. auto.
Qed.

Lemma triple_emit e : P e -> triple I P (emit e).
Proof.
  intros He s HI. cbn. split; [exact HI|]. exists [e]. auto.
Qed.

Lemma triple_digitalWrite pin v :
  (forall l, P (EvWrite pin l)) -> triple I P (digitalWrite pin v).
Proof. intros H. apply triple_emit, H. Qed.

Lemma triple_pinMode pin m : P (EvMode pin m) -> triple I P (pinMode pin m).
Proof. apply triple_emit. Qed.

Lemma triple_pullUpDnControl pin pud :
  P (EvPull pin pud) -> triple I P (pullUpDnControl pin pud).
Proof. apply triple_emit. Qed.

Lemma triple_digitalRead pin :
  (forall l, P (EvRead pin l)) -> triple I P (digitalRead bus pin).
Proof.
  intros H s HI. cbn. split; [exact HI|]. exists [EvRead pin (bus (trace s) pin)]. auto.
Qed.

Lemma triple_delayNanoseconds ns :
  P (EvDelayNs ns) -> triple I P (delayNanoseconds ns).
Proof.
  intros H s HI. cbn. split; [exact HI|]. exists [EvDelayNs ns]. auto.
Qed.

Lemma triple_delayMicroseconds us :
  P (EvDelayUs us) -> triple I P (delayMicroseconds us).
Proof.
  intros H s HI. cbn. split; [exact HI|]. exists [EvDelayUs us]. auto.
Qed.

Lemma triple_clock_gettime : triple I P clock_gettime.
Proof.
  intros s HI. cbn. split; [exact HI|]. exists []. rewrite app_nil_r. auto.
Qed.

Lemma triple_clock_nanosleep clock_id request :
  (forall r, P (EvSleep request r)) -> triple I P (clock_nanosleep clock_id request).
Proof.
  intros H s HI. unfold clock_nanosleep.
  destruct ((clock_id =? CLOCK_MONOTONIC_RAW) && negb (rawSleep s));
    [cbn; split; [exact HI|]; eexists [_]; auto|].
  destruct (ts_ns request <=? clock s).
  - cbn. split; [exact HI|]. eexists [_]. auto.
  - destruct (signals s) as [|t rest]; [|destruct (t <? ts_ns request)];
      cbn; (split; [exact HI|]); eexists [_]; auto.
Qed.

Lemma triple_fputs msg : triple I P (fputs msg).
Proof.
  intros s HI. cbn. split; [exact HI|]. exists []. rewrite app_nil_r. auto.
Qed.

Lemma triple_malloc : triple I P malloc.
Proof.
  intros s HI. cbn. split; [exact HI|]. exists []. rewrite app_nil_r. auto.
Qed.

Lemma triple_when c m : triple I P m -> triple I P (when c m).
Proof. intros H. destruct c; cbn; [exact H | apply triple_ret]. Qed.

Lemma triple_assume c : triple I P (assume c).
Proof. destruct c; cbn; [apply triple_ret | apply triple_abort]. Qed.

Lemma triple_if {A} (c : bool) (m1 m2 : M A) :
  triple I P m1 -> triple I P m2 -> triple I P (if c then m1 else m2).
Proof. destruct c; auto. Qed.

Lemma triple_while fuel cond body :
  triple I P cond -> triple I P body -> triple I P (while fuel cond body).
Proof.
  intros Hc Hb. induction fuel as [|fuel IH]; cbn.
  - apply triple_abort.
  - apply triple_bind; [exact Hc|]. intros c. apply triple_if.
    + apply triple_bind; [exact Hb | intros _; exact IH].
    + apply triple_ret.
Qed.

Lemma triple_forM l body :
  (forall i, In i l -> triple I P (body i)) -> triple I P (forM l body).
Proof.
  induction l as [|i l IH]; intros H; cbn.
  - apply triple_ret.
  - apply triple_bind; [apply H; left; reflexivity|].
    intros _. apply IH. intros j Hj. apply H. right. exact Hj.
Qed.

Lemma triple_foldM {A} l (body : Z -> A -> M A) a :
  (forall i x, In i l -> triple I P (body i x)) -> triple I P (foldM l body a).
Proof.
  revert a. induction l as [|i l IH]; intros a H; cbn.
  - apply triple_ret.
  - apply triple_bind; [apply H; left; reflexivity|].
    intros a'. apply IH. intros j x Hj. apply H. right. exact Hj.
Qed.

(** Reading through the node pointer tells what the invariant says of the
    node read. *)
Lemma triple_nodeStruct {B} (k : wiringPiNodeStruct -> M B) :
  (forall n, I (Some n) -> triple I P (k n)) ->
  triple I P (bind nodeStruct k).
Proof.
  intros Hk s HI. unfold bind, nodeStruct.
  destruct (node s) as [n|] eqn:En.
  - apply Hk; [exact HI | rewrite En; exact HI].
  - cbn. rewrite En. split; [exact HI|]. exists []. rewrite app_nil_r. auto.
Qed.

Lemma triple_nodeData {B} (k : hd44780DataStruct -> M B) :
  (forall n nd, I (Some n) -> dataStruct n = Some nd -> triple I P (k nd)) ->
  triple I P (bind nodeData k).
Proof.
  intros Hk s HI. unfold bind, nodeData, bind, nodeStruct.
  destruct (node s) as [n|] eqn:En.
  - destruct (dataStruct n) as [nd|] eqn:Ed; cbn.
    + apply (Hk n nd); [exact HI | exact Ed | rewrite En; exact HI].
    + rewrite En. split; [exact HI|]. exists []. rewrite app_nil_r. auto.
  - cbn. rewrite En. split; [exact HI|]. exists []. rewrite app_nil_r. auto.
Qed.

Lemma triple_store_node f :
  (forall n, I (Some n) -> I (Some (f n))) -> triple I P (store_node f).
Proof.
  intros Hf s HI. unfold store_node, bind, nodeStruct.
  destruct (node s) as [n|] eqn:En; cbn.
  - split; [apply Hf; exact HI|]. exists []. rewrite app_nil_r. auto.
  - rewrite En. split; [exact HI|]. exists []. rewrite app_nil_r. auto.
Qed.

Lemma triple_store_nodeData f :
  (forall n nd, I (Some n) -> dataStruct n = Some nd ->
     I (Some (mkNode (pinBase n) (pinMax n) (Some (f nd))
                     (digitalWrite_h n) (digitalRead_h n)))) ->
  triple I P (store_nodeData f).
Proof.
  intros Hf s HI. unfold store_nodeData, nodeData, store_node, bind, nodeStruct.
  destruct (node s) as [n|] eqn:En; cbn.
  - destruct (dataStruct n) as [nd|] eqn:Ed; cbn; rewrite En; cbn.
    + split; [apply Hf; [exact HI | exact Ed]|]. exists []. rewrite app_nil_r. auto.
    + split; [exact HI|]. exists []. rewrite app_nil_r. auto.
  - rewrite En. split; [exact HI|]. exists []. rewrite app_nil_r. auto.
Qed.

End Triples.

Lemma config_fields nd cfg :
  config nd = cfg ->
  readEnabled nd = readEnabled cfg /\ mode8Enabled nd = mode8Enabled cfg
  /\ pinRS nd = pinRS cfg /\ pinRW nd = pinRW cfg /\ pinE nd = pinE cfg
  /\ (forall i, DB nd i = DB cfg i).
Proof. intros <-. destruct nd. cbn. repeat split; reflexivity. Qed.

Lemma config_with_operation_end nd t : config (with_operation_end nd t) = config nd.
Proof. reflexivity. Qed.

Lemma config_with_mode8 nd b : config (with_mode8 nd b) = config nd.
Proof. reflexivity. Qed.

Lemma within_write pins pin l : In pin pins -> within pins (EvWrite pin l).
Proof. intros H p Hp. cbn in Hp. apply Z.eqb_eq in Hp. subst. exact H. Qed.

Lemma within_mode pins pin m : In pin pins -> within pins (EvMode pin m).
Proof. intros H p Hp. cbn in Hp. apply Z.eqb_eq in Hp. subst. exact H. Qed.

Lemma within_pull pins pin pud : In pin pins -> within pins (EvPull pin pud).
Proof. intros H p Hp. cbn in Hp. apply Z.eqb_eq in Hp. subst. exact H. Qed.

Lemma within_read pins pin l : within pins (EvRead pin l).
Proof. intros p Hp. discriminate. Qed.

Lemma within_delayNs pins ns : within pins (EvDelayNs ns).
Proof. intros p Hp. discriminate. Qed.

Lemma within_delayUs pins us : within pins (EvDelayUs us).
Proof. intros p Hp. discriminate. Qed.

Lemma within_sleep pins t r : within pins (EvSleep t r).
Proof. intros p Hp. discriminate. Qed.

Create HintDb footprint.
#[local] Hint Resolve within_write within_mode within_pull within_read
  within_delayNs within_delayUs within_sleep : footprint.

(** What a triple on [within] says of a pin outside the footprint. *)
Lemma triple_untouched {A} (I : option wiringPiNodeStruct -> Prop) pins (m : M A) p s :
  triple I (within pins) m -> I (node s) -> ~ In p pins ->
  untouched p s (final (m s)).
Proof.
  intros Ht HI Hp. destruct (Ht s HI) as [_ [d [E F]]].
  exists d. split; [exact E|].
  apply Forall_forall. intros e He.
  rewrite Forall_forall in F. specialize (F e He).
  destruct (touches p e) eqn:T; [|reflexivity].
  exfalso. apply Hp. apply F. exact T.
Qed.

Lemma triple_invariant {A} (I : option wiringPiNodeStruct -> Prop) P (m : M A) s :
  triple I P m -> I (node s) -> I (node (final (m s))).
Proof. intros Ht HI. apply (Ht s HI). Qed.

(** One step of a footprint proof: the rule for the head of the computation. *)
Ltac triple_rule :=
  lazymatch goal with
  | |- triple _ _ (ret _) => apply triple_ret
  | |- triple _ _ (abort _) => apply triple_abort
  | |- triple _ _ clock_gettime => apply triple_clock_gettime
  | |- triple _ _ (fputs _) => apply triple_fputs
  | |- triple _ _ malloc => apply triple_malloc
  | |- triple _ _ (digitalWrite _ _) => apply triple_digitalWrite; intros
  | |- triple _ _ (pinMode _ _) => apply triple_pinMode
  | |- triple _ _ (pullUpDnControl _ _) => apply triple_pullUpDnControl
  | |- triple _ _ (digitalRead _ _) => apply triple_digitalRead; intros
  | |- triple _ _ (delayNanoseconds _) => apply triple_delayNanoseconds
  | |- triple _ _ (delayMicroseconds _) => apply triple_delayMicroseconds
  | |- triple _ _ (clock_nanosleep _ _) => apply triple_clock_nanosleep; intros
  | |- triple _ _ (when _ _) => apply triple_when
  | |- triple _ _ (assume _) => apply triple_assume
  | |- triple _ _ (if _ then _ else _) => apply triple_if
  | |- triple _ _ (while _ _ _) => apply triple_while
  | |- triple _ _ (forM _ _) => apply triple_forM; intros
  | |- triple _ _ (foldM _ _ _) => apply triple_foldM; intros
  | |- triple _ _ (bind nodeData _) => apply triple_nodeData; intros
  | |- triple _ _ (bind _ _) => apply triple_bind; [|intros]
  end.

(** ** Footprint of the 4-bit paths and of the busy-waits *)

Section Footprint4.

Variable bus : list Event -> Z -> bool.
Variable cfg : hd44780DataStruct.
Variable I : option wiringPiNodeStruct -> Prop.
Variable pins : list Z.

Hypothesis I_config :
  forall n nd, I (Some n) -> dataStruct n = Some nd -> config nd = cfg.
Hypothesis I_operation_end :
  forall n nd t, I (Some n) -> dataStruct n = Some nd ->
    I (Some (mkNode (pinBase n) (pinMax n) (Some (with_operation_end nd t))
                    (digitalWrite_h n) (digitalRead_h n))).
Hypothesis pins_cover : incl (pins_4 cfg) pins.

Local Abbreviation P := (within pins).

Lemma in_pinRS : In (pinRS cfg) pins.
Proof. apply pins_cover. unfold pins_4. cbn. auto. Qed.

Lemma in_pinE : In (pinE cfg) pins.
Proof. apply pins_cover. unfold pins_4. cbn. auto. Qed.

Lemma in_pinRW : readEnabled cfg = true -> In (pinRW cfg) pins.
Proof.
  intros H. apply pins_cover. unfold pins_4. rewrite H.
  apply in_or_app. right. left. reflexivity.
Qed.

Lemma in_DB_high i : In i (range 4 8) -> In (DB cfg i) pins.
Proof.
  intros H. apply pins_cover. unfold pins_4. cbn in H.
  destruct H as [<-|[<-|[<-|[<-|[]]]]]; cbn; auto 10.
Qed.

Lemma in_DB7 : In (DB cfg 7) pins.
Proof. apply in_DB_high. cbn. auto. Qed.

Lemma triple_writeCycleStart : triple I P (writeCycleStart (pinE cfg)).
Proof.
  unfold writeCycleStart. triple_rule. apply within_write, in_pinE.
Qed.

Lemma triple_writeCycleEnd : triple I P (writeCycleEnd (pinE cfg)).
Proof.
  unfold writeCycleEnd.
  repeat triple_rule; auto with footprint. apply within_write, in_pinE.
Qed.

Lemma triple_readCycleStart : triple I P (readCycleStart (pinE cfg)).
Proof.
  unfold readCycleStart.
  repeat triple_rule; auto with footprint. apply within_write, in_pinE.
Qed.

Lemma triple_readCycleEnd : triple I P (readCycleEnd (pinE cfg)).
Proof.
  unfold readCycleEnd.
  repeat triple_rule; auto with footprint. apply within_write, in_pinE.
Qed.

Lemma triple_setStatusPins RS RW : triple I P (setStatusPins RS RW).
Proof.
  unfold setStatusPins. apply triple_nodeData. intros n nd HI Hd.
  destruct (config_fields _ _ (I_config _ _ HI Hd)) as (Hre & _ & Hrs & Hrw & _).
  rewrite Hre, Hrs, Hrw.
  apply triple_bind;
    [apply triple_digitalWrite; intros; apply within_write, in_pinRS|].
  intros _.
  apply triple_bind; [|intros _; apply triple_delayNanoseconds; auto with footprint].
  destruct (readEnabled cfg) eqn:E; cbn.
  - apply triple_digitalWrite. intros. apply within_write, in_pinRW, E.
  - apply triple_ret.
Qed.

Lemma triple_waitWhileBusy_ReadDisabled fuel :
  triple I P (waitWhileBusy_ReadDisabled fuel).
Proof.
  unfold waitWhileBusy_ReadDisabled. apply triple_nodeData. intros n nd HI Hd.
  repeat triple_rule; auto with footprint.
Qed.

Lemma triple_sleepIfFar : triple I P sleepIfFar.
Proof.
  unfold sleepIfFar. apply triple_nodeData. intros n nd HI Hd.
  repeat triple_rule; auto with footprint.
Qed.

Ltac wait_rule :=
  lazymatch goal with
  | |- triple _ _ sleepIfFar => apply triple_sleepIfFar
  | |- triple _ _ (setStatusPins _ _) => apply triple_setStatusPins
  | |- triple _ _ (readCycleStart _) => apply triple_readCycleStart
  | |- triple _ _ (readCycleEnd _) => apply triple_readCycleEnd
  | |- triple _ _ (writeCycleStart _) => apply triple_writeCycleStart
  | |- triple _ _ (writeCycleEnd _) => apply triple_writeCycleEnd
  | |- triple _ _ (waitWhileBusy_ReadDisabled _) => apply triple_waitWhileBusy_ReadDisabled
  | |- _ => triple_rule
  end.

Lemma triple_waitWhileBusy_8 fuel : triple I P (waitWhileBusy_8 bus fuel).
Proof.
  unfold waitWhileBusy_8. apply triple_nodeData. intros n nd HI Hd.
  destruct (config_fields _ _ (I_config _ _ HI Hd)) as (_ & _ & _ & _ & He & Hdb).
  rewrite He, !Hdb.
  repeat wait_rule; auto using in_DB7 with footprint.
Qed.

Lemma triple_waitWhileBusy_4 fuel : triple I P (waitWhileBusy_4 bus fuel).
Proof.
  unfold waitWhileBusy_4. apply triple_nodeData. intros n nd HI Hd.
  destruct (config_fields _ _ (I_config _ _ HI Hd)) as (_ & _ & _ & _ & He & Hdb).
  rewrite He, !Hdb.
  repeat wait_rule; auto using in_DB7 with footprint.
Qed.

Lemma triple_setOperationEnd delay : triple I P (setOperationEnd delay).
Proof.
  unfold setOperationEnd. triple_rule; [triple_rule|].
  apply triple_store_nodeData. intros n nd HI Hd. apply I_operation_end; assumption.
Qed.

Ltac handler_rule :=
  lazymatch goal with
  | |- triple _ _ (waitWhileBusy_4 _ _) => apply triple_waitWhileBusy_4
  | |- triple _ _ (waitWhileBusy_8 _ _) => apply triple_waitWhileBusy_8
  | |- triple _ _ (setOperationEnd _) => apply triple_setOperationEnd
  | |- _ => wait_rule
  end.

Lemma triple_hd44780DigitalWrite_4 fuel pin data :
  triple I P (hd44780DigitalWrite_4 bus fuel pin data).
Proof.
  unfold hd44780DigitalWrite_4. apply triple_nodeStruct. intros n0 _.
  apply triple_nodeData. intros n nd HI Hd.
  destruct (config_fields _ _ (I_config _ _ HI Hd)) as (_ & _ & _ & _ & He & Hdb).
  rewrite He.
  repeat handler_rule; rewrite ?Hdb; auto using in_DB_high with footprint.
Qed.

Lemma triple_hd44780DigitalRead_4 fuel pin :
  triple I P (hd44780DigitalRead_4 bus fuel pin).
Proof.
  unfold hd44780DigitalRead_4. apply triple_nodeStruct. intros n0 _.
  apply triple_nodeData. intros n nd HI Hd.
  destruct (config_fields _ _ (I_config _ _ HI Hd)) as (_ & _ & _ & _ & He & Hdb).
  rewrite He.
  repeat handler_rule; rewrite ?Hdb; auto using in_DB_high with footprint.
Qed.

End Footprint4.

(** ** Footprint of the 8-bit paths and of the dispatch *)

Lemma node_ok_config cfg n nd :
  node_ok cfg (Some n) -> dataStruct n = Some nd -> config nd = cfg.
Proof. unfold node_ok. intros [H _] E. rewrite E in H. apply H. Qed.

Lemma node_ok_operation_end cfg n nd t :
  node_ok cfg (Some n) -> dataStruct n = Some nd ->
  node_ok cfg (Some (mkNode (pinBase n) (pinMax n) (Some (with_operation_end nd t))
                            (digitalWrite_h n) (digitalRead_h n))).
Proof.
  unfold node_ok. intros [H Hh] E. rewrite E in H. cbn. split; [|exact Hh].
  rewrite config_with_operation_end. exact H.
Qed.

Lemma node_ok_mode8 cfg n nd b :
  (b = true -> mode8Enabled cfg = true) ->
  node_ok cfg (Some n) -> dataStruct n = Some nd ->
  node_ok cfg (Some (mkNode (pinBase n) (pinMax n) (Some (with_mode8 nd b))
                            (digitalWrite_h n) (digitalRead_h n))).
Proof.
  unfold node_ok. intros Hb [H Hh] E. rewrite E in H. cbn. split; [|exact Hh].
  rewrite config_with_mode8. split; [apply H | exact Hb].
Qed.

Lemma pins_4_used cfg : incl (pins_4 cfg) (pins_used cfg).
Proof. unfold pins_used. apply incl_appl, incl_refl. Qed.

Section Footprint8.

Variable bus : list Event -> Z -> bool.
Variable cfg : hd44780DataStruct.
Variable pins : list Z.
Hypothesis pins_cover : incl (pins_used cfg) pins.

Local Abbreviation I := (node_ok cfg).
Local Abbreviation P := (within pins).

Lemma pins_cover_4 : incl (pins_4 cfg) pins.
Proof. eapply incl_tran; [apply pins_4_used | exact pins_cover]. Qed.

Lemma in_DB_all i : mode8Enabled cfg = true -> In i (range 0 8) -> In (DB cfg i) pins.
Proof.
  intros m8 H. apply pins_cover. unfold pins_used, pins_4. rewrite m8. cbn in H.
  destruct H as [<-|[<-|[<-|[<-|[<-|[<-|[<-|[<-|[]]]]]]]]];
    apply in_or_app; cbn; auto 10.
Qed.

Ltac dispatch_rule :=
  lazymatch goal with
  | |- triple _ _ (hd44780DigitalWrite_4 _ _ _ _) =>
      apply (triple_hd44780DigitalWrite_4 bus cfg I pins
               (node_ok_config cfg) (node_ok_operation_end cfg) pins_cover_4)
  | |- triple _ _ (hd44780DigitalRead_4 _ _ _) =>
      apply (triple_hd44780DigitalRead_4 bus cfg I pins
               (node_ok_config cfg) pins_cover_4)
  | |- triple _ _ (waitWhileBusy_8 _ _) =>
      apply (triple_waitWhileBusy_8 bus cfg I pins (node_ok_config cfg) pins_cover_4)
  | |- triple _ _ (setStatusPins _ _) =>
      apply (triple_setStatusPins cfg I pins (node_ok_config cfg) pins_cover_4)
  | |- triple _ _ (readCycleStart _) => apply (triple_readCycleStart cfg I pins pins_cover_4)
  | |- triple _ _ (readCycleEnd _) => apply (triple_readCycleEnd cfg I pins pins_cover_4)
  | |- triple _ _ (writeCycleStart _) => apply (triple_writeCycleStart cfg I pins pins_cover_4)
  | |- triple _ _ (writeCycleEnd _) => apply (triple_writeCycleEnd cfg I pins pins_cover_4)
  | |- triple _ _ (setOperationEnd _) =>
      apply (triple_setOperationEnd I pins (node_ok_operation_end cfg))
  | |- triple _ _ (store_nodeData _) => apply triple_store_nodeData; intros
  | |- _ => triple_rule
  end.

Lemma triple_hd44780DigitalWrite_8 fuel pin data :
  mode8Enabled cfg = true ->
  triple I P (hd44780DigitalWrite_8 bus fuel pin data).
Proof.
  intros m8. unfold hd44780DigitalWrite_8. apply triple_nodeStruct. intros n0 _.
  apply triple_nodeData. intros n nd HI Hd.
  destruct (config_fields _ _ (node_ok_config _ _ _ HI Hd)) as (_ & _ & _ & _ & He & Hdb).
  rewrite He.
  repeat dispatch_rule; rewrite ?Hdb;
    auto using in_DB_all, node_ok_mode8 with footprint.
Qed.

Lemma triple_hd44780DigitalRead_8 fuel pin :
  mode8Enabled cfg = true ->
  triple I P (hd44780DigitalRead_8 bus fuel pin).
Proof.
  intros m8. unfold hd44780DigitalRead_8. apply triple_nodeStruct. intros n0 _.
  apply triple_nodeData. intros n nd HI Hd.
  destruct (config_fields _ _ (node_ok_config _ _ _ HI Hd)) as (_ & _ & _ & _ & He & Hdb).
  rewrite He.
  repeat dispatch_rule; rewrite ?Hdb;
    auto using in_DB_all, node_ok_mode8 with footprint.
Qed.

Lemma triple_nodeDigitalWrite fuel pin value :
  triple I P (nodeDigitalWrite bus fuel pin value).
Proof.
  unfold nodeDigitalWrite. apply triple_nodeStruct. intros n HI.
  destruct (digitalWrite_h n) eqn:Eh.
  - apply triple_ret.
  - apply triple_hd44780DigitalWrite_8. destruct HI as (_ & Hw & _). apply Hw, Eh.
  - dispatch_rule.
Qed.

Lemma triple_nodeDigitalRead fuel pin :
  triple I P (nodeDigitalRead bus fuel pin).
Proof.
  unfold nodeDigitalRead. apply triple_nodeStruct. intros n HI.
  destruct (digitalRead_h n) eqn:Eh.
  - apply triple_ret.
  - apply triple_hd44780DigitalRead_8. destruct HI as (_ & _ & Hr). apply Hr, Eh.
  - dispatch_rule.
Qed.

End Footprint8.

(** * hd44780Setup: the check of its preconditions *)

Lemma set_stderr_nil s : set_stderr s (stderr s ++ []) = s.
Proof. destruct s. unfold set_stderr. cbn. rewrite app_nil_r. reflexivity. Qed.

Lemma set_stderr_twice s a b :
  set_stderr (set_stderr s (stderr s ++ a)) (stderr (set_stderr s (stderr s ++ a)) ++ b)
  = set_stderr s (stderr s ++ a ++ b).
Proof. unfold set_stderr. cbn. rewrite app_assoc. reflexivity. Qed.

Lemma CHECK_PIN_run find name id fail s :
  CHECK_PIN find name id fail s =
  Returned (fail || invalid_pin find id)
           (set_stderr s (stderr s ++ map report (filter (fun x => invalid_pin find (snd x))
                                                         [(name, id)]))).
Proof.
  unfold CHECK_PIN, invalid_pin. cbn [filter snd map].
  rewrite Z.geb_leb.
  destruct ((id <? 0) || (64 <=? id) && negb (find id)); cbn.
  - rewrite orb_true_r. reflexivity.
  - rewrite orb_false_r, app_nil_r. destruct s. reflexivity.
Qed.

Lemma bind_CHECK_PIN {B} find name id fail (k : bool -> M B) s acc :
  bind (CHECK_PIN find name id fail) k (set_stderr s (stderr s ++ acc)) =
  k (fail || invalid_pin find id)
    (set_stderr s (stderr s ++ acc
                   ++ map report (filter (fun x => invalid_pin find (snd x)) [(name, id)]))).
Proof.
  unfold bind. rewrite CHECK_PIN_run, set_stderr_twice. reflexivity.
Qed.

Lemma filter_report_cons find x l :
  map report (filter (fun x => invalid_pin find (snd x)) (x :: l)) =
  map report (filter (fun x => invalid_pin find (snd x)) [x])
  ++ map report (filter (fun x => invalid_pin find (snd x)) l).
Proof. cbn. destruct (invalid_pin find (snd x)); reflexivity. Qed.

(** The precondition block of [hd44780Setup]: what has been printed when the
    flag is tested, and which way the test goes. *)
Lemma hd44780Setup_checks find base re m8 RS RW E D7 D6 D5 D4 D3 D2 D1 D0 s :
  hd44780Setup find base re m8 RS RW E D7 D6 D5 D4 D3 D2 D1 D0 s =
  (if existsb (fun x => invalid_pin find (snd x))
              (referenced_pins re m8 RS RW E D7 D6 D5 D4 D3 D2 D1 D0)
   then bind (fputs ("hd44780Setup() failed." ++ nl)) (fun _ => ret EXIT_FAILURE)
   else hd44780Setup_install base re m8 RS RW E D7 D6 D5 D4 D3 D2 D1 D0)
    (set_stderr s
       (stderr s ++ map report
          (filter (fun x => invalid_pin find (snd x))
                  (referenced_pins re m8 RS RW E D7 D6 D5 D4 D3 D2 D1 D0)))).
Proof.
  set (refs := referenced_pins re m8 RS RW E D7 D6 D5 D4 D3 D2 D1 D0).
  set (bad := fun x : string * Z => invalid_pin find (snd x)).
  unfold hd44780Setup.
  rewrite <- (set_stderr_nil s) at 1.
  rewrite bind_CHECK_PIN. cbv beta.
  assert (Hre : forall (B : Type) fail (k : bool -> M B) acc,
             bind (if re then CHECK_PIN find "pinRW" RW fail else ret fail) k
                  (set_stderr s (stderr s ++ acc))
             = k (fail || existsb bad (if re then [("pinRW"%string, RW)] else []))
                 (set_stderr s (stderr s ++ acc
                    ++ map report (filter bad (if re then [("pinRW"%string, RW)] else []))))).
  { intros B fail k acc. destruct re.
    - rewrite bind_CHECK_PIN. cbn [existsb snd]. unfold bad. cbn [snd].
      rewrite orb_false_r. reflexivity.
    - unfold bind, ret. cbn. rewrite orb_false_r, app_nil_r. reflexivity. }
  rewrite Hre. cbv beta.
  do 5 (rewrite bind_CHECK_PIN; cbv beta).
  assert (Hm8 : forall (B : Type) fail (k : bool -> M B) acc,
             bind (if m8
                   then bind (CHECK_PIN find "pinDB3" D3 fail) (fun fail =>
                        bind (CHECK_PIN find "pinDB2" D2 fail) (fun fail =>
                        bind (CHECK_PIN find "pinDB1" D1 fail) (fun fail =>
                        CHECK_PIN find "pinDB0" D0 fail)))
                   else ret fail) k (set_stderr s (stderr s ++ acc))
             = k (fail || existsb bad
                    (if m8 then [("pinDB3"%string, D3); ("pinDB2"%string, D2);
                                 ("pinDB1"%string, D1); ("pinDB0"%string, D0)] else []))
                 (set_stderr s (stderr s ++ acc
                    ++ map report (filter bad
                    (if m8 then [("pinDB3"%string, D3); ("pinDB2"%string, D2);
                                 ("pinDB1"%string, D1); ("pinDB0"%string, D0)] else []))))).
  { intros B fail k acc. destruct m8.
    - unfold bind at 1. unfold bind at 1.
      rewrite CHECK_PIN_run, set_stderr_twice.
      do 2 (rewrite bind_CHECK_PIN; cbv beta).
      rewrite CHECK_PIN_run, set_stderr_twice.
      rewrite !(filter_report_cons find _ (_ :: _)).
      cbn [existsb]. unfold bad. cbn [snd].
      rewrite !orb_false_r, <- !app_assoc, !orb_assoc.
      reflexivity.
    - unfold bind, ret. cbn. rewrite orb_false_r, app_nil_r. reflexivity. }
  rewrite Hm8. cbv beta.
  assert (Hflag :
    (false || invalid_pin find RS
     || existsb bad (if re then [("pinRW"%string, RW)] else [])
     || invalid_pin find E || invalid_pin find D7 || invalid_pin find D6
     || invalid_pin find D5 || invalid_pin find D4
     || existsb bad (if m8 then [("pinDB3"%string, D3); ("pinDB2"%string, D2);
                                 ("pinDB1"%string, D1); ("pinDB0"%string, D0)] else []))
    = existsb bad refs).
  { unfold refs, referenced_pins. rewrite !existsb_app. cbn [existsb snd].
    unfold bad. cbn [snd]. rewrite !orb_false_r, !orb_assoc. reflexivity. }
  rewrite Hflag.
  f_equal. f_equal. f_equal.
  unfold refs, referenced_pins. rewrite !filter_app, !map_app.
  rewrite !(filter_report_cons find _ (_ :: _)).
  cbn [filter map]. rewrite <- !app_assoc. cbn [app]. reflexivity.
Qed.

Lemma existsb_false_filter {A} (f : A -> bool) l :
  existsb f l = false -> filter f l = [].
Proof.
  induction l as [|x l IH]; cbn; [reflexivity|].
  destruct (f x); cbn; [discriminate | exact IH].
Qed.

(** With every referenced pin valid, [hd44780Setup] is what follows the
    check. *)
Lemma hd44780Setup_valid find base re m8 RS RW E D7 D6 D5 D4 D3 D2 D1 D0 s :
  existsb (fun x => invalid_pin find (snd x))
          (referenced_pins re m8 RS RW E D7 D6 D5 D4 D3 D2 D1 D0) = false ->
  hd44780Setup find base re m8 RS RW E D7 D6 D5 D4 D3 D2 D1 D0 s =
  hd44780Setup_install base re m8 RS RW E D7 D6 D5 D4 D3 D2 D1 D0 s.
Proof.
  intros H. rewrite hd44780Setup_checks, H.
  rewrite (existsb_false_filter _ _ H). cbn [map]. rewrite set_stderr_nil.
  reflexivity.
Qed.

(** C5. When any of the pins [hd44780Setup] references is invalid (negative,
    or at least 64 with no node registered for it), the call returns
    EXIT_FAILURE, which is nonzero; it prints one message for each invalid
    pin, all of them and in the order of the checks, then the closing
    message.  The message for a pin is the text "Error: invalid pin number
    for ", the name of the parameter, ": ", the id in decimal and a newline;
    the closing message is "hd44780Setup() failed." and a newline.  The
    trace of pin activity, the clock and the node are as before: no pin was
    written or reconfigured, no node allocated, no handler installed. *)
Theorem hd44780Setup_invalid_pins :
  forall find base re m8 RS RW E D7 D6 D5 D4 D3 D2 D1 D0 s,
    Exists (fun x => invalid_pin find (snd x) = true)
           (referenced_pins re m8 RS RW E D7 D6 D5 D4 D3 D2 D1 D0) ->
    exists s',
      hd44780Setup find base re m8 RS RW E D7 D6 D5 D4 D3 D2 D1 D0 s
      = Returned EXIT_FAILURE s'
      /\ EXIT_FAILURE <> 0
      /\ trace s' = trace s /\ clock s' = clock s /\ node s' = node s
      /\ stderr s' =
         stderr s
         ++ map (fun x => (("Error: invalid pin number for " ++ fst x ++ ": ")
                           ++ NilZero.string_of_int (Z.to_int (snd x))
                           ++ String "010"%char "")%string)
                (filter (fun x => invalid_pin find (snd x))
                        (referenced_pins re m8 RS RW E D7 D6 D5 D4 D3 D2 D1 D0))
         ++ ["hd44780Setup() failed." ++ String "010"%char ""]%string
      /\ (forall x, In x (referenced_pins re m8 RS RW E D7 D6 D5 D4 D3 D2 D1 D0) ->
                    invalid_pin find (snd x) = true ->
                    In (("Error: invalid pin number for " ++ fst x ++ ": ")
                        ++ NilZero.string_of_int (Z.to_int (snd x))
                        ++ String "010"%char "")%string
                       (stderr s'))
      /\ map fst (referenced_pins true true RS RW E D7 D6 D5 D4 D3 D2 D1 D0)
         = ["pinRS"; "pinRW"; "pinE"; "pinDB7"; "pinDB6"; "pinDB5"; "pinDB4";
            "pinDB3"; "pinDB2"; "pinDB1"; "pinDB0"]%string.
Proof.
  intros find base re m8 RS RW E D7 D6 D5 D4 D3 D2 D1 D0 s Hbad.
  assert (Hex : existsb (fun x => invalid_pin find (snd x))
                  (referenced_pins re m8 RS RW E D7 D6 D5 D4 D3 D2 D1 D0) = true).
  { apply existsb_exists. apply Exists_exists in Hbad. exact Hbad. }
  rewrite hd44780Setup_checks, Hex.
  eexists. split; [reflexivity|].
  split; [discriminate|].
  cbn [trace clock node stderr set_stderr].
  split; [reflexivity|]. split; [reflexivity|]. split; [reflexivity|].
  split; [|split; [|reflexivity]].
  - rewrite app_assoc. f_equal.
  - intros x Hin Hx. apply in_or_app. left. apply in_or_app. right.
    exact (in_map report _ x (proj2 (filter_In _ _ _) (conj Hin Hx))).
Qed.

Lemma hd44780Setup_invalid_pins_witness :
  exists s',
    hd44780Setup (fun _ => false) 64 true true (-1) 2 3 7 6 5 4 70 2 1 0 power_on
    = Returned EXIT_FAILURE s'
    /\ EXIT_FAILURE <> 0
    /\ trace s' = [] /\ clock s' = 0 /\ node s' = None
    /\ stderr s' =
       ["Error: invalid pin number for pinRS: -1" ++ String "010"%char "";
        "Error: invalid pin number for pinDB3: 70" ++ String "010"%char "";
        "hd44780Setup() failed." ++ String "010"%char ""]%string.
Proof.
  destruct (hd44780Setup_invalid_pins (fun _ => false) 64 true true (-1) 2 3 7 6 5 4 70 2 1 0
              power_on)
    as (s' & H1 & H2 & H3 & H4 & H5 & H6 & _).
  - apply Exists_cons_hd. reflexivity.
  - exists s'. split; [exact H1|]. split; [exact H2|]. split; [exact H3|].
    split; [exact H4|]. split; [exact H5|]. rewrite H6. vm_compute. reflexivity.
Defined.

(** * hd44780Setup: the allocations *)

Lemma hd44780Setup_install_no_node base re m8 RS RW E D7 D6 D5 D4 D3 D2 D1 D0 s :
  nodeAvailable s = false ->
  hd44780Setup_install base re m8 RS RW E D7 D6 D5 D4 D3 D2 D1 D0 s =
  Aborted NullDereference
    (set_stderr (set_node s None)
       (stderr s ++ [("Error: unable to allocate WiringPi node." ++ nl)%string])).
Proof.
  intros H. unfold hd44780Setup_install.
  unfold bind at 1. unfold wiringPiNewNode. rewrite H.
  unfold bind at 1. unfold when, negb, fputs.
  unfold bind at 1. unfold malloc.
  match goal with |- context [if ?c then _ else _] => destruct c end;
    unfold bind at 1; reflexivity.
Qed.

Lemma hd44780Setup_install_no_memory base re m8 RS RW E D7 D6 D5 D4 D3 D2 D1 D0 s :
  nodeAvailable s = true -> memAvailable s = false ->
  hd44780Setup_install base re m8 RS RW E D7 D6 D5 D4 D3 D2 D1 D0 s =
  Returned EXIT_FAILURE
    (set_stderr
       (set_node s (Some (mkNode base (base + 2 - 1) None
                                 digitalWriteDummy digitalReadDummy)))
       (stderr s ++ [("Error: unable to allocate node data structure." ++ nl)%string])).
Proof.
  intros Hn Hm. unfold hd44780Setup_install.
  unfold bind at 1. unfold wiringPiNewNode. rewrite Hn.
  unfold bind at 1. unfold when, negb, ret.
  unfold bind at 1. unfold malloc.
  change (memAvailable (set_node s (Some (mkNode base (base + 2 - 1) None
                                            digitalWriteDummy digitalReadDummy))))
    with (memAvailable s).
  rewrite Hm. reflexivity.
Qed.

(** C6. With every referenced pin valid and [wiringPiNewNode] returning null,
    [hd44780Setup] prints its message and then stores through the null node
    pointer: the call does not return EXIT_FAILURE, it does not return at
    all.  No pin was touched and no handler installed by then. *)
Theorem hd44780Setup_null_node :
  forall find base re m8 RS RW E D7 D6 D5 D4 D3 D2 D1 D0 s,
    existsb (fun x => invalid_pin find (snd x))
            (referenced_pins re m8 RS RW E D7 D6 D5 D4 D3 D2 D1 D0) = false ->
    nodeAvailable s = false ->
    hd44780Setup find base re m8 RS RW E D7 D6 D5 D4 D3 D2 D1 D0 s
    = Aborted NullDereference
        (set_stderr (set_node s None)
           (stderr s ++ [("Error: unable to allocate WiringPi node." ++ nl)%string])).
Proof.
  intros find base re m8 RS RW E D7 D6 D5 D4 D3 D2 D1 D0 s Hv Hn.
  rewrite (hd44780Setup_valid _ _ _ _ _ _ _ _ _ _ _ _ _ _ _ _ Hv).
  apply hd44780Setup_install_no_node. exact Hn.
Qed.

Lemma hd44780Setup_null_node_witness :
  hd44780Setup noreg 64 true false 1 2 3 7 6 5 4 0 0 0 0
    (mkState [] 0 [] [] false true None false)
  = Aborted NullDereference
      (mkState [] 0 [] [("Error: unable to allocate WiringPi node." ++ nl)%string]
               false true None false).
Proof.
  apply (hd44780Setup_null_node noreg 64 true false 1 2 3 7 6 5 4 0 0 0 0
           (mkState [] 0 [] [] false true None false)).
  - vm_compute. reflexivity.
  - reflexivity.
Defined.

(** When it is [malloc] that returns null, the call does return EXIT_FAILURE,
    and the node is left with the dummy handlers. *)
Lemma hd44780Setup_null_data find base re m8 RS RW E D7 D6 D5 D4 D3 D2 D1 D0 s :
  existsb (fun x => invalid_pin find (snd x))
          (referenced_pins re m8 RS RW E D7 D6 D5 D4 D3 D2 D1 D0) = false ->
  nodeAvailable s = true -> memAvailable s = false ->
  exists s',
    hd44780Setup find base re m8 RS RW E D7 D6 D5 D4 D3 D2 D1 D0 s
    = Returned EXIT_FAILURE s'
    /\ write_handler_of s' = digitalWriteDummy
    /\ read_handler_of s' = digitalReadDummy
    /\ trace s' = trace s.
Proof.
  intros Hv Hn Hm. rewrite (hd44780Setup_valid _ _ _ _ _ _ _ _ _ _ _ _ _ _ _ _ Hv).
  rewrite hd44780Setup_install_no_memory by assumption.
  eexists. split; [reflexivity|]. repeat split.
Qed.

(** * The write handlers *)

(** C10. Either write handler, and the dispatch to whichever is installed,
    does with an int [d] exactly what it does with [d mod 256]: same pin
    activity, same mode transition, same deadline, the whole final state
    being the same. *)
Theorem write_uses_low_byte :
  forall bus fuel pin d s,
    hd44780DigitalWrite_4 bus fuel pin d s = hd44780DigitalWrite_4 bus fuel pin (d mod 256) s
    /\ hd44780DigitalWrite_8 bus fuel pin d s = hd44780DigitalWrite_8 bus fuel pin (d mod 256) s
    /\ nodeDigitalWrite bus fuel pin d s = nodeDigitalWrite bus fuel pin (d mod 256) s.
Proof.
  intros bus fuel pin d s.
  assert (H4 : hd44780DigitalWrite_4 bus fuel pin d
               = hd44780DigitalWrite_4 bus fuel pin (d mod 256)).
  { unfold hd44780DigitalWrite_4. rewrite Z.mod_mod by lia. reflexivity. }
  assert (H8 : hd44780DigitalWrite_8 bus fuel pin d
               = hd44780DigitalWrite_8 bus fuel pin (d mod 256)).
  { unfold hd44780DigitalWrite_8. rewrite Z.mod_mod by lia. reflexivity. }
  unfold nodeDigitalWrite. rewrite H4, H8. auto.
Qed.

Ltac bind_inv H a s1 H1 :=
  lazymatch type of H with
  | bind _ _ _ = Returned _ _ =>
      apply bind_Returned in H; destruct H as (a & s1 & H1 & H); cbv beta in H
  end.

Ltac bind_skip H :=
  lazymatch type of H with
  | bind _ _ _ = Returned _ _ =>
      let a := fresh "a" in
      let s1 := fresh "s" in
      apply bind_Returned in H; destruct H as (a & s1 & _ & H); cbv beta in H;
      clear a
  end.

Lemma nodeStruct_Returned s n s' :
  nodeStruct s = Returned n s' -> node s = Some n /\ s' = s.
Proof.
  unfold nodeStruct. destruct (node s); intros H; inversion H. auto.
Qed.

Lemma nodeData_Returned s nd s' :
  nodeData s = Returned nd s' -> data_of s = Some nd /\ s' = s.
Proof.
  unfold nodeData, bind, nodeStruct, data_of.
  destruct (node s) as [n|]; [|discriminate].
  destruct (dataStruct n); cbn; intros H; inversion H. auto.
Qed.

Lemma store_nodeData_Returned f s s' :
  store_nodeData f s = Returned tt s' ->
  exists n nd, node s = Some n /\ dataStruct n = Some nd
    /\ s' = set_node s (Some (mkNode (pinBase n) (pinMax n) (Some (f nd))
                                     (digitalWrite_h n) (digitalRead_h n))).
Proof.
  unfold store_nodeData, nodeData, store_node, bind, nodeStruct.
  destruct (node s) as [n|] eqn:En; [|discriminate].
  destruct (dataStruct n) as [nd|] eqn:Ed; cbn; [|discriminate].
  rewrite En. intros H. inversion H. exists n, nd. auto.
Qed.

Lemma setOperationEnd_Returned delay s s' :
  setOperationEnd delay s = Returned tt s' ->
  exists n nd, node s = Some n /\ dataStruct n = Some nd
    /\ s' = set_node s
              (Some (mkNode (pinBase n) (pinMax n)
                            (Some (with_operation_end nd (timespec_add (now_of s) delay)))
                            (digitalWrite_h n) (digitalRead_h n))).
Proof.
  unfold setOperationEnd, bind, clock_gettime. apply store_nodeData_Returned.
Qed.

Lemma land_byte x : Z.land (x mod 256) 0xFF = x mod 256.
Proof.
  change 0xFF with (Z.ones 8). rewrite Z.land_ones by lia.
  change (2 ^ 8) with 256. apply Z.mod_mod. lia.
Qed.

(** The recovery delay, on the whole byte. *)
Lemma busy_delay_byte RS d :
  busy_delay RS (d mod 256) =
  if RS then extended_busy_delay
  else if d mod 256 <=? 3 then reset_busy_delay
  else standard_busy_delay.
Proof.
  unfold busy_delay. rewrite land_byte. destruct RS; [reflexivity|].
  rewrite Z.gtb_ltb. destruct (Z.ltb_spec 3 (d mod 256)), (Z.leb_spec (d mod 256) 3);
    try reflexivity; lia.
Qed.

Lemma hd44780DigitalWrite_4_deadline bus fuel pin d s s' n :
  node s = Some n ->
  hd44780DigitalWrite_4 bus fuel pin d s = Returned tt s' ->
  exists nd', data_of s' = Some nd'
    /\ operation_end nd' =
       timespec_add (now_of s') (busy_delay (pin =? pinBase n) (d mod 256)).
Proof.
  intros Hn H. unfold hd44780DigitalWrite_4 in H.
  bind_inv H n0 s0 H0. apply nodeStruct_Returned in H0. destruct H0 as [H0 ->].
  rewrite Hn in H0. inversion H0; subst n0; clear H0.
  bind_inv H nd s0 H0. apply nodeData_Returned in H0. destruct H0 as [_ ->].
  repeat bind_skip H.
  apply setOperationEnd_Returned in H. destruct H as (n1 & nd1 & _ & _ & ->).
  eexists. split; reflexivity.
Qed.

Lemma hd44780DigitalWrite_8_deadline bus fuel pin d s s' n :
  node s = Some n ->
  hd44780DigitalWrite_8 bus fuel pin d s = Returned tt s' ->
  exists nd', data_of s' = Some nd'
    /\ operation_end nd' =
       timespec_add (now_of s') (busy_delay (pin =? pinBase n) (d mod 256)).
Proof.
  intros Hn H. unfold hd44780DigitalWrite_8 in H.
  bind_inv H n0 s0 H0. apply nodeStruct_Returned in H0. destruct H0 as [H0 ->].
  rewrite Hn in H0. inversion H0; subst n0; clear H0.
  bind_inv H nd s0 H0. apply nodeData_Returned in H0. destruct H0 as [_ ->].
  destruct (mode8 nd); cbn [negb] in H.
  - repeat bind_skip H.
    apply setOperationEnd_Returned in H. destruct H as (n1 & nd1 & _ & _ & ->).
    eexists. split; reflexivity.
  - bind_inv H a s1 H1. destruct a.
    assert (Hn1 : exists n1, node s1 = Some n1 /\ pinBase n1 = pinBase n).
    { unfold when in H1.
      destruct (negb (pin =? pinBase n) && (Z.land (d mod 256) 0xF0 =? 0x30)).
      - apply store_nodeData_Returned in H1. destruct H1 as (n1 & nd1 & E1 & _ & ->).
        rewrite Hn in E1. inversion E1; subst n1. eexists. split; reflexivity.
      - inversion H1; subst s1. exists n. auto. }
    destruct Hn1 as (n1 & Hn1 & Hb).
    destruct (hd44780DigitalWrite_4_deadline _ _ _ _ _ _ _ Hn1 H) as (nd' & Hd & Ho).
    exists nd'. split; [exact Hd|].
    rewrite Ho, Hb, Z.mod_mod by lia. reflexivity.
Qed.

(** C3, as the code has it.  After a write that completed, through either
    handler, the node's deadline is the clock reading plus a delay chosen by:
    the extended class when register-select was asserted; the long class when
    it was deasserted and the instruction byte, all eight bits of it, is at
    most 3; the short class for every other instruction byte. *)
Theorem write_deadline_delay_class :
  forall bus fuel pin d s s' n,
    node s = Some n ->
    hd44780DigitalWrite_4 bus fuel pin d s = Returned tt s'
    \/ hd44780DigitalWrite_8 bus fuel pin d s = Returned tt s' ->
    exists nd', data_of s' = Some nd'
      /\ operation_end nd' =
         timespec_add (now_of s')
           (if pin =? pinBase n then extended_busy_delay
            else if d mod 256 <=? 3 then reset_busy_delay
            else standard_busy_delay).
Proof.
  intros bus fuel pin d s s' n Hn [H | H].
  - destruct (hd44780DigitalWrite_4_deadline _ _ _ _ _ _ _ Hn H) as (nd' & Hd & Ho).
    exists nd'. rewrite <- busy_delay_byte. auto.
  - destruct (hd44780DigitalWrite_8_deadline _ _ _ _ _ _ _ Hn H) as (nd' & Hd & Ho).
    exists nd'. rewrite <- busy_delay_byte. auto.
Qed.

Lemma write_deadline_delay_class_witness :
  exists nd',
    data_of (final (hd44780DigitalWrite_4 quiet 1 65 hd44780CMD_Home after_setup_4)) = Some nd'
    /\ operation_end nd' =
       timespec_add (now_of (final (hd44780DigitalWrite_4 quiet 1 65 hd44780CMD_Home
                                      after_setup_4)))
                    reset_busy_delay.
Proof.
  apply (write_deadline_delay_class quiet 1 65 hd44780CMD_Home after_setup_4
           (final (hd44780DigitalWrite_4 quiet 1 65 hd44780CMD_Home after_setup_4))
           node_4).
  - vm_compute. reflexivity.
  - left. vm_compute. reflexivity.
Defined.

(** C3 as stated fails.  The instruction byte 0x40 (set CGRAM address 0) has
    its low six bits at most 3, yet the write stores a deadline of the short
    class, 37 us, not of the long one. *)
Lemma delay_class_low_six_bits_counterexample :
  exists s' nd',
    hd44780DigitalWrite_4 quiet 1 65 0x40 after_setup_4 = Returned tt s'
    /\ data_of s' = Some nd'
    /\ Z.land 0x40 0x3F <= 3
    /\ operation_end nd' = timespec_add (now_of s') standard_busy_delay
    /\ operation_end nd' <> timespec_add (now_of s') (spec_delay_class false 0x40).
Proof.
  eexists. eexists. split; [vm_compute; reflexivity|].
  split; [reflexivity|]. split; [vm_compute; discriminate|].
  split; [reflexivity|]. vm_compute. discriminate.
Qed.

(** * Straight-line code: the events it makes *)

Lemma log_log s d1 t1 d2 t2 : log (log s d1 t1) d2 t2 = log s (d1 ++ d2) (t1 + t2).
Proof.
  unfold log, set_clock, set_trace. cbn. rewrite app_assoc, Z.add_assoc. reflexivity.
Qed.

Lemma log_nil s : log s [] 0 = s.
Proof.
  destruct s. unfold log, set_clock, set_trace. cbn.
  rewrite app_nil_r, Z.add_0_r. reflexivity.
Qed.

Lemma node_log s d dt : node (log s d dt) = node s.
Proof. reflexivity. Qed.

Lemma data_of_log s d dt : data_of (log s d dt) = data_of s.
Proof. reflexivity. Qed.

Lemma trace_log s d dt : trace (log s d dt) = trace s ++ d.
Proof. reflexivity. Qed.

Lemma runs_prefix {B} nd (m : M unit) d dt (k : unit -> M B) s :
  runs nd m d dt -> data_of s = Some nd -> bind m k s = k tt (log s d dt).
Proof. intros Hm Hs. unfold bind. rewrite (Hm s Hs). reflexivity. Qed.

Lemma runs_ret nd : runs nd (ret tt) [] 0.
Proof. intros s _. rewrite log_nil. reflexivity. Qed.

Lemma runs_bind nd (m : M unit) (k : unit -> M unit) d1 t1 d2 t2 :
  runs nd m d1 t1 -> runs nd (k tt) d2 t2 -> runs nd (bind m k) (d1 ++ d2) (t1 + t2).
Proof.
  intros Hm Hk s Hs. rewrite (runs_prefix nd m d1 t1 k s Hm Hs).
  rewrite Hk by (rewrite data_of_log; exact Hs). apply f_equal, log_log.
Qed.

Lemma runs_emit nd e : runs nd (emit e) [e] 0.
Proof.
  intros s _. unfold emit, log, set_clock, set_trace. cbn.
  rewrite Z.add_0_r. destruct s. reflexivity.
Qed.

Lemma runs_digitalWrite nd pin v :
  runs nd (digitalWrite pin v) [EvWrite pin (negb (v =? LOW))] 0.
Proof. apply runs_emit. Qed.

Lemma runs_pinMode nd pin m : runs nd (pinMode pin m) [EvMode pin m] 0.
Proof. apply runs_emit. Qed.

Lemma runs_delayNanoseconds nd ns : runs nd (delayNanoseconds ns) [EvDelayNs ns] ns.
Proof. intros s _. reflexivity. Qed.

Lemma runs_writeCycleStart nd e : runs nd (writeCycleStart e) [EvWrite e true] 0.
Proof. apply runs_emit. Qed.

Lemma runs_writeCycleEnd nd e :
  runs nd (writeCycleEnd e) [EvDelayNs 300; EvWrite e false; EvDelayNs 300] 600.
Proof.
  unfold writeCycleEnd.
  apply (runs_bind nd _ _ [_] 300 [_; _] 300); [apply runs_delayNanoseconds|].
  apply (runs_bind nd _ _ [_] 0 [_] 300);
    [apply runs_digitalWrite | apply runs_delayNanoseconds].
Qed.

Lemma runs_readCycleStart nd e :
  runs nd (readCycleStart e) [EvWrite e true; EvDelayNs 300] 300.
Proof.
  unfold readCycleStart.
  apply (runs_bind nd _ _ [_] 0 [_] 300);
    [apply runs_digitalWrite | apply runs_delayNanoseconds].
Qed.

Lemma runs_readCycleEnd nd e :
  runs nd (readCycleEnd e) [EvWrite e false; EvDelayNs 300] 300.
Proof.
  unfold readCycleEnd.
  apply (runs_bind nd _ _ [_] 0 [_] 300);
    [apply runs_digitalWrite | apply runs_delayNanoseconds].
Qed.

Lemma runs_setStatusPins nd RS RW :
  runs nd (setStatusPins RS RW) (status_events nd RS RW) 50.
Proof.
  intros s Hs. unfold setStatusPins, bind at 1.
  assert (Hd : nodeData s = Returned nd s).
  { unfold nodeData, bind, nodeStruct. unfold data_of in Hs.
    destruct (node s) as [n|]; [|discriminate]. rewrite Hs. reflexivity. }
  rewrite Hd. unfold status_events.
  assert (Hb : forall b, negb (Z.b2z b =? LOW) = b) by (intros []; reflexivity).
  apply (runs_bind nd _ _ [_] 0 _ 50); [| |exact Hs].
  - rewrite <- (Hb RS) at 2. apply runs_digitalWrite.
  - apply (runs_bind nd _ _ _ 0 [_] 50); [|apply runs_delayNanoseconds].
    destruct (readEnabled nd); cbn [when].
    + rewrite <- (Hb RW) at 2. apply runs_digitalWrite.
    + apply runs_ret.
Qed.

Lemma runs_forM nd l (body : Z -> M unit) (f : Z -> Event) :
  (forall i, In i l -> runs nd (body i) [f i] 0) ->
  runs nd (forM l body) (map f l) 0.
Proof.
  induction l as [|i l IH]; intros H; cbn [forM map].
  - apply runs_ret.
  - apply (runs_bind nd _ _ [_] 0 _ 0).
    + apply H. left. reflexivity.
    + apply IH. intros j Hj. apply H. right. exact Hj.
Qed.

Lemma level_of_bit d j :
  0 <= j -> negb (Z.land (Z.shiftr d j) 1 =? LOW) = bit d j.
Proof.
  intros Hj. unfold bit, LOW.
  change 1 with (Z.ones 1). rewrite Z.land_ones by lia.
  change (2 ^ 1) with 2. rewrite Zmod_odd.
  rewrite <- Z.bit0_odd, Z.shiftr_spec by lia. rewrite Z.add_0_l.
  destruct (Z.testbit d j); reflexivity.
Qed.

Lemma runs_data_lines nd l d8 (g : Z -> Z) :
  (forall i, In i l -> 0 <= g i) ->
  runs nd (forM l (fun i => digitalWrite (DB nd i) (Z.land (Z.shiftr d8 (g i)) 1)))
       (map (fun i => EvWrite (DB nd i) (bit d8 (g i))) l) 0.
Proof.
  intros Hg. apply runs_forM. intros i Hi.
  rewrite <- (level_of_bit d8 (g i)) by (apply Hg, Hi). apply runs_digitalWrite.
Qed.

Lemma range_4_8_nonneg i : In i (range 4 8) -> 0 <= i - 4.
Proof. cbn. intros [<-|[<-|[<-|[<-|[]]]]]; lia. Qed.

Lemma range_0_8_nonneg i : In i (range 0 8) -> 0 <= i.
Proof. cbn. intros [<-|[<-|[<-|[<-|[<-|[<-|[<-|[<-|[]]]]]]]]]; lia. Qed.

Lemma range_4_8_nonneg' i : In i (range 4 8) -> 0 <= i.
Proof. cbn. intros [<-|[<-|[<-|[<-|[]]]]]; lia. Qed.

Create HintDb runs.
#[local] Hint Resolve runs_ret runs_digitalWrite runs_pinMode runs_delayNanoseconds
  runs_writeCycleStart runs_writeCycleEnd runs_readCycleStart runs_readCycleEnd
  runs_setStatusPins : runs.

(** Advance [H : bind m k s = _] past the straight-line [m]. *)
Ltac run_in H :=
  lazymatch type of H with
  | bind _ _ _ = _ =>
      erewrite runs_prefix in H;
      [ cbv beta in H
      | first [ solve [eauto with runs]
              | apply (runs_data_lines _ _ _ (fun i => i)); exact range_0_8_nonneg
              | apply (runs_data_lines _ _ _ (fun i => i)); exact range_4_8_nonneg'
              | apply (runs_data_lines _ _ _ (fun i => i - 4)); exact range_4_8_nonneg ]
      | rewrite ?data_of_log; eassumption ]
  end.

(** * The busy-waits leave the node as it is *)

Section KeepsNode.

Variable bus : list Event -> Z -> bool.
Variable s : State.

Let cfg : hd44780DataStruct :=
  match data_of s with
  | Some nd => config nd
  | None => mkData false false false 0 0 0 [] (mkTimespec 0 0)
  end.

Let I (x : option wiringPiNodeStruct) : Prop := x = node s.

Lemma I_cfg n nd : I (Some n) -> dataStruct n = Some nd -> config nd = cfg.
Proof.
  unfold I, cfg, data_of. intros <- ->. reflexivity.
Qed.

Lemma waitWhileBusy_4_node fuel : node (final (waitWhileBusy_4 bus fuel s)) = node s.
Proof.
  apply (triple_invariant I (within (pins_4 cfg))).
  - apply (triple_waitWhileBusy_4 bus cfg I (pins_4 cfg) I_cfg (incl_refl _)).
  - reflexivity.
Qed.

Lemma waitWhileBusy_8_node fuel : node (final (waitWhileBusy_8 bus fuel s)) = node s.
Proof.
  apply (triple_invariant I (within (pins_4 cfg))).
  - apply (triple_waitWhileBusy_8 bus cfg I (pins_4 cfg) I_cfg (incl_refl _)).
  - reflexivity.
Qed.

End KeepsNode.

(** * The write handlers: what is transmitted, and the width after *)

Lemma nodeData_of s nd : data_of s = Some nd -> nodeData s = Returned nd s.
Proof.
  unfold nodeData, bind, nodeStruct, data_of.
  destruct (node s) as [n|]; [|discriminate]. intros ->. reflexivity.
Qed.

Lemma data_of_node s n nd : node s = Some n -> dataStruct n = Some nd -> data_of s = Some nd.
Proof. unfold data_of. intros -> ->. reflexivity. Qed.

Lemma Returned_final {A} (m : M A) s a s' : m s = Returned a s' -> final (m s) = s'.
Proof. intros ->. reflexivity. Qed.

Lemma encode_4_config nd b t RS d :
  encode_4 (with_operation_end (with_mode8 nd b) t) RS d = encode_4 nd RS d.
Proof. reflexivity. Qed.

Lemma hd44780DigitalWrite_4_transfer bus fuel pin d s s' n nd :
  node s = Some n -> dataStruct n = Some nd ->
  hd44780DigitalWrite_4 bus fuel pin d s = Returned tt s' ->
  exists sw t,
    waitWhileBusy_4 bus fuel s = Returned tt sw
    /\ trace s' = trace sw ++ encode_4 nd (pin =? pinBase n) (d mod 256)
    /\ node s' = Some (mkNode (pinBase n) (pinMax n) (Some (with_operation_end nd t))
                              (digitalWrite_h n) (digitalRead_h n)).
Proof.
  intros Hn Hd H. unfold hd44780DigitalWrite_4 in H.
  bind_inv H n0 s0 H0. apply nodeStruct_Returned in H0. destruct H0 as [H0 ->].
  rewrite Hn in H0. inversion H0; subst n0; clear H0.
  bind_inv H nd0 s0 H0. apply nodeData_Returned in H0. destruct H0 as [H0 ->].
  rewrite (data_of_node _ _ _ Hn Hd) in H0. inversion H0; subst nd0; clear H0.
  bind_inv H a sw Hw. destruct a.
  pose proof (waitWhileBusy_4_node bus s fuel) as Hk.
  rewrite (Returned_final _ _ _ _ Hw), Hn in Hk.
  pose proof (data_of_node _ _ _ Hk Hd) as Hdw.
  repeat run_in H. rewrite !log_log in H.
  apply setOperationEnd_Returned in H. destruct H as (n1 & nd1 & E1 & E2 & ->).
  rewrite node_log, Hk in E1. inversion E1; subst n1; clear E1.
  rewrite Hd in E2. inversion E2; subst nd1; clear E2.
  exists sw. eexists. split; [exact Hw|]. split; [|reflexivity].
  change (trace (set_node ?x _)) with (trace x). rewrite trace_log. f_equal.
Qed.

Lemma set_mode8_node s n nd b :
  node s = Some n -> dataStruct n = Some nd ->
  set_mode8 s b = set_node s (Some (mkNode (pinBase n) (pinMax n) (Some (with_mode8 nd b))
                                           (digitalWrite_h n) (digitalRead_h n))).
Proof. unfold set_mode8. intros -> ->. reflexivity. Qed.

Lemma set_mode8_same s n nd :
  node s = Some n -> dataStruct n = Some nd -> set_mode8 s (mode8 nd) = s.
Proof.
  intros Hn Hd. rewrite (set_mode8_node _ _ _ _ Hn Hd).
  destruct s as [tr ck sg er na ma nod rs]. cbn in Hn. subst nod.
  destruct n as [pb pm ds wh rh]. cbn in Hd. subst ds.
  destruct nd. reflexivity.
Qed.

Lemma when_store_mode8 c b s n nd :
  node s = Some n -> dataStruct n = Some nd ->
  when c (store_nodeData (fun x => with_mode8 x b)) s
  = Returned tt (set_mode8 s (if c then b else mode8 nd)).
Proof.
  intros Hn Hd. destruct c; cbn [when].
  - rewrite (set_mode8_node _ _ _ _ Hn Hd).
    unfold store_nodeData. unfold bind at 1.
    rewrite (nodeData_of _ _ (data_of_node _ _ _ Hn Hd)).
    unfold store_node, bind, nodeStruct. rewrite Hn. reflexivity.
  - rewrite (set_mode8_same _ _ _ Hn Hd). reflexivity.
Qed.

Lemma negotiate_from_4 RS d :
  (if negb RS && (Z.land d 0xF0 =? 0x30) then true else false) = negotiate false RS d.
Proof.
  unfold negotiate. destruct RS; cbn [negb andb]; [reflexivity|].
  destruct (Z.land d 0xF0 =? 0x30); reflexivity.
Qed.

Lemma negotiate_from_8 RS d :
  (if negb RS && (Z.land d 0xF0 =? 0x20) then false else true) = negotiate true RS d.
Proof.
  unfold negotiate. destruct RS; cbn [negb andb]; [reflexivity|].
  destruct (Z.land d 0xF0 =? 0x20); reflexivity.
Qed.

Lemma hd44780DigitalWrite_8_transfer bus fuel pin d s s' n nd :
  node s = Some n -> dataStruct n = Some nd ->
  hd44780DigitalWrite_8 bus fuel pin d s = Returned tt s' ->
  exists sw t,
    (if mode8 nd then waitWhileBusy_8 bus fuel else waitWhileBusy_4 bus fuel)
      (set_mode8 s (negotiate (mode8 nd) (pin =? pinBase n) (d mod 256)))
    = Returned tt sw
    /\ trace s' = trace sw ++ (if mode8 nd then encode_8 nd else encode_4 nd)
                                (pin =? pinBase n) (d mod 256)
    /\ node s' =
       Some (mkNode (pinBase n) (pinMax n)
               (Some (with_operation_end
                        (with_mode8 nd (negotiate (mode8 nd) (pin =? pinBase n) (d mod 256)))
                        t))
               (digitalWrite_h n) (digitalRead_h n)).
Proof.
  intros Hn Hd H. unfold hd44780DigitalWrite_8 in H.
  bind_inv H n0 s0 H0. apply nodeStruct_Returned in H0. destruct H0 as [H0 ->].
  rewrite Hn in H0. inversion H0; subst n0; clear H0.
  bind_inv H nd0 s0 H0. apply nodeData_Returned in H0. destruct H0 as [H0 ->].
  rewrite (data_of_node _ _ _ Hn Hd) in H0. inversion H0; subst nd0; clear H0.
  destruct (mode8 nd) eqn:Em; cbn [negb] in H.
  - bind_inv H a s1 H1. destruct a.
    rewrite (when_store_mode8 _ _ _ _ _ Hn Hd), Em, negotiate_from_8 in H1.
    inversion H1; subst s1; clear H1.
    set (b := negotiate true (pin =? pinBase n) (d mod 256)) in *.
    pose proof (set_mode8_node s n nd b Hn Hd) as Hs1.
    assert (Hn1 : node (set_mode8 s b)
                  = Some (mkNode (pinBase n) (pinMax n) (Some (with_mode8 nd b))
                                 (digitalWrite_h n) (digitalRead_h n)))
      by (rewrite Hs1; reflexivity).
    bind_inv H a sw Hw. destruct a.
    pose proof (waitWhileBusy_8_node bus (set_mode8 s b) fuel) as Hk.
    rewrite (Returned_final _ _ _ _ Hw), Hn1 in Hk.
    assert (Hdw : data_of sw = Some (with_mode8 nd b))
      by (unfold data_of; rewrite Hk; reflexivity).
    change (pinE nd) with (pinE (with_mode8 nd b)) in H.
    change (DB nd) with (DB (with_mode8 nd b)) in H.
    repeat run_in H. rewrite !log_log in H.
    apply setOperationEnd_Returned in H. destruct H as (n1 & nd1 & E1 & E2 & ->).
    rewrite node_log, Hk in E1. inversion E1; subst n1; clear E1.
    cbn [dataStruct] in E2. inversion E2; subst nd1; clear E2.
    exists sw. eexists. split; [exact Hw|]. split; [|reflexivity].
    change (trace (set_node ?x _)) with (trace x). rewrite trace_log. f_equal.
  - bind_inv H a s1 H1. destruct a.
    rewrite (when_store_mode8 _ _ _ _ _ Hn Hd), Em, negotiate_from_4 in H1.
    inversion H1; subst s1; clear H1.
    set (b := negotiate false (pin =? pinBase n) (d mod 256)) in *.
    pose proof (set_mode8_node s n nd b Hn Hd) as Hs1.
    assert (Hn1 : node (set_mode8 s b)
                  = Some (mkNode (pinBase n) (pinMax n) (Some (with_mode8 nd b))
                                 (digitalWrite_h n) (digitalRead_h n)))
      by (rewrite Hs1; reflexivity).
    destruct (hd44780DigitalWrite_4_transfer _ _ _ _ _ _ _ _ Hn1 eq_refl H)
      as (sw & t & Hw & Ht & Hnode).
    exists sw, t. split; [exact Hw|].
    rewrite Z.mod_mod in Ht by lia. split; [exact Ht | exact Hnode].
Qed.

(** * hd44780Setup: the node it leaves *)

Lemma hd44780Setup_install_4_node base re RS RW E D7 D6 D5 D4 D3 D2 D1 D0 s s' :
  hd44780Setup_install base re false RS RW E D7 D6 D5 D4 D3 D2 D1 D0 s
  = Returned EXIT_SUCCESS s' ->
  node s' = Some (mkNode base (base + 2 - 1)
                    (Some (mkData re false false RS RW E
                                  [D0; D1; D2; D3; D4; D5; D6; D7] (mkTimespec 0 0)))
                    Handler_DigitalWrite_4
                    (if re then Handler_DigitalRead_4 else digitalReadDummy)).
Proof.
  intros H. destruct s as [tr ck sg er na ma nod rs].
  destruct na, ma, re; vm_compute in H; try discriminate; inversion H; reflexivity.
Qed.

Lemma hd44780Setup_install_8_node base re RS RW E D7 D6 D5 D4 D3 D2 D1 D0 s s' :
  hd44780Setup_install base re true RS RW E D7 D6 D5 D4 D3 D2 D1 D0 s
  = Returned EXIT_SUCCESS s' ->
  node s' = Some (mkNode base (base + 2 - 1)
                    (Some (mkData re true true RS RW E
                                  [D0; D1; D2; D3; D4; D5; D6; D7] (mkTimespec 0 0)))
                    Handler_DigitalWrite_8
                    (if re then Handler_DigitalRead_8 else digitalReadDummy)).
Proof.
  intros H. destruct s as [tr ck sg er na ma nod rs].
  destruct na, ma, re; vm_compute in H; try discriminate; inversion H; reflexivity.
Qed.

Lemma hd44780Setup_Returned find base re m8 RS RW E D7 D6 D5 D4 D3 D2 D1 D0 s s' :
  hd44780Setup find base re m8 RS RW E D7 D6 D5 D4 D3 D2 D1 D0 s
  = Returned EXIT_SUCCESS s' ->
  hd44780Setup_install base re m8 RS RW E D7 D6 D5 D4 D3 D2 D1 D0 s
  = Returned EXIT_SUCCESS s'.
Proof.
  intros H.
  destruct (existsb (fun x => invalid_pin find (snd x))
              (referenced_pins re m8 RS RW E D7 D6 D5 D4 D3 D2 D1 D0)) eqn:Ev.
  - rewrite hd44780Setup_checks, Ev in H. discriminate.
  - rewrite (hd44780Setup_valid _ _ _ _ _ _ _ _ _ _ _ _ _ _ _ _ Ev) in H. exact H.
Qed.

Lemma nodeDigitalWrite_4 bus fuel pin d s n :
  node s = Some n -> digitalWrite_h n = Handler_DigitalWrite_4 ->
  nodeDigitalWrite bus fuel pin d s = hd44780DigitalWrite_4 bus fuel pin d s.
Proof.
  intros Hn Hh. unfold nodeDigitalWrite, bind at 1, nodeStruct.
  rewrite Hn, Hh. reflexivity.
Qed.

(** C2, as the code has it.  After a successful [hd44780Setup] with
    mode8Enabled false, an instruction write of FunctionSet with eightBit
    true leaves the active width FourBit and the 4-bit handler installed,
    and the next write on the node is transmitted in the 4-bit encoding:
    two strobe cycles on lines 4 to 7. *)
Theorem setup_4bit_stays_4bit :
  forall find bus fuel base re RS RW E D7 D6 D5 D4 D3 D2 D1 D0 lines font s s1 s2,
    hd44780Setup find base re false RS RW E D7 D6 D5 D4 D3 D2 D1 D0 s
    = Returned EXIT_SUCCESS s1 ->
    nodeDigitalWrite bus fuel (base + 1) (hd44780CMD_FnSet true lines font) s1
    = Returned tt s2 ->
    exists nd,
      data_of s2 = Some nd /\ mode8 nd = false
      /\ write_handler_of s2 = Handler_DigitalWrite_4
      /\ forall fuel' pin d s3,
           nodeDigitalWrite bus fuel' pin d s2 = Returned tt s3 ->
           exists sw,
             waitWhileBusy_4 bus fuel' s2 = Returned tt sw
             /\ trace s3 = trace sw ++ encode_4 nd (pin =? base) (d mod 256).
Proof.
  intros find bus fuel base re RS RW E D7 D6 D5 D4 D3 D2 D1 D0 lines font s s1 s2 Hs Hw.
  apply hd44780Setup_Returned in Hs. apply hd44780Setup_install_4_node in Hs.
  rewrite (nodeDigitalWrite_4 _ _ _ _ _ _ Hs eq_refl) in Hw.
  destruct (hd44780DigitalWrite_4_transfer _ _ _ _ _ _ _ _ Hs eq_refl Hw)
    as (sw & t & _ & _ & Hn2).
  cbn [pinBase pinMax digitalWrite_h digitalRead_h] in Hn2.
  eexists. unfold data_of, write_handler_of. rewrite Hn2. cbn [dataStruct digitalWrite_h].
  split; [reflexivity|]. split; [reflexivity|]. split; [reflexivity|].
  intros fuel' pin d s3 H3.
  rewrite (nodeDigitalWrite_4 _ _ _ _ _ _ Hn2 eq_refl) in H3.
  destruct (hd44780DigitalWrite_4_transfer _ _ _ _ _ _ _ _ Hn2 eq_refl H3)
    as (sw' & t' & Hw' & Ht' & _).
  exists sw'. split; [exact Hw' | exact Ht'].
Qed.

Lemma setup_4bit_stays_4bit_witness :
  exists nd,
    data_of (final (nodeDigitalWrite quiet 1 (64 + 1) (hd44780CMD_FnSet true false false)
                      after_setup_4)) = Some nd
    /\ mode8 nd = false
    /\ write_handler_of
         (final (nodeDigitalWrite quiet 1 (64 + 1) (hd44780CMD_FnSet true false false)
                   after_setup_4)) = Handler_DigitalWrite_4
    /\ forall fuel' pin d s3,
         nodeDigitalWrite quiet fuel' pin d
           (final (nodeDigitalWrite quiet 1 (64 + 1) (hd44780CMD_FnSet true false false)
                     after_setup_4)) = Returned tt s3 ->
         exists sw,
           waitWhileBusy_4 quiet fuel'
             (final (nodeDigitalWrite quiet 1 (64 + 1) (hd44780CMD_FnSet true false false)
                       after_setup_4)) = Returned tt sw
           /\ trace s3 = trace sw ++ encode_4 nd (pin =? 64) (d mod 256).
Proof.
  apply (setup_4bit_stays_4bit noreg quiet 1 64 false 1 2 3 7 6 5 4 11 10 9 8
           false false power_on after_setup_4).
  - vm_compute. reflexivity.
  - vm_compute. reflexivity.
Defined.

(** C2 as stated fails.  Set up with mode8Enabled false, the node stays in
    FourBit after the instruction FunctionSet (eightBit true), and the write
    that follows goes out in the 4-bit encoding, not in the 8-bit one. *)
Lemma function_set_8bit_after_4bit_setup_counterexample :
  exists s1 s2 s3 sw nd,
    hd44780Setup noreg 64 true false 1 2 3 7 6 5 4 11 10 9 8 power_on
    = Returned EXIT_SUCCESS s1
    /\ nodeDigitalWrite quiet 1 65 (hd44780CMD_FnSet true false false) s1 = Returned tt s2
    /\ data_of s2 = Some nd /\ mode8 nd = false
    /\ nodeDigitalWrite quiet 1 64 0x41 s2 = Returned tt s3
    /\ waitWhileBusy_4 quiet 1 s2 = Returned tt sw
    /\ trace s3 = trace sw ++ encode_4 nd true 0x41
    /\ trace s3 <> trace sw ++ encode_8 nd true 0x41.
Proof.
  do 5 eexists.
  split; [vm_compute; reflexivity|].
  split; [vm_compute; reflexivity|].
  split; [vm_compute; reflexivity|].
  split; [reflexivity|].
  split; [vm_compute; reflexivity|].
  split; [vm_compute; reflexivity|].
  split; [vm_compute; reflexivity|].
  vm_compute. discriminate.
Qed.

(** * Frame: the pins an operation leaves alone *)

Lemma triple_wiringPiNewNode P base numPins :
  triple (fun _ => True) P (wiringPiNewNode base numPins).
Proof.
  intros s _. unfold wiringPiNewNode.
  destruct (nodeAvailable s); cbn; (split; [exact Logic.I|]);
    exists []; rewrite app_nil_r; auto.
Qed.

Ltac setup_rule :=
  lazymatch goal with
  | |- triple _ _ (store_node _) => apply triple_store_node; intros; exact Logic.I
  | |- triple _ _ (wiringPiNewNode _ _) => apply triple_wiringPiNewNode
  | |- _ => triple_rule
  end.

(** [hd44780Setup] writes, pulls and reconfigures only pins it references. *)
Lemma triple_hd44780Setup find base re m8 RS RW E D7 D6 D5 D4 D3 D2 D1 D0 :
  triple (fun _ => True)
         (within (map snd (referenced_pins re m8 RS RW E D7 D6 D5 D4 D3 D2 D1 D0)))
         (hd44780Setup find base re m8 RS RW E D7 D6 D5 D4 D3 D2 D1 D0).
Proof.
  unfold hd44780Setup, hd44780Setup_install, CHECK_PIN, setupPin,
    writeCycleStart, writeCycleEnd.
  destruct re, m8; cbv beta iota delta [when];
    cbn [referenced_pins map snd app];
    repeat setup_rule;
    first [ apply within_write | apply within_mode | apply within_pull
          | apply within_delayNs | apply within_delayUs ];
    cbn [In]; auto 20.
Qed.

Lemma configured_config cfg n nd :
  configured cfg (Some n) -> dataStruct n = Some nd -> config nd = cfg.
Proof. unfold configured. intros H E. rewrite E in H. exact H. Qed.

Lemma configured_operation_end cfg n nd t :
  configured cfg (Some n) -> dataStruct n = Some nd ->
  configured cfg (Some (mkNode (pinBase n) (pinMax n) (Some (with_operation_end nd t))
                               (digitalWrite_h n) (digitalRead_h n))).
Proof.
  unfold configured. intros H E. rewrite E in H. cbn.
  rewrite config_with_operation_end. exact H.
Qed.

(** C7.  A pin gated by a capability the node lacks is never written, pulled
    or reconfigured, as long as its id is not also the id of a pin in use.
    With read-capability unset this holds of the read/write-control pin for
    [hd44780Setup], for a write and a read dispatched to the node, for both
    busy-waits and for the 4-bit handlers; it holds of each data line 0 to 3
    for the 4-bit write, the 4-bit read and the 4-bit busy-wait, and for
    [hd44780Setup] with the 8-bit capability unset. *)
Theorem capability_gated_pins_untouched :
  forall bus find fuel pin value,
    (forall base m8 RS RW E D7 D6 D5 D4 D3 D2 D1 D0 s,
        ~ In RW (map snd (referenced_pins false m8 RS RW E D7 D6 D5 D4 D3 D2 D1 D0)) ->
        untouched RW s
          (final (hd44780Setup find base false m8 RS RW E D7 D6 D5 D4 D3 D2 D1 D0 s)))
    /\ (forall cfg s,
          node_ok cfg (node s) -> readEnabled cfg = false ->
          ~ In (pinRW cfg) (pins_used cfg) ->
          untouched (pinRW cfg) s (final (nodeDigitalWrite bus fuel pin value s))
          /\ untouched (pinRW cfg) s (final (nodeDigitalRead bus fuel pin s))
          /\ untouched (pinRW cfg) s (final (waitWhileBusy_8 bus fuel s))
          /\ untouched (pinRW cfg) s (final (waitWhileBusy_4 bus fuel s))
          /\ untouched (pinRW cfg) s (final (hd44780DigitalWrite_4 bus fuel pin value s))
          /\ untouched (pinRW cfg) s (final (hd44780DigitalRead_4 bus fuel pin s)))
    /\ (forall cfg s i,
          configured cfg (node s) -> 0 <= i < 4 ->
          ~ In (DB cfg i) (pins_4 cfg) ->
          untouched (DB cfg i) s (final (hd44780DigitalWrite_4 bus fuel pin value s))
          /\ untouched (DB cfg i) s (final (hd44780DigitalRead_4 bus fuel pin s))
          /\ untouched (DB cfg i) s (final (waitWhileBusy_4 bus fuel s)))
    /\ (forall base re RS RW E D7 D6 D5 D4 D3 D2 D1 D0 s p,
          In p [D3; D2; D1; D0] ->
          ~ In p (map snd (referenced_pins re false RS RW E D7 D6 D5 D4 D3 D2 D1 D0)) ->
          untouched p s
            (final (hd44780Setup find base re false RS RW E D7 D6 D5 D4 D3 D2 D1 D0 s))).
Proof.
  intros bus find fuel pin value. repeat split.
  - intros base m8 RS RW E D7 D6 D5 D4 D3 D2 D1 D0 s Hout.
    apply (triple_untouched (fun _ => True) _ _ _ _ (triple_hd44780Setup _ _ _ _ _ _ _ _ _ _ _ _ _ _ _)
             Logic.I Hout).
  - apply (triple_untouched (node_ok cfg) (pins_used cfg)); [|assumption|assumption].
    apply triple_nodeDigitalWrite, incl_refl.
  - apply (triple_untouched (node_ok cfg) (pins_used cfg)); [|assumption|assumption].
    apply triple_nodeDigitalRead, incl_refl.
  - apply (triple_untouched (node_ok cfg) (pins_used cfg)); [|assumption|assumption].
    apply (triple_waitWhileBusy_8 bus cfg _ _ (node_ok_config cfg) (pins_4_used cfg)).
  - apply (triple_untouched (node_ok cfg) (pins_used cfg)); [|assumption|assumption].
    apply (triple_waitWhileBusy_4 bus cfg _ _ (node_ok_config cfg) (pins_4_used cfg)).
  - apply (triple_untouched (node_ok cfg) (pins_used cfg)); [|assumption|assumption].
    apply (triple_hd44780DigitalWrite_4 bus cfg _ _ (node_ok_config cfg)
             (node_ok_operation_end cfg) (pins_4_used cfg)).
  - apply (triple_untouched (node_ok cfg) (pins_used cfg)); [|assumption|assumption].
    apply (triple_hd44780DigitalRead_4 bus cfg _ _ (node_ok_config cfg) (pins_4_used cfg)).
  - apply (triple_untouched (configured cfg) (pins_4 cfg)); [|assumption|assumption].
    apply (triple_hd44780DigitalWrite_4 bus cfg _ _ (configured_config cfg)
             (configured_operation_end cfg) (incl_refl _)).
  - apply (triple_untouched (configured cfg) (pins_4 cfg)); [|assumption|assumption].
    apply (triple_hd44780DigitalRead_4 bus cfg _ _ (configured_config cfg) (incl_refl _)).
  - apply (triple_untouched (configured cfg) (pins_4 cfg)); [|assumption|assumption].
    apply (triple_waitWhileBusy_4 bus cfg _ _ (configured_config cfg) (incl_refl _)).
  - intros base re RS RW E D7 D6 D5 D4 D3 D2 D1 D0 s p _ Hout.
    apply (triple_untouched (fun _ => True) _ _ _ _ (triple_hd44780Setup _ _ _ _ _ _ _ _ _ _ _ _ _ _ _)
             Logic.I Hout).
Qed.

Lemma capability_gated_pins_untouched_witness :
  untouched 2 power_on
    (final (hd44780Setup noreg 64 false false 1 2 3 7 6 5 4 11 10 9 8 power_on))
  /\ (untouched (pinRW data_4) after_setup_4
        (final (nodeDigitalWrite quiet 1 65 0x41 after_setup_4))
      /\ untouched (pinRW data_4) after_setup_4
           (final (nodeDigitalRead quiet 1 65 after_setup_4))
      /\ untouched (pinRW data_4) after_setup_4 (final (waitWhileBusy_8 quiet 1 after_setup_4))
      /\ untouched (pinRW data_4) after_setup_4 (final (waitWhileBusy_4 quiet 1 after_setup_4))
      /\ untouched (pinRW data_4) after_setup_4
           (final (hd44780DigitalWrite_4 quiet 1 65 0x41 after_setup_4))
      /\ untouched (pinRW data_4) after_setup_4
           (final (hd44780DigitalRead_4 quiet 1 65 after_setup_4)))
  /\ (untouched (DB data_4 0) after_setup_4
        (final (hd44780DigitalWrite_4 quiet 1 65 0x41 after_setup_4))
      /\ untouched (DB data_4 0) after_setup_4
           (final (hd44780DigitalRead_4 quiet 1 65 after_setup_4))
      /\ untouched (DB data_4 0) after_setup_4 (final (waitWhileBusy_4 quiet 1 after_setup_4)))
  /\ untouched 11 power_on
       (final (hd44780Setup noreg 64 false false 1 2 3 7 6 5 4 11 10 9 8 power_on)).
Proof.
  destruct (capability_gated_pins_untouched quiet noreg 1 65 0x41) as (Hs & Hn & H4 & Hs4).
  split; [|split; [|split]].
  - apply Hs. vm_compute. intuition discriminate.
  - apply (Hn data_4 after_setup_4).
    + vm_compute. repeat split; auto; discriminate.
    + reflexivity.
    + vm_compute. intuition discriminate.
  - apply (H4 data_4 after_setup_4 0).
    + vm_compute. reflexivity.
    + lia.
    + vm_compute. intuition discriminate.
  - apply Hs4.
    + left. reflexivity.
    + vm_compute. intuition discriminate.
Defined.

(** * The read-capable 4-bit busy-wait *)

Lemma set_trace_log s d : set_trace s (trace s ++ d) = log s d 0.
Proof. destruct s. unfold log, set_clock, set_trace. cbn. rewrite Z.add_0_r. reflexivity. Qed.

Lemma digitalRead_run bus pin s :
  digitalRead bus pin s
  = Returned (Z.b2z (bus (trace s) pin)) (log s [EvRead pin (bus (trace s) pin)] 0).
Proof. unfold digitalRead. rewrite set_trace_log. reflexivity. Qed.

Lemma turns_polls nd k :
  strobe_up nd ++ List.concat (repeat (turn_4 nd) k)
  = List.concat (repeat (poll_busy_4 nd) k) ++ strobe_up nd.
Proof.
  induction k as [|k IH]; cbn [repeat List.concat].
  - rewrite app_nil_r. reflexivity.
  - rewrite <- app_assoc, <- IH. unfold turn_4, poll_busy_4.
    rewrite <- !app_assoc. reflexivity.
Qed.

Lemma at_poll_4_turns nd t j :
  at_poll_4 nd t j
  = (t ++ poll_open nd ++ strobe_up nd) ++ List.concat (repeat (turn_4 nd) j).
Proof.
  unfold at_poll_4. rewrite <- turns_polls, <- !app_assoc. reflexivity.
Qed.

Lemma sleepIfFar_Returned s nd :
  data_of s = Some nd ->
  exists s1, sleepIfFar s = Returned tt s1 /\ node s1 = node s.
Proof.
  intros Hd. unfold sleepIfFar. unfold bind at 1. rewrite (nodeData_of _ _ Hd).
  unfold bind at 1, clock_gettime.
  match goal with |- context [when ?c _] => destruct c end; cbn [when].
  - unfold bind, clock_nanosleep.
    destruct ((CLOCK_MONOTONIC_RAW =? CLOCK_MONOTONIC_RAW) && negb (rawSleep s));
      [eexists; split; reflexivity|].
    destruct (ts_ns (operation_end nd) <=? clock s).
    + eexists. split; reflexivity.
    + destruct (signals s) as [|t rest]; [|destruct (t <? ts_ns (operation_end nd))];
        eexists; split; reflexivity.
  - exists s. split; reflexivity.
Qed.

Lemma busy_loop_4 bus nd : forall k fuel s0,
  (k < fuel)%nat ->
  data_of s0 = Some nd ->
  (forall j, (j < k)%nat ->
     bus (trace s0 ++ List.concat (repeat (turn_4 nd) j)) (DB nd 7) = true) ->
  bus (trace s0 ++ List.concat (repeat (turn_4 nd) k)) (DB nd 7) = false ->
  while fuel
    (bind (digitalRead bus (DB nd 7)) (fun v => ret (negb (v =? LOW))))
    (bind (readCycleEnd (pinE nd)) (fun _ =>
     bind (readCycleStart (pinE nd)) (fun _ =>
     bind (readCycleEnd (pinE nd)) (fun _ =>
     readCycleStart (pinE nd))))) s0
  = Returned tt
      (log s0 (List.concat (repeat (turn_4 nd) k) ++ [EvRead (DB nd 7) false])
           (Z.of_nat k * 1200)).
Proof.
  induction k as [|k IH]; intros fuel s0 Hf Hd Hbusy Hready;
    (destruct fuel as [|fuel]; [lia|]); cbn [while].
  - cbn [repeat List.concat] in *. rewrite app_nil_r in Hready.
    unfold bind at 1. unfold bind at 1. rewrite digitalRead_run, Hready.
    reflexivity.
  - pose proof (Hbusy 0%nat ltac:(lia)) as H0.
    cbn [repeat List.concat] in H0. rewrite app_nil_r in H0.
    unfold bind at 1. unfold bind at 1. rewrite digitalRead_run, H0.
    cbn [Z.b2z]. unfold ret at 1. cbn [negb Z.eqb LOW].
    change (negb (1 =? LOW)) with true. cbv iota.
    unfold bind at 1.
    assert (Hbody :
      bind (readCycleEnd (pinE nd)) (fun _ =>
      bind (readCycleStart (pinE nd)) (fun _ =>
      bind (readCycleEnd (pinE nd)) (fun _ =>
      readCycleStart (pinE nd)))) (log s0 [EvRead (DB nd 7) true] 0)
      = Returned tt (log s0 (turn_4 nd) 1200)).
    { assert (Hd' : data_of (log s0 [EvRead (DB nd 7) true] 0) = Some nd) by exact Hd.
      erewrite runs_prefix; [|apply runs_readCycleEnd|exact Hd']. cbv beta.
      erewrite runs_prefix; [|apply runs_readCycleStart|exact Hd]. cbv beta.
      erewrite runs_prefix; [|apply runs_readCycleEnd|exact Hd]. cbv beta.
      rewrite (runs_readCycleStart nd (pinE nd)) by exact Hd.
      rewrite !log_log. reflexivity. }
    rewrite Hbody.
    rewrite (IH fuel (log s0 (turn_4 nd) 1200)).
    + rewrite log_log. f_equal. f_equal. lia.
    + lia.
    + exact Hd.
    + intros j Hj. rewrite trace_log, <- app_assoc.
      apply (Hbusy (S j)). lia.
    + rewrite trace_log, <- app_assoc. exact Hready.
Qed.

Lemma strobes_app nd a b : strobes nd (a ++ b) = (strobes nd a + strobes nd b)%nat.
Proof. unfold strobes. rewrite filter_app, length_app. reflexivity. Qed.

Lemma strobes_poll_busy_4 nd : strobes nd (poll_busy_4 nd) = 2%nat.
Proof. unfold strobes, poll_busy_4. cbn. rewrite Z.eqb_refl. reflexivity. Qed.

Lemma strobes_poll_ready_4 nd : strobes nd (poll_ready_4 nd) = 2%nat.
Proof. unfold strobes, poll_ready_4. cbn. rewrite Z.eqb_refl. reflexivity. Qed.

Lemma strobes_polls nd k :
  strobes nd (List.concat (repeat (poll_busy_4 nd) k) ++ poll_ready_4 nd)
  = (2 * (k + 1))%nat.
Proof.
  rewrite strobes_app, strobes_poll_ready_4.
  induction k as [|k IH]; cbn [repeat List.concat]; [reflexivity|].
  rewrite strobes_app, strobes_poll_busy_4. lia.
Qed.

(** C8.  In the read-capable 4-bit busy-wait, if the busy line reads high at
    the first [k] polls and low at the next, then with fuel for more than
    [k] turns of the loop the routine returns, and what it did after the
    optional sleep is exactly: the opening (busy line to input, control
    lines set for a status read); [k] polls each a full transfer of two
    strobe cycles, the busy line sampled in the first cycle and the second
    cycle's nibble not sampled; and a last poll in which the line reads low,
    the line goes back to output, the strobe cycle in progress is completed
    and exactly one more full strobe cycle is made.  The polls raise the
    enable line an even number of times, 2 (k + 1), so that the nibble phase
    is the same after as before.  The node is left as it was. *)
Theorem waitWhileBusy_4_polls :
  forall bus fuel s nd k,
    data_of s = Some nd ->
    readEnabled nd = true ->
    (forall j, (j < k)%nat ->
       bus (at_poll_4 nd (trace (final (sleepIfFar s))) j) (DB nd 7) = true) ->
    bus (at_poll_4 nd (trace (final (sleepIfFar s))) k) (DB nd 7) = false ->
    (k < fuel)%nat ->
    exists s',
      waitWhileBusy_4 bus fuel s = Returned tt s'
      /\ trace s' = trace (final (sleepIfFar s)) ++ poll_open nd
                    ++ List.concat (repeat (poll_busy_4 nd) k) ++ poll_ready_4 nd
      /\ strobes nd (List.concat (repeat (poll_busy_4 nd) k) ++ poll_ready_4 nd)
         = (2 * (k + 1))%nat
      /\ node s' = node s.
Proof.
  intros bus fuel s nd k Hd Hre Hbusy Hready Hfuel.
  destruct (sleepIfFar_Returned s nd Hd) as (s1 & Hs1 & Hn1).
  rewrite Hs1 in Hbusy, Hready. cbn [final] in Hbusy, Hready.
  assert (Hd1 : data_of s1 = Some nd) by (unfold data_of in *; rewrite Hn1; exact Hd).
  unfold waitWhileBusy_4. unfold bind at 1. rewrite (nodeData_of _ _ Hd), Hre.
  unfold bind at 1. rewrite Hs1.
  erewrite runs_prefix; [|apply runs_pinMode|exact Hd1]. cbv beta.
  erewrite runs_prefix; [|apply runs_setStatusPins|exact Hd1]. cbv beta.
  erewrite runs_prefix; [|apply runs_readCycleStart|exact Hd1]. cbv beta.
  rewrite !log_log.
  set (s0 := log s1 _ _).
  assert (Ht0 : trace s0 = trace s1 ++ poll_open nd ++ strobe_up nd).
  { unfold s0. rewrite trace_log. unfold poll_open, strobe_up.
    rewrite <- !app_assoc. reflexivity. }
  unfold bind at 1.
  rewrite (busy_loop_4 bus nd k fuel s0 Hfuel Hd1).
  - erewrite runs_prefix; [|apply runs_pinMode|exact Hd1]. cbv beta.
    erewrite runs_prefix; [|apply runs_readCycleEnd|exact Hd1]. cbv beta.
    erewrite runs_prefix; [|apply runs_readCycleStart|exact Hd1]. cbv beta.
    rewrite (runs_readCycleEnd nd (pinE nd)) by exact Hd1.
    eexists. split; [reflexivity|]. split; [|split; [apply strobes_polls|]].
    + rewrite !log_log, trace_log. unfold s0 at 1. rewrite trace_log.
      rewrite <- !app_assoc. f_equal.
      unfold poll_open. rewrite <- !app_assoc. f_equal. f_equal.
      change [EvWrite (pinE nd) true; EvDelayNs 300] with (strobe_up nd) at 1.
      rewrite app_assoc, turns_polls, <- app_assoc. reflexivity.
    + rewrite !node_log. unfold s0. rewrite node_log. exact Hn1.
  - intros j Hj. rewrite Ht0, app_assoc.
    replace ((trace s1 ++ poll_open nd) ++ strobe_up nd)
      with (trace s1 ++ poll_open nd ++ strobe_up nd) by (rewrite app_assoc; reflexivity).
    rewrite <- at_poll_4_turns. apply Hbusy, Hj.
  - rewrite Ht0, app_assoc.
    replace ((trace s1 ++ poll_open nd) ++ strobe_up nd)
      with (trace s1 ++ poll_open nd ++ strobe_up nd) by (rewrite app_assoc; reflexivity).
    rewrite <- at_poll_4_turns. exact Hready.
Qed.

Lemma waitWhileBusy_4_polls_witness :
  exists s',
    waitWhileBusy_4 (busy_times 2 7) 3 after_setup_4r = Returned tt s'
    /\ trace s' = trace (final (sleepIfFar after_setup_4r)) ++ poll_open data_4r
                  ++ List.concat (repeat (poll_busy_4 data_4r) 2) ++ poll_ready_4 data_4r
    /\ strobes data_4r (List.concat (repeat (poll_busy_4 data_4r) 2) ++ poll_ready_4 data_4r)
       = (2 * (2 + 1))%nat
    /\ node s' = node after_setup_4r.
Proof.
  apply (waitWhileBusy_4_polls (busy_times 2 7) 3 after_setup_4r data_4r 2).
  - vm_compute. reflexivity.
  - reflexivity.
  - intros j Hj. destruct j as [|[|j]]; [vm_compute; reflexivity .. | lia].
  - vm_compute. reflexivity.
  - lia.
Defined.

(** * The sleeps to the deadline *)

Lemma timespec_gt_false a s :
  ts_wf a -> timespec_gt a (now_of s) = false -> ts_ns a <= clock s.
Proof.
  unfold ts_wf, timespec_gt, ts_ns, now_of. cbn [tv_sec tv_nsec]. intros Hwf H.
  pose proof (Z.div_mod (clock s) 1000000000 ltac:(lia)) as Hdm.
  pose proof (Z.mod_pos_bound (clock s) 1000000000 ltac:(lia)) as Hm.
  destruct (Z.eqb_spec (tv_sec a) (clock s / 1000000000)) as [E|E].
  - rewrite Z.gtb_ltb in H. apply Z.ltb_ge in H. lia.
  - rewrite Z.gtb_ltb in H. apply Z.ltb_ge in H. nia.
Qed.

Lemma sleep_loop req : forall sigs fuel s,
  rawSleep s = true ->
  signals s = sigs -> (List.length sigs < fuel)%nat ->
  exists s',
    while fuel (bind (clock_nanosleep CLOCK_MONOTONIC_RAW req)
                     (fun r => ret (negb (r =? 0)))) (ret tt) s
    = Returned tt s'
    /\ ts_ns req <= clock s' /\ node s' = node s.
Proof.
  induction sigs as [|t rest IH]; intros fuel s Hrs Hs Hf;
    (destruct fuel as [|fuel]; [cbn in Hf; lia|]); cbn [while];
    unfold bind at 1; unfold bind at 1; unfold clock_nanosleep;
    rewrite Hrs; cbn [negb andb]; rewrite Bool.andb_false_r;
    destruct (Z.leb_spec (ts_ns req) (clock s)) as [Hle|Hgt].
  - eexists. split; [reflexivity|]. split; [exact Hle | reflexivity].
  - rewrite Hs. eexists. split; [reflexivity|]. split; [cbn; lia | reflexivity].
  - eexists. split; [reflexivity|]. split; [exact Hle | reflexivity].
  - rewrite Hs. destruct (Z.ltb_spec t (ts_ns req)) as [Ht|Ht].
    + unfold ret at 1. change (negb (EINTR =? 0)) with true. cbv iota.
      unfold bind at 1. unfold ret at 1.
      match goal with |- context [while fuel _ _ ?s1] =>
        destruct (IH fuel s1) as (s' & Hrun & Hclock & Hnode);
          [exact Hrs | reflexivity | cbn in Hf; lia |]
      end.
      exists s'. split; [exact Hrun|]. split; [exact Hclock | exact Hnode].
    + eexists. split; [reflexivity|]. split; [cbn; lia | reflexivity].
Qed.

(** The loop of line 227 is left only when a sleep returned 0, and a sleep
    returns 0 only at its deadline. *)
Lemma sleep_loop_returned clock_id req : forall fuel s s',
  while fuel (bind (clock_nanosleep clock_id req)
                   (fun r => ret (negb (r =? 0)))) (ret tt) s
  = Returned tt s' ->
  ts_ns req <= clock s' /\ node s' = node s /\ rawSleep s' = rawSleep s.
Proof.
  induction fuel as [|fuel IH]; intros s s' H; cbn [while] in H; [discriminate|].
  unfold bind at 1 in H. unfold bind at 1 in H. unfold clock_nanosleep in H.
  destruct ((clock_id =? CLOCK_MONOTONIC_RAW) && negb (rawSleep s)).
  - unfold ret at 1 in H. change (negb (ENOTSUP =? 0)) with true in H. cbv iota in H.
    unfold bind at 1 in H. unfold ret at 1 in H.
    apply IH in H. exact H.
  - destruct (Z.leb_spec (ts_ns req) (clock s)) as [Hle|Hgt].
    + inversion H. subst s'. repeat split. exact Hle.
    + destruct (signals s) as [|t rest].
      * inversion H. subst s'. repeat split. cbn. lia.
      * destruct (Z.ltb_spec t (ts_ns req)) as [Ht|Ht].
        -- unfold ret at 1 in H. change (negb (EINTR =? 0)) with true in H. cbv iota in H.
           unfold bind at 1 in H. unfold ret at 1 in H.
           apply IH in H. exact H.
        -- inversion H. subst s'. repeat split. cbn. lia.
Qed.

(** Where the platform refuses to sleep against the clock, every call fails
    with ENOTSUP and the loop of line 227 never ends. *)
Lemma sleep_loop_refused req : forall fuel s,
  rawSleep s = false ->
  exists s',
    while fuel (bind (clock_nanosleep CLOCK_MONOTONIC_RAW req)
                     (fun r => ret (negb (r =? 0)))) (ret tt) s
    = Aborted OutOfFuel s'
    /\ node s' = node s /\ clock s' = clock s
    /\ trace s' = trace s ++ repeat (EvSleep req ENOTSUP) fuel.
Proof.
  induction fuel as [|fuel IH]; intros s Hrs; cbn [while].
  - exists s. split; [reflexivity|]. split; [reflexivity|]. split; [reflexivity|].
    cbn. rewrite app_nil_r. reflexivity.
  - unfold bind at 1. unfold bind at 1. unfold clock_nanosleep.
    rewrite Hrs. cbn [negb andb]. rewrite Z.eqb_refl. cbn [andb].
    unfold ret at 1. change (negb (ENOTSUP =? 0)) with true. cbv iota.
    unfold bind at 1. unfold ret at 1.
    match goal with |- context [while fuel _ _ ?s1] =>
      destruct (IH s1 Hrs) as (s' & Hrun & Hnode & Hclock & Htr)
    end.
    exists s'. split; [exact Hrun|]. split; [exact Hnode|]. split; [exact Hclock|].
    rewrite Htr. cbn [trace set_trace repeat].
    rewrite <- app_assoc. reflexivity.
Qed.

Lemma waitWhileBusy_ReadDisabled_deadline fuel s nd :
  data_of s = Some nd -> ts_wf (operation_end nd) ->
  rawSleep s = true ->
  (List.length (signals s) < fuel)%nat ->
  exists s',
    waitWhileBusy_ReadDisabled fuel s = Returned tt s'
    /\ ts_ns (operation_end nd) <= clock s' /\ node s' = node s.
Proof.
  intros Hd Hwf Hrs Hf. unfold waitWhileBusy_ReadDisabled.
  unfold bind at 1. rewrite (nodeData_of _ _ Hd).
  unfold bind at 1, clock_gettime.
  destruct (timespec_gt (operation_end nd) (now_of s)) eqn:Egt; cbn [when].
  - apply sleep_loop with (sigs := signals s); [exact Hrs | reflexivity | exact Hf].
  - exists s. split; [reflexivity|]. split; [|reflexivity].
    apply timespec_gt_false; assumption.
Qed.

Lemma waitWhileBusy_ReadDisabled_returned fuel s s' nd :
  data_of s = Some nd -> ts_wf (operation_end nd) ->
  waitWhileBusy_ReadDisabled fuel s = Returned tt s' ->
  ts_ns (operation_end nd) <= clock s' /\ node s' = node s /\ rawSleep s' = rawSleep s.
Proof.
  intros Hd Hwf H. unfold waitWhileBusy_ReadDisabled in H.
  unfold bind at 1 in H. rewrite (nodeData_of _ _ Hd) in H.
  unfold bind at 1, clock_gettime in H.
  destruct (timespec_gt (operation_end nd) (now_of s)) eqn:Egt; cbn [when] in H.
  - apply sleep_loop_returned in H. exact H.
  - inversion H. subst s'. split; [|split; reflexivity].
    apply timespec_gt_false; assumption.
Qed.

Lemma waitWhileBusy_ReadDisabled_refused fuel s nd :
  data_of s = Some nd -> rawSleep s = false ->
  timespec_gt (operation_end nd) (now_of s) = true ->
  exists s',
    waitWhileBusy_ReadDisabled fuel s = Aborted OutOfFuel s'
    /\ node s' = node s /\ clock s' = clock s
    /\ trace s' = trace s ++ repeat (EvSleep (operation_end nd) ENOTSUP) fuel.
Proof.
  intros Hd Hrs Hgt. unfold waitWhileBusy_ReadDisabled.
  unfold bind at 1. rewrite (nodeData_of _ _ Hd).
  unfold bind at 1, clock_gettime. rewrite Hgt. cbn [when].
  apply sleep_loop_refused. exact Hrs.
Qed.

Lemma waitWhileBusy_ReadDisabled_due fuel s nd :
  data_of s = Some nd ->
  timespec_gt (operation_end nd) (now_of s) = false ->
  waitWhileBusy_ReadDisabled fuel s = Returned tt s.
Proof.
  intros Hd Hgt. unfold waitWhileBusy_ReadDisabled.
  unfold bind at 1. rewrite (nodeData_of _ _ Hd).
  unfold bind at 1, clock_gettime. rewrite Hgt. reflexivity.
Qed.

Lemma remaining_wait s nd :
  (tv_sec (operation_end nd) - tv_sec (now_of s)) * 1000000000
  + (tv_nsec (operation_end nd) - tv_nsec (now_of s))
  = ts_ns (operation_end nd) - clock s.
Proof.
  unfold ts_ns, now_of. cbn [tv_sec tv_nsec].
  pose proof (Z.div_mod (clock s) 1000000000 ltac:(lia)). lia.
Qed.

(** The sleep of the read-capable routines: one call when the deadline is
    more than 100 us away, none otherwise. *)
Lemma sleepIfFar_trace s nd :
  data_of s = Some nd ->
  exists r,
    trace (final (sleepIfFar s))
    = trace s ++ (if ts_ns (operation_end nd) - clock s >? 100000
                  then [EvSleep (operation_end nd) r] else []).
Proof.
  intros Hd. unfold sleepIfFar. unfold bind at 1. rewrite (nodeData_of _ _ Hd).
  unfold bind at 1, clock_gettime. rewrite remaining_wait.
  destruct (ts_ns (operation_end nd) - clock s >? 100000); cbn [when].
  - unfold bind, clock_nanosleep.
    destruct ((CLOCK_MONOTONIC_RAW =? CLOCK_MONOTONIC_RAW) && negb (rawSleep s));
      [eexists; reflexivity|].
    destruct (ts_ns (operation_end nd) <=? clock s);
      [|destruct (signals s) as [|t rest]; [|destruct (t <? ts_ns (operation_end nd))]];
      eexists; reflexivity.
  - exists 0. cbn. rewrite app_nil_r. reflexivity.
Qed.

Lemma filter_none {A} (f : A -> bool) l :
  Forall (fun x => f x = false) l -> filter f l = [].
Proof.
  induction 1 as [|x l Hx _ IH]; cbn; [reflexivity|]. rewrite Hx. exact IH.
Qed.

Lemma one_sleep_then_none s s1 s2 (c : bool) e d2 :
  trace s1 = trace s ++ (if c then [e] else []) ->
  trace s2 = trace s1 ++ d2 ->
  Forall (fun x => is_sleep x = false) d2 ->
  exists d,
    trace s2 = trace s ++ d
    /\ (List.length (filter is_sleep d) <= 1)%nat
    /\ (c = false -> filter is_sleep d = []).
Proof.
  intros H1 H2 F. exists ((if c then [e] else []) ++ d2).
  rewrite H2, H1, app_assoc. split; [reflexivity|].
  rewrite filter_app, (filter_none _ _ F), app_nil_r.
  destruct c; cbn.
  - split; [destruct (is_sleep e); cbn; lia | discriminate].
  - split; [lia | reflexivity].
Qed.

Lemma waitWhileBusy_8_one_sleep bus fuel s nd :
  data_of s = Some nd -> readEnabled nd = true ->
  exists d,
    trace (final (waitWhileBusy_8 bus fuel s)) = trace s ++ d
    /\ (List.length (filter is_sleep d) <= 1)%nat
    /\ (ts_ns (operation_end nd) - clock s <= 100000 -> filter is_sleep d = []).
Proof.
  intros Hd Hre.
  destruct (sleepIfFar_Returned s nd Hd) as (s1 & Hs1 & Hn1).
  destruct (sleepIfFar_trace s nd Hd) as (r & Ht1). rewrite Hs1 in Ht1. cbn [final] in Ht1.
  unfold waitWhileBusy_8. unfold bind at 1. rewrite (nodeData_of _ _ Hd), Hre.
  unfold bind at 1. rewrite Hs1.
  match goal with |- context [final (?K s1)] =>
    assert (HK : triple (fun _ => True) (fun e => is_sleep e = false) K)
  end.
  { unfold setStatusPins, readCycleStart, readCycleEnd.
    repeat triple_rule; reflexivity. }
  destruct (HK s1 Logic.I) as (_ & d2 & Ht2 & F2).
  destruct (one_sleep_then_none s s1 _ _ _ d2 Ht1 Ht2 F2) as (d & Hd1 & Hd2 & Hd3).
  exists d. split; [exact Hd1|]. split; [exact Hd2|].
  intros Hnear. apply Hd3. rewrite Z.gtb_ltb. apply Z.ltb_ge. exact Hnear.
Qed.

Lemma waitWhileBusy_4_one_sleep bus fuel s nd :
  data_of s = Some nd -> readEnabled nd = true ->
  exists d,
    trace (final (waitWhileBusy_4 bus fuel s)) = trace s ++ d
    /\ (List.length (filter is_sleep d) <= 1)%nat
    /\ (ts_ns (operation_end nd) - clock s <= 100000 -> filter is_sleep d = []).
Proof.
  intros Hd Hre.
  destruct (sleepIfFar_Returned s nd Hd) as (s1 & Hs1 & Hn1).
  destruct (sleepIfFar_trace s nd Hd) as (r & Ht1). rewrite Hs1 in Ht1. cbn [final] in Ht1.
  unfold waitWhileBusy_4. unfold bind at 1. rewrite (nodeData_of _ _ Hd), Hre.
  unfold bind at 1. rewrite Hs1.
  match goal with |- context [final (?K s1)] =>
    assert (HK : triple (fun _ => True) (fun e => is_sleep e = false) K)
  end.
  { unfold setStatusPins, readCycleStart, readCycleEnd.
    repeat triple_rule; reflexivity. }
  destruct (HK s1 Logic.I) as (_ & d2 & Ht2 & F2).
  destruct (one_sleep_then_none s s1 _ _ _ d2 Ht1 Ht2 F2) as (d & Hd1 & Hd2 & Hd3).
  exists d. split; [exact Hd1|]. split; [exact Hd2|].
  intros Hnear. apply Hd3. rewrite Z.gtb_ltb. apply Z.ltb_ge. exact Hnear.
Qed.

Lemma waitWhileBusy_8_ReadDisabled bus fuel s nd :
  data_of s = Some nd -> readEnabled nd = false ->
  waitWhileBusy_8 bus fuel s = waitWhileBusy_ReadDisabled fuel s.
Proof.
  intros Hd Hre. unfold waitWhileBusy_8. unfold bind at 1.
  rewrite (nodeData_of _ _ Hd), Hre. reflexivity.
Qed.

Lemma waitWhileBusy_4_ReadDisabled bus fuel s nd :
  data_of s = Some nd -> readEnabled nd = false ->
  waitWhileBusy_4 bus fuel s = waitWhileBusy_ReadDisabled fuel s.
Proof.
  intros Hd Hre. unfold waitWhileBusy_4. unfold bind at 1.
  rewrite (nodeData_of _ _ Hd), Hre. reflexivity.
Qed.

(** C9, as the code has it.  The read-disabled wait, which is also what both
    busy-waits are on a node without read-capability, repeats the absolute
    sleep until it returns 0: whenever it returns, the clock has reached the
    deadline.  Where the platform sleeps against CLOCK_MONOTONIC_RAW it does
    return, given fuel for one turn more than there are signals pending.
    Where the platform refuses, as Linux does, and the deadline is still
    ahead, every turn of the loop calls the sleep again and is refused: the
    wait never returns, and the clock does not advance.
    On a node with read-capability the busy-waits call the absolute sleep at
    most once, not at all when the deadline is at most 100 us away, and
    never repeat it. *)
Theorem sleeps_to_deadline :
  forall bus fuel s nd,
    data_of s = Some nd ->
    (ts_wf (operation_end nd) ->
     (forall s', waitWhileBusy_ReadDisabled fuel s = Returned tt s' ->
                 ts_ns (operation_end nd) <= clock s')
     /\ (rawSleep s = true -> (List.length (signals s) < fuel)%nat ->
         exists s', waitWhileBusy_ReadDisabled fuel s = Returned tt s'
                    /\ ts_ns (operation_end nd) <= clock s')
     /\ (rawSleep s = false -> timespec_gt (operation_end nd) (now_of s) = true ->
         exists s', waitWhileBusy_ReadDisabled fuel s = Aborted OutOfFuel s'
                    /\ trace s' = trace s ++ repeat (EvSleep (operation_end nd) ENOTSUP) fuel
                    /\ clock s' = clock s)
     /\ (readEnabled nd = false ->
         waitWhileBusy_8 bus fuel s = waitWhileBusy_ReadDisabled fuel s
         /\ waitWhileBusy_4 bus fuel s = waitWhileBusy_ReadDisabled fuel s))
    /\ (readEnabled nd = true ->
        (exists d,
           trace (final (waitWhileBusy_8 bus fuel s)) = trace s ++ d
           /\ (List.length (filter is_sleep d) <= 1)%nat
           /\ (ts_ns (operation_end nd) - clock s <= 100000 -> filter is_sleep d = []))
        /\ (exists d,
              trace (final (waitWhileBusy_4 bus fuel s)) = trace s ++ d
              /\ (List.length (filter is_sleep d) <= 1)%nat
              /\ (ts_ns (operation_end nd) - clock s <= 100000 -> filter is_sleep d = []))).
Proof.
  intros bus fuel s nd Hd. split.
  - intros Hwf. split; [|split; [|split]].
    + intros s' H.
      apply (waitWhileBusy_ReadDisabled_returned fuel s s' nd Hd Hwf H).
    + intros Hrs Hf.
      destruct (waitWhileBusy_ReadDisabled_deadline fuel s nd Hd Hwf Hrs Hf)
        as (s' & Hrun & Hclock & _).
      exists s'. split; [exact Hrun | exact Hclock].
    + intros Hrs Hgt.
      destruct (waitWhileBusy_ReadDisabled_refused fuel s nd Hd Hrs Hgt)
        as (s' & Hrun & _ & Hclock & Htr).
      exists s'. split; [exact Hrun|]. split; [exact Htr | exact Hclock].
    + intros Hre. split.
      * apply (waitWhileBusy_8_ReadDisabled _ _ _ _ Hd Hre).
      * apply (waitWhileBusy_4_ReadDisabled _ _ _ _ Hd Hre).
  - intros Hre. split.
    + apply waitWhileBusy_8_one_sleep; assumption.
    + apply waitWhileBusy_4_one_sleep; assumption.
Qed.

Lemma sleeps_to_deadline_witness :
  (exists nd,
     data_of after_home_4 = Some nd
     /\ (exists s', waitWhileBusy_ReadDisabled 3 after_home_4 = Aborted OutOfFuel s'
                    /\ trace s' = trace after_home_4
                                  ++ repeat (EvSleep (operation_end nd) ENOTSUP) 3
                    /\ clock s' = clock after_home_4)
     /\ (exists s', waitWhileBusy_ReadDisabled 3 (set_rawSleep after_home_4 true)
                    = Returned tt s'
                    /\ ts_ns (operation_end nd) <= clock s')
     /\ waitWhileBusy_8 quiet 3 after_home_4 = waitWhileBusy_ReadDisabled 3 after_home_4
     /\ waitWhileBusy_4 quiet 3 after_home_4 = waitWhileBusy_ReadDisabled 3 after_home_4)
  /\ (exists nd,
        data_of after_home = Some nd
        /\ (exists d,
              trace (final (waitWhileBusy_8 quiet 1 after_home)) = trace after_home ++ d
              /\ (List.length (filter is_sleep d) <= 1)%nat
              /\ (ts_ns (operation_end nd) - clock after_home <= 100000 ->
                  filter is_sleep d = []))
        /\ (exists d,
              trace (final (waitWhileBusy_4 quiet 1 after_home)) = trace after_home ++ d
              /\ (List.length (filter is_sleep d) <= 1)%nat
              /\ (ts_ns (operation_end nd) - clock after_home <= 100000 ->
                  filter is_sleep d = []))).
Proof.
  split.
  - eexists. split; [vm_compute; reflexivity|].
    match goal with |- context [operation_end ?nd] =>
      destruct (sleeps_to_deadline quiet 3 after_home_4 nd) as [HA _];
        [vm_compute; reflexivity|];
        destruct HA as (_ & _ & Hrefused & Hsame);
        [split; vm_compute; [discriminate | reflexivity]|];
      destruct (sleeps_to_deadline quiet 3 (set_rawSleep after_home_4 true) nd) as [HB _];
        [vm_compute; reflexivity|];
        destruct HB as (_ & Hsleeps & _ & _);
        [split; vm_compute; [discriminate | reflexivity]|]
    end.
    split; [apply Hrefused; vm_compute; reflexivity|].
    split; [apply Hsleeps; [reflexivity | vm_compute; lia]|].
    apply Hsame. reflexivity.
  - eexists. split; [vm_compute; reflexivity|].
    match goal with |- context [operation_end ?nd] =>
      destruct (sleeps_to_deadline quiet 1 after_home nd) as [_ HB];
        [vm_compute; reflexivity|]; apply HB; reflexivity
    end.
Defined.

(** C9 as stated fails.  On a node with read-capability, 1.52 ms before the
    deadline of a Home instruction, the one sleep of the busy-wait ends
    before the deadline: refused with ENOTSUP where the platform does not
    sleep against CLOCK_MONOTONIC_RAW, and where it does, ended with EINTR
    by a signal 1 us into the sleep.  Either way the busy-wait does not
    sleep again, polls, and returns long before the deadline. *)
Lemma read_capable_sleep_returns_early_counterexample :
  exists s' s'' nd,
    data_of after_home = Some nd
    /\ readEnabled nd = true
    /\ ts_ns (operation_end nd) - clock after_home > 100000
    /\ waitWhileBusy_8 quiet 1 after_home = Returned tt s'
    /\ In (EvSleep (operation_end nd) ENOTSUP) (trace s')
    /\ clock s' < ts_ns (operation_end nd)
    /\ waitWhileBusy_8 quiet 1 (set_rawSleep after_home true) = Returned tt s''
    /\ In (EvSleep (operation_end nd) EINTR) (trace s'')
    /\ clock s'' < ts_ns (operation_end nd).
Proof.
  eexists. eexists. eexists.
  split; [vm_compute; reflexivity|].
  split; [reflexivity|].
  split; [vm_compute; reflexivity|].
  split; [vm_compute; reflexivity|].
  split; [vm_compute; tauto|].
  split; [vm_compute; reflexivity|].
  split; [vm_compute; reflexivity|].
  split; [vm_compute; tauto|].
  vm_compute. reflexivity.
Qed.

(** * Write then read back in 4-bit mode, on the simulated display *)

Lemma in_range_0_256 b : 0 <= b < 256 -> In b (range 0 256).
Proof.
  intros Hb. unfold range. rewrite <- (Z2Nat.id b) by lia.
  apply in_map, in_seq. lia.
Qed.

(** C1, the failing case.  On the simulated display, the byte 0x80 written
    to the memory target in 4-bit mode reads back as 0x00.  The read handler
    turns lines 4 to 7 to input and only then waits for the display to be
    ready; the 4-bit busy-wait ends by turning line 7 back to output, so
    that both nibbles are sampled with line 7 an output, which reads back
    what the host last drove on it and not what the display drives. *)
Theorem round_trip_4_memory_fails :
  exists s2 s3,
    nodeDigitalWrite (lcd_bus data_4r) 1 64 0x80 after_setup_4r = Returned tt s2
    /\ nodeDigitalRead (lcd_bus data_4r) 1 64 s2 = Returned 0 s3
    /\ directions_at_reads (skipn (List.length (trace s2)) (trace s3)) (DB data_4r 7) OUTPUT
       = [INPUT; OUTPUT; OUTPUT].
Proof.
  eexists. eexists.
  split; [vm_compute; reflexivity|].
  split; [vm_compute; reflexivity|].
  vm_compute. reflexivity.
Qed.

(** On the memory target the byte read back has bit 3 of the byte written in
    the place of its bit 7: the round trip holds exactly for the bytes whose
    bits 7 and 3 agree. *)
Lemma read_back_memory b :
  0 <= b < 256 ->
  read_back 64 b = Some (Z.lor (Z.land b 0x77) (if Z.testbit b 3 then 0x88 else 0)).
Proof.
  intros Hb.
  assert (H : forallb (fun b =>
                match read_back 64 b with
                | Some v => v =? Z.lor (Z.land b 0x77) (if Z.testbit b 3 then 0x88 else 0)
                | None => false
                end) (range 0 256) = true) by (vm_compute; reflexivity).
  rewrite forallb_forall in H. specialize (H b (in_range_0_256 b Hb)).
  destruct (read_back 64 b) as [v|]; [|discriminate].
  apply Z.eqb_eq in H. rewrite H. reflexivity.
Qed.

(** On the instruction target, which is read without a busy-wait, the round
    trip holds for every byte that does not ask the display for the 8-bit
    width. *)
Lemma round_trip_4_instruction b :
  0 <= b < 256 -> Z.land b 0xF0 <> 0x30 -> read_back 65 b = Some b.
Proof.
  intros Hb Hw.
  assert (H : forallb (fun b =>
                match read_back 65 b with
                | Some v => (v =? b) || (Z.land b 0xF0 =? 0x30)
                | None => false
                end) (range 0 256) = true) by (vm_compute; reflexivity).
  rewrite forallb_forall in H. specialize (H b (in_range_0_256 b Hb)).
  destruct (read_back 65 b) as [v|]; [|discriminate].
  apply orb_true_iff in H. destruct H as [H|H].
  - apply Z.eqb_eq in H. rewrite H. reflexivity.
  - apply Z.eqb_eq in H. contradiction.
Qed.

(** The 8-bit read handler waits first and turns the lines to input after:
    there every line is an input when it is sampled. *)
Lemma read_8_samples_inputs :
  exists v s2,
    nodeDigitalRead (lcd_bus data_8) 1 64 after_setup_8 = Returned v s2
    /\ directions_at_reads
         (skipn (List.length (trace after_setup_8)) (trace s2)) (DB data_8 7) OUTPUT
       = [INPUT; INPUT].
Proof.
  eexists. eexists. split; vm_compute; reflexivity.
Qed.

(** * What [hd44780Setup] and the writes establish *)

(** The node a successful [hd44780Setup] leaves is of the configuration
    asked for, and is 8 bits wide, with the 8-bit handlers, only when it was
    given the 8-bit capability. *)
Lemma hd44780Setup_node_ok find base re m8 RS RW E D7 D6 D5 D4 D3 D2 D1 D0 s s' :
  hd44780Setup find base re m8 RS RW E D7 D6 D5 D4 D3 D2 D1 D0 s
  = Returned EXIT_SUCCESS s' ->
  node_ok (mkData re m8 false RS RW E [D0; D1; D2; D3; D4; D5; D6; D7] (mkTimespec 0 0))
          (node s').
Proof.
  intros H. apply hd44780Setup_Returned in H. destruct m8.
  - apply hd44780Setup_install_8_node in H. rewrite H. cbn. repeat split; auto.
  - apply hd44780Setup_install_4_node in H. rewrite H. cbn.
    repeat split; auto; try discriminate. destruct re; discriminate.
Qed.

Lemma timespec_add_wf a b :
  0 <= tv_nsec a -> 0 <= tv_nsec b -> ts_wf (timespec_add a b).
Proof.
  intros Ha Hb. unfold ts_wf, timespec_add. cbn [tv_nsec].
  apply Z.rem_bound_pos; lia.
Qed.

(** The deadline a completed write stores is normalised. *)
Lemma write_deadline_wf bus fuel pin d s s' n :
  node s = Some n ->
  hd44780DigitalWrite_4 bus fuel pin d s = Returned tt s'
  \/ hd44780DigitalWrite_8 bus fuel pin d s = Returned tt s' ->
  exists nd', data_of s' = Some nd' /\ ts_wf (operation_end nd').
Proof.
  intros Hn H.
  assert (Hex : exists nd', data_of s' = Some nd'
                /\ operation_end nd' =
                   timespec_add (now_of s') (busy_delay (pin =? pinBase n) (d mod 256))).
  { destruct H as [H|H].
    - apply (hd44780DigitalWrite_4_deadline _ _ _ _ _ _ _ Hn H).
    - apply (hd44780DigitalWrite_8_deadline _ _ _ _ _ _ _ Hn H). }
  destruct Hex as (nd' & Hd & Ho). exists nd'. split; [exact Hd|].
  rewrite Ho. apply timespec_add_wf.
  - unfold now_of. cbn [tv_nsec]. apply Z.mod_pos_bound. lia.
  - unfold busy_delay.
    destruct (pin =? pinBase n); [|destruct (Z.land (d mod 256) 255 >? 3)]; cbn; lia.
Qed.

Lemma setOperationEnd_run delay s n nd :
  node s = Some n -> dataStruct n = Some nd ->
  setOperationEnd delay s
  = Returned tt
      (set_node s (Some (mkNode (pinBase n) (pinMax n)
                           (Some (with_operation_end nd (timespec_add (now_of s) delay)))
                           (digitalWrite_h n) (digitalRead_h n)))).
Proof.
  intros Hn Hd. unfold setOperationEnd, bind at 1, clock_gettime.
  unfold store_nodeData. unfold bind at 1.
  rewrite (nodeData_of _ _ (data_of_node _ _ _ Hn Hd)).
  unfold store_node, bind, nodeStruct. rewrite Hn. reflexivity.
Qed.

(** Advance the goal [bind m k s = _] past the straight-line [m]. *)
Ltac run_goal :=
  lazymatch goal with
  | |- exists _, bind _ _ _ = _ =>
      erewrite runs_prefix;
      [ cbv beta
      | first [ solve [eauto with runs]
              | apply (runs_data_lines _ _ _ (fun i => i)); exact range_4_8_nonneg'
              | apply (runs_data_lines _ _ _ (fun i => i - 4)); exact range_4_8_nonneg ]
      | rewrite ?data_of_log; eassumption ]
  end.

(** On a node without read-capability, where the platform sleeps against
    CLOCK_MONOTONIC_RAW, a 4-bit write completes, given fuel for one turn of
    the sleep loop more than there are signals pending. *)
Lemma hd44780DigitalWrite_4_returns bus fuel pin d s n nd :
  node s = Some n -> dataStruct n = Some nd ->
  readEnabled nd = false -> ts_wf (operation_end nd) ->
  rawSleep s = true ->
  (List.length (signals s) < fuel)%nat ->
  exists s', hd44780DigitalWrite_4 bus fuel pin d s = Returned tt s'.
Proof.
  intros Hn Hd Hre Hwf Hrs Hf.
  pose proof (data_of_node _ _ _ Hn Hd) as Hds.
  destruct (waitWhileBusy_ReadDisabled_deadline fuel s nd Hds Hwf Hrs Hf)
    as (sw & Hw & _ & Hnw).
  rewrite <- (waitWhileBusy_4_ReadDisabled bus _ _ _ Hds Hre) in Hw.
  assert (Hdw : data_of sw = Some nd) by (unfold data_of in *; rewrite Hnw; exact Hds).
  unfold hd44780DigitalWrite_4. unfold bind at 1, nodeStruct. rewrite Hn.
  unfold bind at 1. rewrite (nodeData_of _ _ Hds).
  unfold bind at 1. rewrite Hw.
  repeat run_goal.
  eexists. apply (setOperationEnd_run _ _ n nd); [|exact Hd].
  rewrite !node_log, Hnw. exact Hn.
Qed.

(** * Further properties of the driver *)

(** ** The timespec helpers *)

Lemma rem_between x m :
  0 < m -> (0 <= x -> 0 <= Z.rem x m <= x) /\ (x <= 0 -> x <= Z.rem x m <= 0).
Proof.
  intros Hm. split; intros Hx.
  - split; [apply Z.rem_nonneg; lia | apply Z.rem_le; lia].
  - replace x with (- - x) by lia. rewrite Z.rem_opp_l by lia.
    assert (H1 : 0 <= Z.rem (- x) m) by (apply Z.rem_nonneg; lia).
    assert (H2 : Z.rem (- x) m <= - x) by (apply Z.rem_le; lia).
    lia.
Qed.

(** X1.  On arguments that are values of their types and for which none of
    the sums of the function overflows, [timespec_add] adds the instants its
    arguments denote, and the fields of the result are values of their types
    again; when the nanosecond fields add up to a non-negative number the
    sum is normalised, its nanosecond field below one second. *)
Theorem timespec_add_sum :
  forall sec_bits nsec_bits a b,
    no_overflow sec_bits nsec_bits a b ->
    ts_ns (timespec_add a b) = ts_ns a + ts_ns b
    /\ fits sec_bits (tv_sec (timespec_add a b))
    /\ fits nsec_bits (tv_nsec (timespec_add a b))
    /\ (0 <= tv_nsec a + tv_nsec b -> ts_wf (timespec_add a b)).
Proof.
  intros sec_bits nsec_bits a b (_ & _ & _ & _ & Hn & _ & Hs).
  unfold ts_ns, ts_wf, timespec_add. cbn [tv_sec tv_nsec].
  pose proof (Z.quot_rem' (tv_nsec a + tv_nsec b) 1000000000) as Hqr.
  split; [lia|]. split; [exact Hs|]. split.
  - destruct (rem_between (tv_nsec a + tv_nsec b) 1000000000 ltac:(lia)) as [Hp Hm].
    unfold fits in *.
    destruct (Z.le_ge_cases 0 (tv_nsec a + tv_nsec b)) as [H0 | H0].
    + specialize (Hp H0).
      assert (0 < 2 ^ (nsec_bits - 1)) by lia. lia.
    + specialize (Hm H0).
      assert (0 < 2 ^ (nsec_bits - 1)) by lia. lia.
  - intros Hpos. apply Z.rem_bound_pos; lia.
Qed.

Lemma timespec_add_sum_witness :
  ts_ns (timespec_add (mkTimespec 3 999999000) reset_busy_delay)
  = ts_ns (mkTimespec 3 999999000) + ts_ns reset_busy_delay
  /\ fits 32 (tv_sec (timespec_add (mkTimespec 3 999999000) reset_busy_delay))
  /\ fits 32 (tv_nsec (timespec_add (mkTimespec 3 999999000) reset_busy_delay))
  /\ ts_wf (timespec_add (mkTimespec 3 999999000) reset_busy_delay).
Proof.
  destruct (timespec_add_sum 32 32 (mkTimespec 3 999999000) reset_busy_delay)
    as (Hs & Hfs & Hfn & Hw).
  - unfold no_overflow, fits. cbn. lia.
  - split; [exact Hs|]. split; [exact Hfs|]. split; [exact Hfn|].
    apply Hw. vm_compute. discriminate.
Defined.

(** X2.  On normalised arguments [timespec_gt] is the strict order of the
    instants denoted. *)
Theorem timespec_gt_order :
  forall a b,
    ts_wf a -> ts_wf b ->
    (timespec_gt a b = true <-> ts_ns b < ts_ns a).
Proof.
  intros a b Ha Hb. unfold ts_wf, timespec_gt, ts_ns in *.
  destruct (Z.eqb_spec (tv_sec a) (tv_sec b)) as [E|E]; rewrite Z.gtb_ltb, Z.ltb_lt.
  - rewrite E. lia.
  - split; intros H; nia.
Qed.

Lemma timespec_gt_order_witness :
  timespec_gt (mkTimespec 2 5) (mkTimespec 1 999999999) = true
  <-> ts_ns (mkTimespec 1 999999999) < ts_ns (mkTimespec 2 5).
Proof.
  apply (timespec_gt_order (mkTimespec 2 5) (mkTimespec 1 999999999));
    unfold ts_wf; cbn; lia.
Defined.

(** ** The command instruction helpers *)

Lemma byte_cases (P : Z -> Prop) (f : Z -> bool) :
  forallb f (range 0 256) = true ->
  (forall x, f x = true -> P x) ->
  forall a, P (a mod 256).
Proof.
  intros Hf HP a. apply HP.
  rewrite forallb_forall in Hf. apply Hf, in_range_0_256.
  apply Z.mod_pos_bound. lia.
Qed.

Lemma SetCGRAM_range a : 64 <= hd44780CMD_SetCGRAM a < 128.
Proof.
  unfold hd44780CMD_SetCGRAM.
  apply (byte_cases (fun x => 64 <= Z.lor 0x40 (Z.land x 0x3F) < 128)
           (fun x => (64 <=? Z.lor 0x40 (Z.land x 0x3F))
                     && (Z.lor 0x40 (Z.land x 0x3F) <? 128))).
  - vm_compute. reflexivity.
  - intros x Hx. apply andb_true_iff in Hx. destruct Hx as [H1 H2].
    apply Z.leb_le in H1. apply Z.ltb_lt in H2. lia.
Qed.

Lemma SetDDRAM_range a : 128 <= hd44780CMD_SetDDRAM a < 256.
Proof.
  unfold hd44780CMD_SetDDRAM.
  apply (byte_cases (fun x => 128 <= Z.lor 0x80 (Z.land x 0x7F) < 256)
           (fun x => (128 <=? Z.lor 0x80 (Z.land x 0x7F))
                     && (Z.lor 0x80 (Z.land x 0x7F) <? 256))).
  - vm_compute. reflexivity.
  - intros x Hx. apply andb_true_iff in Hx. destruct Hx as [H1 H2].
    apply Z.leb_le in H1. apply Z.ltb_lt in H2. lia.
Qed.

(** X3.  Each helper returns a byte of its own instruction class, the class
    being told by the highest bit set: no two helpers ever return the same
    byte, whatever their arguments. *)
Theorem command_classes :
  hd44780CMD_Clear = 1
  /\ hd44780CMD_Home = 2
  /\ (forall d s, 4 <= hd44780CMD_EntryMode d s < 8)
  /\ (forall d c b, 8 <= hd44780CMD_OnOff d c b < 16)
  /\ (forall c l, 16 <= hd44780CMD_Shift c l < 32)
  /\ (forall d l f, 32 <= hd44780CMD_FnSet d l f < 64)
  /\ (forall a, 64 <= hd44780CMD_SetCGRAM a < 128)
  /\ (forall a, 128 <= hd44780CMD_SetDDRAM a < 256).
Proof.
  split; [reflexivity|]. split; [reflexivity|].
  split; [intros [] []; vm_compute; split; congruence|].
  split; [intros [] [] []; vm_compute; split; congruence|].
  split; [intros [] []; vm_compute; split; congruence|].
  split; [intros [] [] []; vm_compute; split; congruence|].
  split; [apply SetCGRAM_range | apply SetDDRAM_range].
Qed.

(** X4.  The two address helpers keep the low bits of their argument: the
    address is taken modulo 64 for CGRAM and modulo 128 for DDRAM, so that
    an address in range is carried unchanged and one out of range wraps. *)
Theorem set_address_wraps :
  forall a,
    hd44780CMD_SetCGRAM a = 64 + a mod 64
    /\ hd44780CMD_SetDDRAM a = 128 + a mod 128.
Proof.
  intros a. unfold hd44780CMD_SetCGRAM, hd44780CMD_SetDDRAM.
  rewrite <- (Z.mod_mod_divide a 256 64) by (exists 4; reflexivity).
  rewrite <- (Z.mod_mod_divide a 256 128) by (exists 2; reflexivity).
  split.
  - apply (byte_cases (fun x => Z.lor 0x40 (Z.land x 0x3F) = 64 + x mod 64)
             (fun x => Z.lor 0x40 (Z.land x 0x3F) =? 64 + x mod 64)).
    + vm_compute. reflexivity.
    + intros x Hx. apply Z.eqb_eq. exact Hx.
  - apply (byte_cases (fun x => Z.lor 0x80 (Z.land x 0x7F) = 128 + x mod 128)
             (fun x => Z.lor 0x80 (Z.land x 0x7F) =? 128 + x mod 128)).
    + vm_compute. reflexivity.
    + intros x Hx. apply Z.eqb_eq. exact Hx.
Qed.

(** X5.  Of the bytes the helpers return, only Clear and Home are given the
    long recovery delay of 1.52 ms when written as instructions; every other
    one is given the short delay of 37 us. *)
Theorem command_delays :
  busy_delay false (hd44780CMD_Clear mod 256) = reset_busy_delay
  /\ busy_delay false (hd44780CMD_Home mod 256) = reset_busy_delay
  /\ (forall d s, busy_delay false (hd44780CMD_EntryMode d s mod 256) = standard_busy_delay)
  /\ (forall d c b, busy_delay false (hd44780CMD_OnOff d c b mod 256) = standard_busy_delay)
  /\ (forall c l, busy_delay false (hd44780CMD_Shift c l mod 256) = standard_busy_delay)
  /\ (forall d l f, busy_delay false (hd44780CMD_FnSet d l f mod 256) = standard_busy_delay)
  /\ (forall a, busy_delay false (hd44780CMD_SetCGRAM a mod 256) = standard_busy_delay)
  /\ (forall a, busy_delay false (hd44780CMD_SetDDRAM a mod 256) = standard_busy_delay).
Proof.
  assert (Hstd : forall c, 4 <= c < 256 -> busy_delay false (c mod 256) = standard_busy_delay).
  { intros c Hc. rewrite busy_delay_byte, Z.mod_small by lia.
    destruct (Z.leb_spec c 3); [lia | reflexivity]. }
  split; [reflexivity|]. split; [reflexivity|].
  split; [intros [] []; reflexivity|].
  split; [intros [] [] []; reflexivity|].
  split; [intros [] []; reflexivity|].
  split; [intros [] [] []; reflexivity|].
  split; intros a; apply Hstd.
  - pose proof (SetCGRAM_range a). lia.
  - pose proof (SetDDRAM_range a). lia.
Qed.

(** ** The width after a write, and after several *)

Lemma negotiate_FnSet w dl l f :
  negotiate w false (hd44780CMD_FnSet dl l f mod 256) = dl.
Proof. destruct w, dl, l, f; reflexivity. Qed.

Lemma negotiate_idempotent w RS b :
  negotiate (negotiate w RS b) RS b = negotiate w RS b.
Proof.
  unfold negotiate. destruct RS; [reflexivity|]. cbn [negb andb].
  destruct w; cbn [negb andb];
    destruct (Z.eqb_spec (Z.land b 0xF0) 0x30) as [E3|E3];
    destruct (Z.eqb_spec (Z.land b 0xF0) 0x20) as [E2|E2];
    cbn [negb andb]; rewrite ?E3, ?E2; try reflexivity; try congruence;
    repeat match goal with
           | |- context [?x =? ?y] => destruct (Z.eqb_spec x y); try congruence
           end; reflexivity.
Qed.

(** X6.  On the handler of an 8-bit capable node, a completed instruction
    write of the byte [hd44780CMD_FnSet dataLength ...] leaves the active
    width equal to [dataLength], whatever the width was before. *)
Theorem function_set_sets_width :
  forall bus fuel pin dl l f s s' n nd,
    node s = Some n -> dataStruct n = Some nd ->
    pin <> pinBase n ->
    hd44780DigitalWrite_8 bus fuel pin (hd44780CMD_FnSet dl l f) s = Returned tt s' ->
    exists nd', data_of s' = Some nd' /\ mode8 nd' = dl.
Proof.
  intros bus fuel pin dl l f s s' n nd Hn Hd Hpin H.
  destruct (hd44780DigitalWrite_8_transfer _ _ _ _ _ _ _ _ Hn Hd H)
    as (sw & t & _ & _ & Hnode).
  apply Z.eqb_neq in Hpin. rewrite Hpin, negotiate_FnSet in Hnode.
  eexists. unfold data_of. rewrite Hnode. cbn [dataStruct].
  split; reflexivity.
Qed.

Lemma function_set_sets_width_witness :
  exists nd',
    data_of (final (hd44780DigitalWrite_8 quiet 1 65 (hd44780CMD_FnSet false true false)
                      after_setup_8)) = Some nd'
    /\ mode8 nd' = false.
Proof.
  apply (function_set_sets_width quiet 1 65 false true false after_setup_8 _ node_8 data_8).
  - vm_compute. reflexivity.
  - reflexivity.
  - discriminate.
  - vm_compute. reflexivity.
Defined.

(** X7.  Writing the same byte to the same pseudo-pin twice in a row through
    the handler of an 8-bit capable node leaves, after the second write, the
    width the first write left: the transition rule is idempotent. *)
Theorem same_write_twice_same_width :
  forall bus fuel pin d s s1 s2 n nd,
    node s = Some n -> dataStruct n = Some nd ->
    hd44780DigitalWrite_8 bus fuel pin d s = Returned tt s1 ->
    hd44780DigitalWrite_8 bus fuel pin d s1 = Returned tt s2 ->
    exists nd1 nd2,
      data_of s1 = Some nd1 /\ data_of s2 = Some nd2 /\ mode8 nd2 = mode8 nd1.
Proof.
  intros bus fuel pin d s s1 s2 n nd Hn Hd H1 H2.
  destruct (hd44780DigitalWrite_8_transfer _ _ _ _ _ _ _ _ Hn Hd H1)
    as (sw1 & t1 & _ & _ & Hn1).
  destruct (hd44780DigitalWrite_8_transfer _ _ _ _ _ _ _ _ Hn1 eq_refl H2)
    as (sw2 & t2 & _ & _ & Hn2).
  cbn [pinBase pinMax digitalWrite_h digitalRead_h mode8 with_operation_end with_mode8] in Hn2.
  rewrite negotiate_idempotent in Hn2.
  eexists. eexists. unfold data_of. rewrite Hn1, Hn2. cbn [dataStruct].
  split; [reflexivity|]. split; reflexivity.
Qed.

Lemma same_write_twice_same_width_witness :
  exists nd1 nd2,
    data_of (final (hd44780DigitalWrite_8 quiet 1 65 0x20 after_setup_8)) = Some nd1
    /\ data_of (final (hd44780DigitalWrite_8 quiet 1 65 0x20
                         (final (hd44780DigitalWrite_8 quiet 1 65 0x20 after_setup_8))))
       = Some nd2
    /\ mode8 nd2 = mode8 nd1.
Proof.
  apply (same_write_twice_same_width quiet 1 65 0x20 after_setup_8 _ _ node_8 data_8).
  - vm_compute. reflexivity.
  - reflexivity.
  - vm_compute. reflexivity.
  - vm_compute. reflexivity.
Defined.

(** ** A write, from the end of its busy-wait on *)

Ltac run_eq :=
  lazymatch goal with
  | |- bind _ _ _ = _ =>
      erewrite runs_prefix;
      [ cbv beta
      | first [ solve [eauto with runs]
              | apply (runs_data_lines _ _ _ (fun i => i)); exact range_0_8_nonneg
              | apply (runs_data_lines _ _ _ (fun i => i)); exact range_4_8_nonneg'
              | apply (runs_data_lines _ _ _ (fun i => i - 4)); exact range_4_8_nonneg ]
      | rewrite ?data_of_log; eassumption ]
  end.

Lemma hd44780DigitalWrite_4_after_wait bus fuel pin d s sw n nd :
  node s = Some n -> dataStruct n = Some nd ->
  waitWhileBusy_4 bus fuel s = Returned tt sw ->
  hd44780DigitalWrite_4 bus fuel pin d s
  = Returned tt (after_write_4 sw n nd (pin =? pinBase n) (d mod 256)).
Proof.
  intros Hn Hd Hw.
  pose proof (data_of_node _ _ _ Hn Hd) as Hds.
  pose proof (waitWhileBusy_4_node bus s fuel) as Hnw.
  rewrite (Returned_final _ _ _ _ Hw), Hn in Hnw.
  assert (Hdw : data_of sw = Some nd) by (unfold data_of; rewrite Hnw; exact Hd).
  unfold hd44780DigitalWrite_4. unfold bind at 1, nodeStruct. rewrite Hn.
  unfold bind at 1. rewrite (nodeData_of _ _ Hds).
  unfold bind at 1. rewrite Hw.
  repeat run_eq. rewrite !log_log.
  rewrite (setOperationEnd_run _ _ n nd) by (rewrite ?node_log; assumption).
  unfold after_write_4. reflexivity.
Qed.

Lemma hd44780DigitalWrite_8_after_wait bus fuel pin d s sw n nd :
  node s = Some n -> dataStruct n = Some nd ->
  (if mode8 nd then waitWhileBusy_8 bus fuel else waitWhileBusy_4 bus fuel)
    (set_mode8 s (negotiate (mode8 nd) (pin =? pinBase n) (d mod 256)))
  = Returned tt sw ->
  hd44780DigitalWrite_8 bus fuel pin d s
  = Returned tt
      ((if mode8 nd then after_write_8 else after_write_4)
         sw n (with_mode8 nd (negotiate (mode8 nd) (pin =? pinBase n) (d mod 256)))
         (pin =? pinBase n) (d mod 256)).
Proof.
  intros Hn Hd Hw.
  pose proof (data_of_node _ _ _ Hn Hd) as Hds.
  set (b := negotiate (mode8 nd) (pin =? pinBase n) (d mod 256)) in *.
  pose proof (set_mode8_node s n nd b Hn Hd) as Hs1.
  assert (Hn1 : node (set_mode8 s b)
                = Some (mkNode (pinBase n) (pinMax n) (Some (with_mode8 nd b))
                               (digitalWrite_h n) (digitalRead_h n)))
    by (rewrite Hs1; reflexivity).
  unfold hd44780DigitalWrite_8. unfold bind at 1, nodeStruct. rewrite Hn.
  unfold bind at 1. rewrite (nodeData_of _ _ Hds).
  destruct (mode8 nd) eqn:Em; cbn [negb].
  - unfold bind at 1.
    rewrite (when_store_mode8 _ _ _ _ _ Hn Hd), Em, negotiate_from_8. fold b.
    unfold bind at 1. rewrite Hw.
    pose proof (waitWhileBusy_8_node bus (set_mode8 s b) fuel) as Hnw.
    rewrite (Returned_final _ _ _ _ Hw), Hn1 in Hnw.
    assert (Hdw : data_of sw = Some (with_mode8 nd b))
      by (unfold data_of; rewrite Hnw; reflexivity).
    change (pinE nd) with (pinE (with_mode8 nd b)).
    change (DB nd) with (DB (with_mode8 nd b)).
    repeat run_eq. rewrite !log_log.
    rewrite (setOperationEnd_run _ _ _ (with_mode8 nd b))
      by first [exact Hnw | reflexivity].
    unfold after_write_8. reflexivity.
  - unfold bind at 1.
    rewrite (when_store_mode8 _ _ _ _ _ Hn Hd), Em, negotiate_from_4. fold b.
    rewrite (hd44780DigitalWrite_4_after_wait _ _ _ _ _ _ _ _ Hn1 eq_refl Hw).
    cbn [pinBase]. rewrite Z.mod_mod by lia. reflexivity.
Qed.

Lemma ts_ns_now_of s : ts_ns (now_of s) = clock s.
Proof.
  unfold ts_ns, now_of. cbn [tv_sec tv_nsec].
  pose proof (Z.div_mod (clock s) 1000000000 ltac:(lia)). lia.
Qed.

Lemma ts_ns_timespec_add a b : ts_ns (timespec_add a b) = ts_ns a + ts_ns b.
Proof.
  unfold ts_ns, timespec_add. cbn [tv_sec tv_nsec].
  pose proof (Z.quot_rem' (tv_nsec a + tv_nsec b) 1000000000). lia.
Qed.

Lemma busy_delay_positive RS byte :
  0 < ts_ns (busy_delay RS byte) /\ 0 <= tv_nsec (busy_delay RS byte).
Proof.
  unfold busy_delay.
  destruct RS; [|destruct (Z.land byte 255 >? 3)]; cbn; lia.
Qed.

Lemma deadline_after_write sw n nd RS byte (after : State -> wiringPiNodeStruct ->
    hd44780DataStruct -> bool -> Z -> State) dt old :
  (after = after_write_4 /\ dt = 1250) \/ (after = after_write_8 /\ dt = 650) ->
  old <= clock sw ->
  exists nd',
    data_of (after sw n nd RS byte) = Some nd'
    /\ readEnabled nd' = readEnabled nd
    /\ ts_wf (operation_end nd')
    /\ ts_ns (operation_end nd') = clock (after sw n nd RS byte) + ts_ns (busy_delay RS byte)
    /\ old < ts_ns (operation_end nd')
    /\ clock (after sw n nd RS byte) = clock sw + dt
    /\ rawSleep (after sw n nd RS byte) = rawSleep sw
    /\ node (after sw n nd RS byte)
       = Some (mkNode (pinBase n) (pinMax n) (Some nd') (digitalWrite_h n) (digitalRead_h n)).
Proof.
  intros Hafter Hold.
  destruct (busy_delay_positive RS byte) as [Hpos Hnn].
  destruct Hafter as [[-> ->] | [-> ->]]; eexists;
    (split; [reflexivity|]); (split; [reflexivity|]);
    cbn [operation_end with_operation_end];
    (split; [apply timespec_add_wf;
               [unfold now_of; cbn [tv_nsec]; apply Z.mod_pos_bound; lia | exact Hnn]|]);
    rewrite ts_ns_timespec_add, ts_ns_now_of;
    unfold after_write_4, after_write_8, log, set_node, set_clock, set_trace;
    cbn [clock rawSleep node]; repeat split; lia.
Qed.

Lemma timespec_gt_true a s :
  ts_wf a -> clock s < ts_ns a -> timespec_gt a (now_of s) = true.
Proof.
  intros Hwf Hlt. destruct (timespec_gt a (now_of s)) eqn:E; [reflexivity|].
  pose proof (timespec_gt_false a s Hwf E). lia.
Qed.

Lemma hd44780DigitalWrite_4_wait_aborted bus fuel pin d s n nd f sw :
  node s = Some n -> dataStruct n = Some nd ->
  waitWhileBusy_4 bus fuel s = Aborted f sw ->
  hd44780DigitalWrite_4 bus fuel pin d s = Aborted f sw.
Proof.
  intros Hn Hd Hw. pose proof (data_of_node _ _ _ Hn Hd) as Hds.
  unfold hd44780DigitalWrite_4. unfold bind at 1, nodeStruct. rewrite Hn.
  unfold bind at 1. rewrite (nodeData_of _ _ Hds). cbv zeta.
  unfold bind at 1. rewrite Hw. reflexivity.
Qed.

Lemma hd44780DigitalWrite_8_wait_aborted bus fuel pin d s n nd f sw :
  node s = Some n -> dataStruct n = Some nd ->
  (if mode8 nd then waitWhileBusy_8 bus fuel else waitWhileBusy_4 bus fuel)
    (set_mode8 s (negotiate (mode8 nd) (pin =? pinBase n) (d mod 256)))
  = Aborted f sw ->
  hd44780DigitalWrite_8 bus fuel pin d s = Aborted f sw.
Proof.
  intros Hn Hd Hw. pose proof (data_of_node _ _ _ Hn Hd) as Hds.
  set (b := negotiate (mode8 nd) (pin =? pinBase n) (d mod 256)) in *.
  pose proof (set_mode8_node s n nd b Hn Hd) as Hs1.
  assert (Hn1 : node (set_mode8 s b)
                = Some (mkNode (pinBase n) (pinMax n) (Some (with_mode8 nd b))
                               (digitalWrite_h n) (digitalRead_h n)))
    by (rewrite Hs1; reflexivity).
  unfold hd44780DigitalWrite_8. unfold bind at 1, nodeStruct. rewrite Hn.
  unfold bind at 1. rewrite (nodeData_of _ _ Hds). cbv zeta.
  destruct (mode8 nd) eqn:Em; cbn [negb]; cbv iota.
  - unfold bind at 1.
    rewrite (when_store_mode8 _ _ _ _ _ Hn Hd), Em, negotiate_from_8. fold b.
    unfold bind at 1. rewrite Hw. reflexivity.
  - unfold bind at 1.
    rewrite (when_store_mode8 _ _ _ _ _ Hn Hd), Em, negotiate_from_4. fold b.
    apply (hd44780DigitalWrite_4_wait_aborted _ _ _ _ _ _ _ _ _ Hn1 eq_refl Hw).
Qed.

(** ** The width negotiation of a write, for every outcome *)

Lemma hd44780DigitalWrite_8_width bus fuel pin d s n nd :
  node s = Some n -> dataStruct n = Some nd ->
  exists nd',
    data_of (final (hd44780DigitalWrite_8 bus fuel pin d s)) = Some nd'
    /\ mode8 nd' = negotiate (mode8 nd) (pin =? pinBase n) (d mod 256).
Proof.
  intros Hn Hd.
  set (b := negotiate (mode8 nd) (pin =? pinBase n) (d mod 256)).
  pose proof (set_mode8_node s n nd b Hn Hd) as Hs1.
  assert (Hn1 : node (set_mode8 s b)
                = Some (mkNode (pinBase n) (pinMax n) (Some (with_mode8 nd b))
                               (digitalWrite_h n) (digitalRead_h n)))
    by (rewrite Hs1; reflexivity).
  destruct ((if mode8 nd then waitWhileBusy_8 bus fuel else waitWhileBusy_4 bus fuel)
              (set_mode8 s b)) as [[] sw | f sw] eqn:Ew.
  - rewrite (hd44780DigitalWrite_8_after_wait _ _ _ _ _ _ _ _ Hn Hd Ew). fold b.
    destruct (mode8 nd); eexists; split; reflexivity.
  - rewrite (hd44780DigitalWrite_8_wait_aborted _ _ _ _ _ _ _ _ _ Hn Hd Ew).
    exists (with_mode8 nd b). split; [|reflexivity].
    assert (Hk : node sw = node (set_mode8 s b)).
    { destruct (mode8 nd).
      - pose proof (waitWhileBusy_8_node bus (set_mode8 s b) fuel) as Hk.
        rewrite Ew in Hk. exact Hk.
      - pose proof (waitWhileBusy_4_node bus (set_mode8 s b) fuel) as Hk.
        rewrite Ew in Hk. exact Hk. }
    cbn [final]. unfold data_of. rewrite Hk, Hn1. reflexivity.
Qed.

Lemma hd44780DigitalWrite_4_width bus fuel pin d s n nd :
  node s = Some n -> dataStruct n = Some nd ->
  exists nd',
    data_of (final (hd44780DigitalWrite_4 bus fuel pin d s)) = Some nd'
    /\ mode8 nd' = mode8 nd.
Proof.
  intros Hn Hd.
  destruct (waitWhileBusy_4 bus fuel s) as [[] sw | f sw] eqn:Ew.
  - rewrite (hd44780DigitalWrite_4_after_wait _ _ _ _ _ _ _ _ Hn Hd Ew).
    eexists. split; reflexivity.
  - rewrite (hd44780DigitalWrite_4_wait_aborted _ _ _ _ _ _ _ _ _ Hn Hd Ew).
    exists nd. split; [|reflexivity].
    pose proof (waitWhileBusy_4_node bus s fuel) as Hk. rewrite Ew in Hk.
    cbn [final] in *. unfold data_of. rewrite Hk, Hn. exact Hd.
Qed.

(** C4, as the code has it.  The handler installed on a node with the 8-bit
    capability leaves the node in the width the transition rule gives: from
    FourBit to EightBit on an instruction byte of high nibble 0x3, from
    EightBit to FourBit on one of high nibble 0x2, unchanged on memory writes
    and on every other instruction byte.  The rule is applied before the
    busy-wait: the busy-wait is run from the state in which the width is
    already the new one, and when it is cut short the write ends there, so
    that for every outcome of the write, returned or not, the node is left
    in the new width.  The byte is then transmitted in the width that was
    active before the rule was applied: by the two strobe cycles of the 4-bit
    encoding from FourBit, by the single strobe cycle of the 8-bit encoding
    from EightBit.  The handler installed on a node without the capability
    transmits in the 4-bit encoding and, for every outcome, leaves the width
    as it was. *)
Theorem write_negotiates_then_sends_in_old_width :
  forall bus fuel pin d s n nd,
    node s = Some n -> dataStruct n = Some nd ->
    (forall s',
       hd44780DigitalWrite_8 bus fuel pin d s = Returned tt s' ->
       exists sw nd',
         data_of s' = Some nd'
         /\ mode8 nd' = negotiate (mode8 nd) (pin =? pinBase n) (d mod 256)
         /\ (if mode8 nd then waitWhileBusy_8 bus fuel else waitWhileBusy_4 bus fuel)
              (set_mode8 s (negotiate (mode8 nd) (pin =? pinBase n) (d mod 256)))
            = Returned tt sw
         /\ trace s' = trace sw ++ (if mode8 nd then encode_8 nd else encode_4 nd)
                                     (pin =? pinBase n) (d mod 256))
    /\ (forall s',
          hd44780DigitalWrite_4 bus fuel pin d s = Returned tt s' ->
          exists sw nd',
            data_of s' = Some nd'
            /\ mode8 nd' = mode8 nd
            /\ waitWhileBusy_4 bus fuel s = Returned tt sw
            /\ trace s' = trace sw ++ encode_4 nd (pin =? pinBase n) (d mod 256))
    /\ (exists nd',
          data_of (final (hd44780DigitalWrite_8 bus fuel pin d s)) = Some nd'
          /\ mode8 nd' = negotiate (mode8 nd) (pin =? pinBase n) (d mod 256))
    /\ (forall f sw,
          (if mode8 nd then waitWhileBusy_8 bus fuel else waitWhileBusy_4 bus fuel)
            (set_mode8 s (negotiate (mode8 nd) (pin =? pinBase n) (d mod 256)))
          = Aborted f sw ->
          hd44780DigitalWrite_8 bus fuel pin d s = Aborted f sw
          /\ exists nd',
               data_of sw = Some nd'
               /\ mode8 nd' = negotiate (mode8 nd) (pin =? pinBase n) (d mod 256))
    /\ (exists nd',
          data_of (final (hd44780DigitalWrite_4 bus fuel pin d s)) = Some nd'
          /\ mode8 nd' = mode8 nd).
Proof.
  intros bus fuel pin d s n nd Hn Hd.
  split; [|split; [|split; [|split]]].
  - intros s' H.
    destruct (hd44780DigitalWrite_8_transfer _ _ _ _ _ _ _ _ Hn Hd H)
      as (sw & t & Hw & Ht & Hnode).
    exists sw. eexists. unfold data_of. rewrite Hnode. cbn [dataStruct].
    split; [reflexivity|]. split; [reflexivity|]. split; assumption.
  - intros s' H.
    destruct (hd44780DigitalWrite_4_transfer _ _ _ _ _ _ _ _ Hn Hd H)
      as (sw & t & Hw & Ht & Hnode).
    exists sw. eexists. unfold data_of. rewrite Hnode. cbn [dataStruct].
    split; [reflexivity|]. split; [reflexivity|]. split; assumption.
  - apply (hd44780DigitalWrite_8_width bus fuel pin d s n nd Hn Hd).
  - intros f sw Hw.
    pose proof (hd44780DigitalWrite_8_wait_aborted _ _ _ _ _ _ _ _ _ Hn Hd Hw) as Hab.
    split; [exact Hab|].
    destruct (hd44780DigitalWrite_8_width bus fuel pin d s n nd Hn Hd) as (nd' & H1 & H2).
    rewrite Hab in H1. exists nd'. split; [exact H1 | exact H2].
  - apply (hd44780DigitalWrite_4_width bus fuel pin d s n nd Hn Hd).
Qed.

Lemma write_negotiates_then_sends_in_old_width_witness :
  (exists sw nd',
     data_of (final (hd44780DigitalWrite_8 quiet 1 65 0x20 after_setup_8)) = Some nd'
     /\ mode8 nd' = negotiate (mode8 data_8) (65 =? pinBase node_8) (0x20 mod 256)
     /\ (if mode8 data_8 then waitWhileBusy_8 quiet 1 else waitWhileBusy_4 quiet 1)
          (set_mode8 after_setup_8
             (negotiate (mode8 data_8) (65 =? pinBase node_8) (0x20 mod 256)))
        = Returned tt sw
     /\ trace (final (hd44780DigitalWrite_8 quiet 1 65 0x20 after_setup_8))
        = trace sw ++ (if mode8 data_8 then encode_8 data_8 else encode_4 data_8)
                        (65 =? pinBase node_8) (0x20 mod 256))
  /\ (exists sw nd',
        data_of (final (hd44780DigitalWrite_4 quiet 1 65 0x20 after_setup_8)) = Some nd'
        /\ mode8 nd' = mode8 data_8
        /\ waitWhileBusy_4 quiet 1 after_setup_8 = Returned tt sw
        /\ trace (final (hd44780DigitalWrite_4 quiet 1 65 0x20 after_setup_8))
           = trace sw ++ encode_4 data_8 (65 =? pinBase node_8) (0x20 mod 256))
  /\ (exists s' nd',
        hd44780DigitalWrite_8 pulled_up 5 65 0x20 after_setup_8 = Aborted OutOfFuel s'
        /\ mode8 data_8 = true
        /\ data_of s' = Some nd' /\ mode8 nd' = false).
Proof.
  assert (Hn : node after_setup_8 = Some node_8) by (vm_compute; reflexivity).
  assert (Hd : dataStruct node_8 = Some data_8) by reflexivity.
  destruct (write_negotiates_then_sends_in_old_width quiet 1 65 0x20 after_setup_8
              node_8 data_8 Hn Hd) as (H8 & H4 & _).
  destruct (write_negotiates_then_sends_in_old_width pulled_up 5 65 0x20 after_setup_8
              node_8 data_8 Hn Hd) as (_ & _ & _ & Hcut & _).
  split; [apply H8; vm_compute; reflexivity|].
  split; [apply H4; vm_compute; reflexivity|].
  destruct (Hcut OutOfFuel
              (final (waitWhileBusy_8 pulled_up 5 (set_mode8 after_setup_8 false))))
    as (Hab & nd' & H1 & H2); [vm_compute; reflexivity|].
  eexists. exists nd'. split; [exact Hab|]. split; [reflexivity|].
  split; [exact H1 | exact H2].
Defined.

(** C4 as stated fails.  On a node in EightBit, the instruction 0x20
    (function set, 4-bit) moves the node to FourBit, and is itself sent in
    one strobe cycle over the eight lines, which is not the 4-bit encoding. *)
Lemma switch_byte_sent_in_new_width_counterexample :
  exists s' sw nd',
    nodeDigitalWrite quiet 1 65 (hd44780CMD_FnSet false false false) after_setup_8
    = Returned tt s'
    /\ mode8 data_8 = true
    /\ data_of s' = Some nd' /\ mode8 nd' = false
    /\ waitWhileBusy_8 quiet 1 (set_mode8 after_setup_8 false) = Returned tt sw
    /\ trace s' = trace sw ++ encode_8 data_8 false 0x20
    /\ trace s' <> trace sw ++ encode_4 data_8 false 0x20.
Proof.
  eexists. eexists. eexists.
  split; [vm_compute; reflexivity|].
  split; [reflexivity|].
  split; [vm_compute; reflexivity|].
  split; [reflexivity|].
  split; [vm_compute; reflexivity|].
  split; [vm_compute; reflexivity|].
  vm_compute. discriminate.
Qed.

(** A write on a node without read-capability is its read-disabled wait,
    from the state [s0] in which the width is already the new one, then the
    transfer. *)
Lemma write_read_disabled_shape bus fuel pin d s n nd
    (write : (list Event -> Z -> bool) -> nat -> Z -> Z -> M unit) :
  node s = Some n -> dataStruct n = Some nd ->
  readEnabled nd = false ->
  write = hd44780DigitalWrite_4 \/ write = hd44780DigitalWrite_8 ->
  exists s0 nd0 (after : State -> wiringPiNodeStruct -> hd44780DataStruct -> bool -> Z -> State)
         dt,
    data_of s0 = Some nd0
    /\ operation_end nd0 = operation_end nd /\ readEnabled nd0 = false
    /\ rawSleep s0 = rawSleep s /\ signals s0 = signals s /\ clock s0 = clock s
    /\ ((after = after_write_4 /\ dt = 1250) \/ (after = after_write_8 /\ dt = 650))
    /\ (forall sw, waitWhileBusy_ReadDisabled fuel s0 = Returned tt sw ->
          write bus fuel pin d s
          = Returned tt (after sw n nd0 (pin =? pinBase n) (d mod 256)))
    /\ (forall f sw, waitWhileBusy_ReadDisabled fuel s0 = Aborted f sw ->
          write bus fuel pin d s = Aborted f sw).
Proof.
  intros Hn Hd Hre Hwrite.
  pose proof (data_of_node _ _ _ Hn Hd) as Hds.
  destruct Hwrite as [-> | ->].
  - exists s, nd, after_write_4, 1250.
    split; [exact Hds|]. split; [reflexivity|]. split; [exact Hre|].
    split; [reflexivity|]. split; [reflexivity|]. split; [reflexivity|].
    split; [left; split; reflexivity|]. split.
    + intros sw Hw.
      rewrite <- (waitWhileBusy_4_ReadDisabled bus _ _ _ Hds Hre) in Hw.
      apply (hd44780DigitalWrite_4_after_wait _ _ _ _ _ _ _ _ Hn Hd Hw).
    + intros f sw Hw.
      rewrite <- (waitWhileBusy_4_ReadDisabled bus _ _ _ Hds Hre) in Hw.
      apply (hd44780DigitalWrite_4_wait_aborted _ _ _ _ _ _ _ _ _ Hn Hd Hw).
  - set (b := negotiate (mode8 nd) (pin =? pinBase n) (d mod 256)).
    pose proof (set_mode8_node s n nd b Hn Hd) as Hs1.
    assert (Hds1 : data_of (set_mode8 s b) = Some (with_mode8 nd b))
      by (rewrite Hs1; reflexivity).
    assert (Hw' : (if mode8 nd then waitWhileBusy_8 bus fuel else waitWhileBusy_4 bus fuel)
                    (set_mode8 s b) = waitWhileBusy_ReadDisabled fuel (set_mode8 s b)).
    { destruct (mode8 nd).
      - apply (waitWhileBusy_8_ReadDisabled bus _ _ _ Hds1 Hre).
      - apply (waitWhileBusy_4_ReadDisabled bus _ _ _ Hds1 Hre). }
    exists (set_mode8 s b), (with_mode8 nd b),
      (if mode8 nd then after_write_8 else after_write_4),
      (if mode8 nd then 650 else 1250).
    split; [exact Hds1|]. split; [reflexivity|]. split; [exact Hre|].
    split; [rewrite Hs1; reflexivity|]. split; [rewrite Hs1; reflexivity|].
    split; [rewrite Hs1; reflexivity|].
    split; [destruct (mode8 nd); [right | left]; split; reflexivity|]. split.
    + intros sw Hw. rewrite <- Hw' in Hw.
      apply (hd44780DigitalWrite_8_after_wait _ _ _ _ _ _ _ _ Hn Hd Hw).
    + intros f sw Hw. rewrite <- Hw' in Hw.
      apply (hd44780DigitalWrite_8_wait_aborted _ _ _ _ _ _ _ _ _ Hn Hd Hw).
Qed.

(** X8.  On a node without read-capability, a write through either handler:
    whenever it returns, it returned after the deadline it found and stored
    a normalised deadline, the clock at its return plus the delay of the
    byte, strictly later than the one it found; it does return when the
    deadline it finds is not ahead, and also, where the platform sleeps
    against CLOCK_MONOTONIC_RAW, given fuel for one turn of the sleep loop
    more than there are signals pending.  Where the platform refuses that
    sleep, as Linux does, a write that finds its deadline ahead never
    returns; this is what happens to any write that follows a completed one
    at once. *)
Theorem write_read_disabled_advances_deadline :
  forall bus fuel pin d s n nd,
    node s = Some n -> dataStruct n = Some nd ->
    readEnabled nd = false ->
    ts_wf (operation_end nd) ->
    forall write,
      write = hd44780DigitalWrite_4 \/ write = hd44780DigitalWrite_8 ->
      (forall s',
         write bus fuel pin d s = Returned tt s' ->
         exists nd',
           data_of s' = Some nd'
           /\ ts_wf (operation_end nd')
           /\ ts_ns (operation_end nd')
              = clock s' + ts_ns (busy_delay (pin =? pinBase n) (d mod 256))
           /\ ts_ns (operation_end nd) < ts_ns (operation_end nd')
           /\ ts_ns (operation_end nd) < clock s')
      /\ (timespec_gt (operation_end nd) (now_of s) = false ->
          exists s', write bus fuel pin d s = Returned tt s')
      /\ (rawSleep s = true -> (List.length (signals s) < fuel)%nat ->
          exists s', write bus fuel pin d s = Returned tt s')
      /\ (rawSleep s = false -> timespec_gt (operation_end nd) (now_of s) = true ->
          exists s', write bus fuel pin d s = Aborted OutOfFuel s' /\ clock s' = clock s)
      /\ (rawSleep s = false ->
          forall s', write bus fuel pin d s = Returned tt s' ->
          forall write' fuel' pin' d',
            write' = hd44780DigitalWrite_4 \/ write' = hd44780DigitalWrite_8 ->
            exists s'', write' bus fuel' pin' d' s' = Aborted OutOfFuel s'').
Proof.
  intros bus fuel pin d s n nd Hn Hd Hre Hwf write Hwrite.
  destruct (write_read_disabled_shape bus fuel pin d s n nd write Hn Hd Hre Hwrite)
    as (s0 & nd0 & after & dt & Hd0 & Hend & Hre0 & Hrs0 & Hsig0 & Hck0 & Hafter & Hret & Hab).
  assert (Hwf0 : ts_wf (operation_end nd0)) by (rewrite Hend; exact Hwf).
  assert (Hnow : now_of s0 = now_of s) by (unfold now_of; rewrite Hck0; reflexivity).
  assert (Hinv : forall s', write bus fuel pin d s = Returned tt s' ->
            exists sw, waitWhileBusy_ReadDisabled fuel s0 = Returned tt sw
                       /\ s' = after sw n nd0 (pin =? pinBase n) (d mod 256)).
  { intros s' H. destruct (waitWhileBusy_ReadDisabled fuel s0) as [[] sw | f sw] eqn:Ew.
    - exists sw. split; [reflexivity|]. rewrite (Hret sw eq_refl) in H.
      inversion H. reflexivity.
    - rewrite (Hab f sw eq_refl) in H. discriminate. }
  assert (Hfacts : forall s', write bus fuel pin d s = Returned tt s' ->
            exists nd',
              data_of s' = Some nd' /\ readEnabled nd' = false
              /\ ts_wf (operation_end nd')
              /\ ts_ns (operation_end nd')
                 = clock s' + ts_ns (busy_delay (pin =? pinBase n) (d mod 256))
              /\ ts_ns (operation_end nd) < ts_ns (operation_end nd')
              /\ ts_ns (operation_end nd) < clock s'
              /\ rawSleep s' = rawSleep s
              /\ node s' = Some (mkNode (pinBase n) (pinMax n) (Some nd')
                                        (digitalWrite_h n) (digitalRead_h n))).
  { intros s' H. destruct (Hinv s' H) as (sw & Hw & ->).
    destruct (waitWhileBusy_ReadDisabled_returned fuel s0 sw nd0 Hd0 Hwf0 Hw)
      as (Hclock & _ & Hrsw).
    rewrite Hend in Hclock.
    destruct (deadline_after_write sw n nd0 (pin =? pinBase n) (d mod 256) after dt _
                Hafter Hclock)
      as (nd' & H1 & H2 & H3 & H4 & H5 & H6 & H7 & H8).
    exists nd'. split; [exact H1|]. split; [rewrite H2; exact Hre0|].
    split; [exact H3|]. split; [exact H4|]. split; [exact H5|].
    split; [destruct Hafter as [[_ ->] | [_ ->]]; lia|].
    split; [rewrite H7, Hrsw; exact Hrs0 | exact H8]. }
  split; [|split; [|split; [|split]]].
  - intros s' H. destruct (Hfacts s' H) as (nd' & H1 & _ & H3 & H4 & H5 & H6 & _).
    exists nd'. split; [exact H1|]. split; [exact H3|]. split; [exact H4|].
    split; [exact H5 | exact H6].
  - intros Hgt. eexists. apply Hret.
    apply (waitWhileBusy_ReadDisabled_due fuel s0 nd0 Hd0).
    rewrite Hend, Hnow. exact Hgt.
  - intros Hrs Hf.
    destruct (waitWhileBusy_ReadDisabled_deadline fuel s0 nd0 Hd0 Hwf0)
      as (sw & Hw & _); [rewrite Hrs0; exact Hrs | rewrite Hsig0; exact Hf |].
    eexists. apply (Hret sw Hw).
  - intros Hrs Hgt.
    destruct (waitWhileBusy_ReadDisabled_refused fuel s0 nd0 Hd0)
      as (sw & Hw & _ & Hck & _);
      [rewrite Hrs0; exact Hrs | rewrite Hend, Hnow; exact Hgt |].
    exists sw. split; [apply (Hab _ _ Hw) | rewrite Hck; exact Hck0].
  - intros Hrs s' H write' fuel' pin' d' Hwrite'.
    destruct (Hfacts s' H) as (nd' & H1 & H2 & H3 & H4 & _ & _ & H7 & H8).
    destruct (busy_delay_positive (pin =? pinBase n) (d mod 256)) as [Hpos _].
    destruct (write_read_disabled_shape bus fuel' pin' d' s' _ nd' write' H8 eq_refl H2
                Hwrite')
      as (s1 & nd1 & after1 & dt1 & Hd1 & Hend1 & _ & Hrs1 & _ & Hck1 & _ & _ & Hab1).
    destruct (waitWhileBusy_ReadDisabled_refused fuel' s1 nd1 Hd1) as (sw & Hw & _).
    + rewrite Hrs1, H7. exact Hrs.
    + rewrite Hend1. apply timespec_gt_true; [exact H3 | rewrite Hck1; lia].
    + exists sw. apply (Hab1 _ _ Hw).
Qed.

Lemma write_read_disabled_advances_deadline_witness :
  exists n nd s1 nd1 s2,
    node after_setup_4 = Some n /\ dataStruct n = Some nd
    /\ hd44780DigitalWrite_4 quiet 3 64 0x41 after_setup_4 = Returned tt s1
    /\ data_of s1 = Some nd1
    /\ ts_wf (operation_end nd1)
    /\ ts_ns (operation_end nd1) = clock s1 + ts_ns (busy_delay (64 =? pinBase n) (0x41 mod 256))
    /\ ts_ns (operation_end nd) < ts_ns (operation_end nd1)
    /\ ts_ns (operation_end nd) < clock s1
    /\ hd44780DigitalWrite_4 quiet 1000 64 0x42 s1 = Aborted OutOfFuel s2.
Proof.
  exists node_4, data_4.
  destruct (write_read_disabled_advances_deadline quiet 3 64 0x41 after_setup_4
              node_4 data_4)
    with (write := hd44780DigitalWrite_4) as (Hfacts & Hdue & _ & _ & Hnext).
  - vm_compute. reflexivity.
  - reflexivity.
  - reflexivity.
  - split; vm_compute; [discriminate | reflexivity].
  - left. reflexivity.
  - destruct Hdue as (s1 & H1); [vm_compute; reflexivity|].
    destruct (Hfacts s1 H1) as (nd1 & Ha & Hb & Hc & He & Hf).
    destruct (Hnext eq_refl s1 H1 hd44780DigitalWrite_4 1000%nat 64 0x42)
      as (s2 & H2); [left; reflexivity|].
    exists s1, nd1, s2.
    split; [vm_compute; reflexivity|]. split; [reflexivity|].
    split; [exact H1|]. split; [exact Ha|]. split; [exact Hb|]. split; [exact Hc|].
    split; [exact He|]. split; [exact Hf | exact H2].
Defined.

(** ** The busy-waits of a node without read-capability *)

(** X9.  On a node without read-capability neither busy-wait writes, reads,
    pulls or reconfigures any pin: all they add to the trace is sleeps, and
    nothing at all when the deadline is not in the future. *)
Theorem wait_read_disabled_only_sleeps :
  forall bus fuel s nd,
    data_of s = Some nd -> readEnabled nd = false ->
    forall wait,
      wait = waitWhileBusy_8 bus \/ wait = waitWhileBusy_4 bus ->
      exists d,
        trace (final (wait fuel s)) = trace s ++ d
        /\ Forall (fun e => is_sleep e = true) d
        /\ (timespec_gt (operation_end nd) (now_of s) = false -> d = []).
Proof.
  intros bus fuel s nd Hd Hre wait Hwait.
  assert (Heq : wait fuel s = waitWhileBusy_ReadDisabled fuel s).
  { destruct Hwait as [-> | ->].
    - apply (waitWhileBusy_8_ReadDisabled bus _ _ _ Hd Hre).
    - apply (waitWhileBusy_4_ReadDisabled bus _ _ _ Hd Hre). }
  rewrite Heq. unfold waitWhileBusy_ReadDisabled.
  unfold bind at 1. rewrite (nodeData_of _ _ Hd).
  unfold bind at 1, clock_gettime.
  destruct (timespec_gt (operation_end nd) (now_of s)) eqn:Egt; cbn [when].
  - assert (Ht : triple (fun _ => True) (fun e => is_sleep e = true)
                   (while fuel
                      (bind (clock_nanosleep CLOCK_MONOTONIC_RAW (operation_end nd))
                            (fun r => ret (negb (r =? 0))))
                      (ret tt))).
    { repeat triple_rule. reflexivity. }
    destruct (Ht s Logic.I) as (_ & d & Htr & Hall).
    exists d. split; [exact Htr|]. split; [exact Hall | discriminate].
  - exists []. cbn [final]. rewrite app_nil_r. auto.
Qed.

Lemma wait_read_disabled_only_sleeps_witness :
  exists d,
    trace (final (waitWhileBusy_4 quiet 3 after_home_4)) = trace after_home_4 ++ d
    /\ Forall (fun e => is_sleep e = true) d
    /\ (timespec_gt (mkTimespec 0 1558850) (now_of after_home_4) = false -> d = []).
Proof.
  apply (wait_read_disabled_only_sleeps quiet 3 after_home_4
           (mkData false false false 1 2 3 [8; 9; 10; 11; 4; 5; 6; 7]
                   (mkTimespec 0 1558850))).
  - vm_compute. reflexivity.
  - reflexivity.
  - right. reflexivity.
Defined.

(** ** The read handlers *)

Ltac any_rule :=
  lazymatch goal with
  | |- triple _ _ (bind nodeStruct _) => apply triple_nodeStruct; intros
  | |- _ => triple_rule
  end.

Section ReadsAny.

Variable bus : list Event -> Z -> bool.
Variable I : option wiringPiNodeStruct -> Prop.
Variable P : Event -> Prop.
Hypothesis P_pin_events :
  forall e, match e with EvSleep _ _ => True | _ => P e end.
Hypothesis P_sleep : forall t r, P (EvSleep t r).

Lemma P_any e : P e.
Proof. pose proof (P_pin_events e) as H. destruct e; auto. Qed.

Lemma triple_read_4_any fuel pin : triple I P (hd44780DigitalRead_4 bus fuel pin).
Proof.
  unfold hd44780DigitalRead_4, waitWhileBusy_4, waitWhileBusy_ReadDisabled, sleepIfFar,
    setStatusPins, readCycleStart, readCycleEnd.
  repeat any_rule; apply P_any.
Qed.

Lemma triple_read_8_any fuel pin : triple I P (hd44780DigitalRead_8 bus fuel pin).
Proof.
  unfold hd44780DigitalRead_8. apply triple_nodeStruct. intros n _.
  apply triple_nodeData. intros n' nd _ _.
  apply triple_if; [apply triple_read_4_any|].
  unfold waitWhileBusy_8, waitWhileBusy_ReadDisabled, sleepIfFar,
    setStatusPins, readCycleStart, readCycleEnd.
  repeat any_rule; apply P_any.
Qed.

End ReadsAny.

Lemma shift_in_range data level : 0 <= shift_in data level < 256.
Proof. unfold shift_in. apply Z.mod_pos_bound. lia. Qed.

Lemma foldM_shift_in_range bus (pinf conv : Z -> Z) l : forall a s v s',
  foldM l (fun i data => bind (digitalRead bus (pinf i))
                              (fun x => ret (shift_in data (conv x)))) a s
  = Returned v s' ->
  0 <= a < 256 -> 0 <= v < 256.
Proof.
  induction l as [|i l IH]; intros a s v s' H Ha; cbn [foldM] in H.
  - inversion H. subst. exact Ha.
  - bind_inv H a1 s1 H1. bind_inv H1 x s2 H2. inversion H1; subst a1 s1.
    apply (IH _ _ _ _ H). apply shift_in_range.
Qed.

Lemma hd44780DigitalRead_4_byte bus fuel pin s v s' :
  hd44780DigitalRead_4 bus fuel pin s = Returned v s' -> 0 <= v < 256.
Proof.
  intros H. unfold hd44780DigitalRead_4 in H.
  bind_inv H n s0 H0. clear H0. bind_inv H nd s1 H0. clear H0.
  do 3 bind_skip H.
  bind_inv H data1 sA HA.
  do 2 bind_skip H.
  bind_inv H data2 sB HB.
  do 2 bind_skip H.
  inversion H; subst v.
  apply (foldM_shift_in_range bus (DB nd) (fun x => Z.b2z (negb (x =? 0))) _ _ _ _ _ HB).
  apply (foldM_shift_in_range bus (DB nd) (fun x => Z.b2z (negb (x =? 0))) _ _ _ _ _ HA).
  lia.
Qed.

Lemma hd44780DigitalRead_8_byte bus fuel pin s v s' :
  hd44780DigitalRead_8 bus fuel pin s = Returned v s' -> 0 <= v < 256.
Proof.
  intros H. unfold hd44780DigitalRead_8 in H.
  bind_inv H n s0 H0. clear H0. bind_inv H nd s1 H0. clear H0.
  destruct (mode8 nd); cbn [negb] in H.
  - do 3 bind_skip H.
    bind_inv H data1 sA HA.
    do 2 bind_skip H.
    inversion H; subst v.
    apply (foldM_shift_in_range bus (DB nd) (fun x => x) _ _ _ _ _ HA). lia.
  - apply (hd44780DigitalRead_4_byte _ _ _ _ _ _ H).
Qed.

(** X10.  A read through either handler, whatever its outcome, leaves the
    node as it found it: width, deadline and handlers are those of before.
    When it returns, the value is a byte, between 0 and 255. *)
Theorem read_keeps_node_returns_byte :
  forall bus fuel pin s,
    (node (final (hd44780DigitalRead_4 bus fuel pin s)) = node s
     /\ forall v s', hd44780DigitalRead_4 bus fuel pin s = Returned v s' -> 0 <= v < 256)
    /\ (node (final (hd44780DigitalRead_8 bus fuel pin s)) = node s
        /\ forall v s', hd44780DigitalRead_8 bus fuel pin s = Returned v s' -> 0 <= v < 256)
    /\ node (final (nodeDigitalRead bus fuel pin s)) = node s.
Proof.
  intros bus fuel pin s.
  assert (H4 : node (final (hd44780DigitalRead_4 bus fuel pin s)) = node s).
  { apply (triple_invariant (fun x => x = node s) (fun _ => True));
      [|reflexivity].
    apply triple_read_4_any; [intros []; exact Logic.I | intros; exact Logic.I]. }
  assert (H8 : node (final (hd44780DigitalRead_8 bus fuel pin s)) = node s).
  { apply (triple_invariant (fun x => x = node s) (fun _ => True));
      [|reflexivity].
    apply triple_read_8_any; [intros []; exact Logic.I | intros; exact Logic.I]. }
  split; [split; [exact H4 | apply hd44780DigitalRead_4_byte]|].
  split; [split; [exact H8 | apply hd44780DigitalRead_8_byte]|].
  unfold nodeDigitalRead, bind, nodeStruct.
  destruct (node s) as [n|] eqn:En; [|cbn; exact En].
  destruct (digitalRead_h n).
  - cbn. exact En.
  - exact H8.
  - exact H4.
Qed.

(** ** The enable line after a transfer *)

Lemma last_write_from_app acc a b :
  last_write_from acc (a ++ b) = last_write_from (last_write_from acc a) b.
Proof.
  revert acc. induction a as [|e a IH]; intros acc; cbn; [reflexivity|].
  destruct e; apply IH.
Qed.

Lemma last_write_from_no_write acc d :
  Forall (fun e => is_write e = false) d -> last_write_from acc d = acc.
Proof.
  induction 1 as [|e d He _ IH]; cbn; [reflexivity|].
  destruct e; try exact IH. discriminate.
Qed.

Lemma last_write_encode_4 t nd RS byte :
  last_write (t ++ encode_4 nd RS byte) = Some (pinE nd, false).
Proof.
  unfold last_write, encode_4. rewrite !last_write_from_app. reflexivity.
Qed.

Lemma last_write_encode_8 t nd RS byte :
  last_write (t ++ encode_8 nd RS byte) = Some (pinE nd, false).
Proof.
  unfold last_write, encode_8. rewrite !last_write_from_app. reflexivity.
Qed.

(** The end of both read handlers: the strobe cycle closed, then the lines
    turned back to output. *)
Lemma read_tail e (l : list Z) (pinf : Z -> Z) (data v : Z) sX s' :
  bind (readCycleEnd e)
       (fun _ => bind (forM l (fun i => pinMode (pinf i) OUTPUT)) (fun _ => ret data)) sX
  = Returned v s' ->
  last_write (trace s') = Some (e, false).
Proof.
  intros H.
  bind_inv H a s1 H1. bind_inv H a' s2 H2. inversion H; subst v s'.
  assert (Hs1 : s1 = log sX [EvWrite e false; EvDelayNs 300] 300).
  { unfold readCycleEnd, bind, digitalWrite, emit, delayNanoseconds in H1.
    inversion H1. unfold log, set_clock, set_trace. cbn.
    rewrite <- app_assoc. reflexivity. }
  assert (Ht : triple (fun _ => True) (fun x => is_write x = false)
                 (forM l (fun i => pinMode (pinf i) OUTPUT))).
  { repeat triple_rule. reflexivity. }
  destruct (Ht s1 Logic.I) as (_ & d & Htr & Hall).
  rewrite H2 in Htr. cbn [final] in Htr.
  rewrite Htr, Hs1, trace_log. unfold last_write.
  rewrite !last_write_from_app. cbn [last_write_from].
  apply last_write_from_no_write, Hall.
Qed.

Lemma hd44780DigitalRead_4_enable_low bus fuel pin s v s' nd :
  data_of s = Some nd ->
  hd44780DigitalRead_4 bus fuel pin s = Returned v s' ->
  last_write (trace s') = Some (pinE nd, false).
Proof.
  intros Hd H. unfold hd44780DigitalRead_4 in H.
  bind_inv H n s0 H0. apply nodeStruct_Returned in H0. destruct H0 as [_ ->].
  bind_inv H nd0 s0 H0. apply nodeData_Returned in H0. destruct H0 as [H0 ->].
  rewrite Hd in H0. inversion H0; subst nd0; clear H0.
  do 3 bind_skip H. bind_inv H data1 sA HA. clear HA.
  do 2 bind_skip H. bind_inv H data2 sB HB. clear HB.
  apply (read_tail _ _ _ _ _ _ _ H).
Qed.

(** X11.  Every transfer that completes leaves the enable line low: after a
    write or a read through either handler, the last level written to any
    pin is low, and the pin is the enable pin. *)
Theorem enable_low_after_transfer :
  forall bus fuel pin d s nd,
    data_of s = Some nd ->
    (forall s', hd44780DigitalWrite_4 bus fuel pin d s = Returned tt s' ->
                last_write (trace s') = Some (pinE nd, false))
    /\ (forall s', hd44780DigitalWrite_8 bus fuel pin d s = Returned tt s' ->
                   last_write (trace s') = Some (pinE nd, false))
    /\ (forall v s', hd44780DigitalRead_4 bus fuel pin s = Returned v s' ->
                     last_write (trace s') = Some (pinE nd, false))
    /\ (forall v s', hd44780DigitalRead_8 bus fuel pin s = Returned v s' ->
                     last_write (trace s') = Some (pinE nd, false)).
Proof.
  intros bus fuel pin d s nd Hd.
  assert (Hn : exists n, node s = Some n /\ dataStruct n = Some nd).
  { unfold data_of in Hd. destruct (node s) as [n|]; [|discriminate]. exists n. auto. }
  destruct Hn as (n & Hn & Hdn).
  split; [|split; [|split]].
  - intros s' H.
    destruct (hd44780DigitalWrite_4_transfer _ _ _ _ _ _ _ _ Hn Hdn H)
      as (sw & t & _ & Ht & _).
    rewrite Ht. apply last_write_encode_4.
  - intros s' H.
    destruct (hd44780DigitalWrite_8_transfer _ _ _ _ _ _ _ _ Hn Hdn H)
      as (sw & t & _ & Ht & _).
    rewrite Ht. destruct (mode8 nd); [apply last_write_encode_8 | apply last_write_encode_4].
  - intros v s' H. apply (hd44780DigitalRead_4_enable_low _ _ _ _ _ _ _ Hd H).
  - intros v s' H. unfold hd44780DigitalRead_8 in H.
    bind_inv H n0 s0 H0. apply nodeStruct_Returned in H0. destruct H0 as [_ ->].
    bind_inv H nd0 s0 H0. apply nodeData_Returned in H0. destruct H0 as [H0 ->].
    rewrite Hd in H0. inversion H0; subst nd0; clear H0.
    destruct (mode8 nd); cbn [negb] in H.
    + do 3 bind_skip H. bind_inv H data1 sA HA. clear HA.
      apply (read_tail _ _ _ _ _ _ _ H).
    + apply (hd44780DigitalRead_4_enable_low _ _ _ _ _ _ _ Hd H).
Qed.

Lemma enable_low_after_transfer_witness :
  last_write (trace (final (hd44780DigitalWrite_4 quiet 1 65 0x41 after_setup_4r)))
  = Some (pinE data_4r, false)
  /\ last_write (trace (final (hd44780DigitalRead_4 quiet 1 65 after_setup_4r)))
     = Some (pinE data_4r, false).
Proof.
  destruct (enable_low_after_transfer quiet 1 65 0x41 after_setup_4r data_4r)
    as (Hw4 & _ & Hr4 & _).
  - vm_compute. reflexivity.
  - split.
    + apply Hw4. vm_compute. reflexivity.
    + apply (Hr4 0). vm_compute. reflexivity.
Defined.

(** ** The status read: what it samples and what it returns *)

Lemma sample_length bus pins : forall tr, List.length (sample bus pins tr) = List.length pins.
Proof. induction pins as [|p ps IH]; intros tr; cbn; [reflexivity|]. rewrite IH. reflexivity. Qed.

Lemma foldM_reads bus (pinf conv : Z -> Z) :
  (forall b, conv (Z.b2z b) = Z.b2z b) ->
  forall l a s,
    foldM l (fun i data => bind (digitalRead bus (pinf i))
                                (fun x => ret (shift_in data (conv x)))) a s
    = Returned
        (fold_left (fun acc b => shift_in acc (Z.b2z b))
                   (sample bus (map pinf l) (trace s)) a)
        (log s (read_events (map pinf l) (sample bus (map pinf l) (trace s))) 0).
Proof.
  intros Hconv. induction l as [|i l IH]; intros a s; cbn [foldM map sample].
  - unfold read_events. cbn. rewrite log_nil. reflexivity.
  - unfold bind at 1. unfold bind at 1. rewrite digitalRead_run.
    unfold ret at 1. rewrite Hconv, IH, trace_log, log_log. reflexivity.
Qed.

Lemma shift_in_bits_8 b7 b6 b5 b4 b3 b2 b1 b0 :
  fold_left (fun acc b => shift_in acc (Z.b2z b)) [b7; b6; b5; b4; b3; b2; b1; b0] 0
  = bits_value [b7; b6; b5; b4; b3; b2; b1; b0].
Proof. destruct b7, b6, b5, b4, b3, b2, b1, b0; reflexivity. Qed.

Lemma shift_in_bits bits :
  List.length bits = 8%nat ->
  fold_left (fun acc b => shift_in acc (Z.b2z b)) bits 0 = bits_value bits.
Proof.
  intros H.
  do 8 (destruct bits as [|? bits]; [discriminate|]).
  destruct bits; [|discriminate]. apply shift_in_bits_8.
Qed.

Lemma runs_modes nd l m :
  runs nd (forM l (fun i => pinMode (DB nd i) m)) (map (fun i => EvMode (DB nd i) m) l) 0.
Proof. apply runs_forM. intros i _. apply runs_pinMode. Qed.

(** X12.  A read of the status pseudo-pin through the 8-bit handler, the node
    being in EightBit, never waits and always returns, whatever the fuel: it
    sets the control lines, turns the eight lines to input, raises the
    enable line, samples lines 7 down to 0 in that order, lowers the enable
    line and turns the lines back to output; the value returned is the
    number whose binary digits, most significant first, are the levels
    sampled. *)
Theorem status_read_8 :
  forall bus fuel pin s n nd,
    node s = Some n -> dataStruct n = Some nd ->
    mode8 nd = true -> pin <> pinBase n ->
    exists s',
      hd44780DigitalRead_8 bus fuel pin s
      = Returned (bits_value (sample bus (lines_8 nd) (trace s ++ open_read_8 nd false))) s'
      /\ trace s' = trace s ++ open_read_8 nd false
                    ++ read_events (lines_8 nd)
                         (sample bus (lines_8 nd) (trace s ++ open_read_8 nd false))
                    ++ close_read_8 nd
      /\ node s' = node s.
Proof.
  intros bus fuel pin s n nd Hn Hd Hm Hpin.
  pose proof (data_of_node _ _ _ Hn Hd) as Hds.
  apply Z.eqb_neq in Hpin.
  eexists. split; [|split].
  - unfold hd44780DigitalRead_8. unfold bind at 1, nodeStruct. rewrite Hn.
    unfold bind at 1. rewrite (nodeData_of _ _ Hds), Hm, Hpin. cbv beta iota. cbn [negb].
    cbv beta iota.
    run_eq.
    erewrite runs_prefix; [|apply runs_modes|rewrite ?data_of_log; exact Hds]. cbv beta.
    run_eq. rewrite !log_log.
    unfold bind at 1. rewrite foldM_reads by (intros []; reflexivity).
    run_eq.
    erewrite runs_prefix; [|apply runs_modes|rewrite ?data_of_log; exact Hds]. cbv beta.
    rewrite !log_log, trace_log.
    unfold ret. rewrite shift_in_bits by (rewrite sample_length; reflexivity).
    unfold lines_8, open_read_8, strobe_up. reflexivity.
  - rewrite trace_log. unfold close_read_8, open_read_8, strobe_down, strobe_up, lines_8.
    rewrite <- !app_assoc. reflexivity.
  - apply node_log.
Qed.

Lemma status_read_8_witness :
  exists s',
    hd44780DigitalRead_8 (fun _ _ => true) 0 65 after_setup_8 = Returned 255 s'
    /\ node s' = node after_setup_8.
Proof.
  destruct (status_read_8 (fun _ _ => true) 0 65 after_setup_8 node_8 data_8)
    as (s' & Hr & _ & Hk);
    [vm_compute; reflexivity | reflexivity | reflexivity | discriminate |].
  exists s'. split; [exact Hr | exact Hk].
Defined.

Lemma hd44780DigitalRead_8_narrow bus fuel pin s n nd :
  node s = Some n -> dataStruct n = Some nd -> mode8 nd = false ->
  hd44780DigitalRead_8 bus fuel pin s = hd44780DigitalRead_4 bus fuel pin s.
Proof.
  intros Hn Hd Hm. pose proof (data_of_node _ _ _ Hn Hd) as Hds.
  unfold hd44780DigitalRead_8. unfold bind at 1, nodeStruct. rewrite Hn.
  unfold bind at 1. rewrite (nodeData_of _ _ Hds), Hm. reflexivity.
Qed.

(** X13.  A read of the status pseudo-pin through the 4-bit handler never
    waits and always returns, whatever the fuel: it turns lines 7 to 4 to
    input, sets the control lines, and in two enable pulses samples lines 7
    down to 4 twice; the value returned has the first nibble sampled as its
    high half and the second as its low half.  The 8-bit handler does the
    same when the node is in FourBit. *)
Theorem status_read_4 :
  forall bus fuel pin s n nd,
    node s = Some n -> dataStruct n = Some nd -> pin <> pinBase n ->
    exists s',
      hd44780DigitalRead_4 bus fuel pin s
      = Returned (bits_value (status_hi_4 bus nd (trace s) ++ status_lo_4 bus nd (trace s))) s'
      /\ trace s' = trace s ++ open_read_4 nd false
                    ++ read_events (lines_4 nd) (status_hi_4 bus nd (trace s))
                    ++ strobe_down nd ++ strobe_up nd
                    ++ read_events (lines_4 nd) (status_lo_4 bus nd (trace s))
                    ++ close_read_4 nd
      /\ node s' = node s
      /\ (mode8 nd = false ->
          hd44780DigitalRead_8 bus fuel pin s = hd44780DigitalRead_4 bus fuel pin s).
Proof.
  intros bus fuel pin s n nd Hn Hd Hpin.
  pose proof (data_of_node _ _ _ Hn Hd) as Hds.
  apply Z.eqb_neq in Hpin.
  eexists. split; [|split; [|split]].
  - unfold hd44780DigitalRead_4. unfold bind at 1, nodeStruct. rewrite Hn.
    unfold bind at 1. rewrite (nodeData_of _ _ Hds), Hpin. cbv beta iota.
    erewrite runs_prefix; [|apply runs_modes|rewrite ?data_of_log; exact Hds]. cbv beta.
    run_eq. run_eq. rewrite !log_log.
    unfold bind at 1.
    rewrite (foldM_reads bus (DB nd) (fun v => Z.b2z (negb (v =? 0))))
      by (intros []; reflexivity).
    run_eq. run_eq. rewrite !log_log.
    unfold bind at 1.
    rewrite (foldM_reads bus (DB nd) (fun v => Z.b2z (negb (v =? 0))))
      by (intros []; reflexivity).
    run_eq.
    erewrite runs_prefix; [|apply runs_modes|rewrite ?data_of_log; exact Hds]. cbv beta.
    rewrite !log_log, !trace_log.
    unfold ret. rewrite <- fold_left_app.
    rewrite shift_in_bits by (rewrite length_app, !sample_length; reflexivity).
    unfold status_lo_4, status_hi_4, lines_4, open_read_4, strobe_up, strobe_down.
    rewrite <- !app_assoc. reflexivity.
  - rewrite trace_log.
    unfold status_lo_4, status_hi_4, close_read_4, open_read_4, strobe_down, strobe_up,
      lines_4.
    rewrite <- !app_assoc. reflexivity.
  - apply node_log.
  - intros Hm. exact (hd44780DigitalRead_8_narrow bus fuel pin s n nd Hn Hd Hm).
Qed.

Lemma status_read_4_witness :
  exists s',
    hd44780DigitalRead_4 (fun _ p => p =? 7) 0 65 after_setup_4r = Returned 136 s'
    /\ node s' = node after_setup_4r.
Proof.
  destruct (status_read_4 (fun _ p => p =? 7) 0 65 after_setup_4r
              (mkNode 64 65 (Some data_4r) Handler_DigitalWrite_4 Handler_DigitalRead_4)
              data_4r)
    as (s' & Hr & _ & Hk & _);
    [vm_compute; reflexivity | reflexivity | discriminate |].
  exists s'. split; [exact Hr | exact Hk].
Defined.

(** * The read-capable 8-bit busy-wait *)

Lemma turns_polls_8 nd k :
  strobe_up nd ++ List.concat (repeat (turn_8 nd) k)
  = List.concat (repeat (poll_busy_8 nd) k) ++ strobe_up nd.
Proof.
  induction k as [|k IH]; cbn [repeat List.concat].
  - rewrite app_nil_r. reflexivity.
  - rewrite <- app_assoc, <- IH. unfold turn_8, poll_busy_8.
    rewrite <- !app_assoc. reflexivity.
Qed.

Lemma at_poll_8_turns nd t j :
  at_poll_8 nd t j
  = (t ++ poll_open nd ++ strobe_up nd) ++ List.concat (repeat (turn_8 nd) j).
Proof.
  unfold at_poll_8. rewrite <- turns_polls_8, <- !app_assoc. reflexivity.
Qed.

Lemma runs_turn_8 nd :
  runs nd (bind (readCycleEnd (pinE nd)) (fun _ => readCycleStart (pinE nd)))
       (strobe_down nd ++ strobe_up nd) 600.
Proof.
  apply (runs_bind nd _ _ _ 300 _ 300);
    [apply runs_readCycleEnd | apply runs_readCycleStart].
Qed.

Lemma runs_turn_4 nd :
  runs nd (bind (readCycleEnd (pinE nd)) (fun _ =>
           bind (readCycleStart (pinE nd)) (fun _ =>
           bind (readCycleEnd (pinE nd)) (fun _ =>
           readCycleStart (pinE nd)))))
       (strobe_down nd ++ strobe_up nd ++ strobe_down nd ++ strobe_up nd) 1200.
Proof.
  apply (runs_bind nd _ _ _ 300 _ 900); [apply runs_readCycleEnd|].
  apply (runs_bind nd _ _ _ 300 _ 600); [apply runs_readCycleStart|].
  apply (runs_bind nd _ _ _ 300 _ 300);
    [apply runs_readCycleEnd | apply runs_readCycleStart].
Qed.

Lemma busy_loop_8 bus nd : forall k fuel s0,
  (k < fuel)%nat ->
  data_of s0 = Some nd ->
  (forall j, (j < k)%nat ->
     bus (trace s0 ++ List.concat (repeat (turn_8 nd) j)) (DB nd 7) = true) ->
  bus (trace s0 ++ List.concat (repeat (turn_8 nd) k)) (DB nd 7) = false ->
  while fuel
    (bind (digitalRead bus (DB nd 7)) (fun v => ret (negb (v =? LOW))))
    (bind (readCycleEnd (pinE nd)) (fun _ => readCycleStart (pinE nd))) s0
  = Returned tt
      (log s0 (List.concat (repeat (turn_8 nd) k) ++ [EvRead (DB nd 7) false])
           (Z.of_nat k * 600)).
Proof.
  induction k as [|k IH]; intros fuel s0 Hf Hd Hbusy Hready;
    (destruct fuel as [|fuel]; [lia|]); cbn [while].
  - cbn [repeat List.concat] in *. rewrite app_nil_r in Hready.
    unfold bind at 1. unfold bind at 1. rewrite digitalRead_run, Hready.
    reflexivity.
  - pose proof (Hbusy 0%nat ltac:(lia)) as H0.
    cbn [repeat List.concat] in H0. rewrite app_nil_r in H0.
    unfold bind at 1. unfold bind at 1. rewrite digitalRead_run, H0.
    cbn [Z.b2z]. unfold ret at 1.
    change (negb (1 =? LOW)) with true. cbv iota.
    unfold bind at 1.
    rewrite (runs_turn_8 nd (log s0 [EvRead (DB nd 7) true] 0)) by exact Hd.
    rewrite log_log.
    rewrite (IH fuel).
    + rewrite log_log. unfold turn_8. rewrite <- !app_assoc.
      f_equal. f_equal. lia.
    + lia.
    + exact Hd.
    + intros j Hj. rewrite trace_log, <- app_assoc.
      apply (Hbusy (S j)). lia.
    + rewrite trace_log, <- app_assoc. exact Hready.
Qed.

(** X14.  In the read-capable 8-bit busy-wait, if the busy line reads high
    at the first [k] polls and low at the next, then with fuel for more than
    [k] turns of the loop the routine returns, and what it did after the
    optional sleep is exactly: the opening (busy line to input, control
    lines set for a status read); [k] polls of one strobe cycle each, the
    busy line sampled while the enable line is high; and a last poll in
    which the line reads low and goes back to output before the enable line
    is lowered.  The enable line is raised k + 1 times and the node is left
    as it was. *)
Theorem waitWhileBusy_8_polls :
  forall bus fuel s nd k,
    data_of s = Some nd ->
    readEnabled nd = true ->
    (forall j, (j < k)%nat ->
       bus (at_poll_8 nd (trace (final (sleepIfFar s))) j) (DB nd 7) = true) ->
    bus (at_poll_8 nd (trace (final (sleepIfFar s))) k) (DB nd 7) = false ->
    (k < fuel)%nat ->
    exists s',
      waitWhileBusy_8 bus fuel s = Returned tt s'
      /\ trace s' = trace (final (sleepIfFar s)) ++ poll_open nd
                    ++ List.concat (repeat (poll_busy_8 nd) k) ++ poll_ready_8 nd
      /\ strobes nd (List.concat (repeat (poll_busy_8 nd) k) ++ poll_ready_8 nd)
         = (k + 1)%nat
      /\ node s' = node s.
Proof.
  intros bus fuel s nd k Hd Hre Hbusy Hready Hfuel.
  destruct (sleepIfFar_Returned s nd Hd) as (s1 & Hs1 & Hn1).
  rewrite Hs1 in Hbusy, Hready. cbn [final] in Hbusy, Hready.
  assert (Hd1 : data_of s1 = Some nd) by (unfold data_of in *; rewrite Hn1; exact Hd).
  unfold waitWhileBusy_8. unfold bind at 1. rewrite (nodeData_of _ _ Hd), Hre.
  unfold bind at 1. rewrite Hs1.
  erewrite runs_prefix; [|apply runs_pinMode|exact Hd1]. cbv beta.
  erewrite runs_prefix; [|apply runs_setStatusPins|exact Hd1]. cbv beta.
  erewrite runs_prefix; [|apply runs_readCycleStart|exact Hd1]. cbv beta.
  rewrite !log_log.
  set (s0 := log s1 _ _).
  assert (Ht0 : trace s0 = trace s1 ++ poll_open nd ++ strobe_up nd).
  { unfold s0. rewrite trace_log. unfold poll_open, strobe_up.
    rewrite <- !app_assoc. reflexivity. }
  unfold bind at 1.
  rewrite (busy_loop_8 bus nd k fuel s0 Hfuel Hd1).
  - erewrite runs_prefix; [|apply runs_pinMode|exact Hd1]. cbv beta.
    rewrite (runs_readCycleEnd nd (pinE nd)) by exact Hd1.
    eexists. split; [reflexivity|]. split; [|split].
    + rewrite !log_log, trace_log. unfold s0 at 1. rewrite trace_log.
      rewrite <- !app_assoc. f_equal.
      unfold poll_open. rewrite <- !app_assoc. f_equal. f_equal.
      change [EvWrite (pinE nd) true; EvDelayNs 300] with (strobe_up nd) at 1.
      rewrite app_assoc, turns_polls_8, <- app_assoc. reflexivity.
    + rewrite strobes_app.
      replace (strobes nd (poll_ready_8 nd)) with 1%nat
        by (unfold strobes, poll_ready_8; cbn; rewrite Z.eqb_refl; reflexivity).
      clear. induction k as [|k IH]; cbn [repeat List.concat]; [reflexivity|].
      rewrite strobes_app.
      replace (strobes nd (poll_busy_8 nd)) with 1%nat
        by (unfold strobes, poll_busy_8; cbn; rewrite Z.eqb_refl; reflexivity).
      lia.
    + rewrite !node_log. unfold s0. rewrite node_log. exact Hn1.
  - intros j Hj. rewrite Ht0, app_assoc.
    replace ((trace s1 ++ poll_open nd) ++ strobe_up nd)
      with (trace s1 ++ poll_open nd ++ strobe_up nd) by (rewrite app_assoc; reflexivity).
    rewrite <- at_poll_8_turns. apply Hbusy, Hj.
  - rewrite Ht0, app_assoc.
    replace ((trace s1 ++ poll_open nd) ++ strobe_up nd)
      with (trace s1 ++ poll_open nd ++ strobe_up nd) by (rewrite app_assoc; reflexivity).
    rewrite <- at_poll_8_turns. exact Hready.
Qed.

Lemma waitWhileBusy_8_polls_witness :
  exists s',
    waitWhileBusy_8 (busy_times 2 7) 3 after_setup_8 = Returned tt s'
    /\ trace s' = trace (final (sleepIfFar after_setup_8)) ++ poll_open data_8
                  ++ List.concat (repeat (poll_busy_8 data_8) 2) ++ poll_ready_8 data_8
    /\ strobes data_8 (List.concat (repeat (poll_busy_8 data_8) 2) ++ poll_ready_8 data_8)
       = (2 + 1)%nat
    /\ node s' = node after_setup_8.
Proof.
  apply (waitWhileBusy_8_polls (busy_times 2 7) 3 after_setup_8 data_8 2).
  - vm_compute. reflexivity.
  - reflexivity.
  - intros j Hj. destruct j as [|[|j]]; [vm_compute; reflexivity .. | lia].
  - vm_compute. reflexivity.
  - lia.
Defined.

(** * A busy line that stays high *)

Lemma while_stuck bus nd (body : M unit) d dt :
  runs nd body d dt ->
  (forall t, bus t (DB nd 7) = true) ->
  forall fuel s0,
    data_of s0 = Some nd ->
    exists s',
      while fuel (bind (digitalRead bus (DB nd 7)) (fun v => ret (negb (v =? LOW)))) body s0
      = Aborted OutOfFuel s'.
Proof.
  intros Hbody Hbus. induction fuel as [|fuel IH]; intros s0 Hd; cbn [while].
  - eexists. reflexivity.
  - unfold bind at 1. unfold bind at 1. rewrite digitalRead_run, Hbus.
    cbn [Z.b2z]. unfold ret at 1.
    change (negb (1 =? LOW)) with true. cbv iota.
    unfold bind at 1. rewrite (Hbody (log s0 [EvRead (DB nd 7) true] 0) Hd).
    apply IH. exact Hd.
Qed.

Lemma waitWhileBusy_8_stuck bus fuel s nd :
  data_of s = Some nd -> readEnabled nd = true ->
  (forall t, bus t (DB nd 7) = true) ->
  exists s', waitWhileBusy_8 bus fuel s = Aborted OutOfFuel s'.
Proof.
  intros Hd Hre Hbus.
  destruct (sleepIfFar_Returned s nd Hd) as (s1 & Hs1 & Hn1).
  assert (Hd1 : data_of s1 = Some nd) by (unfold data_of in *; rewrite Hn1; exact Hd).
  unfold waitWhileBusy_8. unfold bind at 1. rewrite (nodeData_of _ _ Hd), Hre.
  unfold bind at 1. rewrite Hs1.
  erewrite runs_prefix; [|apply runs_pinMode|exact Hd1]. cbv beta.
  erewrite runs_prefix; [|apply runs_setStatusPins|exact Hd1]. cbv beta.
  erewrite runs_prefix; [|apply runs_readCycleStart|exact Hd1]. cbv beta.
  unfold bind at 1.
  edestruct (while_stuck bus nd _ _ _ (runs_turn_8 nd) Hbus fuel) as (s' & Hs');
    [|rewrite Hs'; eexists; reflexivity].
  exact Hd1.
Qed.

Lemma waitWhileBusy_4_stuck bus fuel s nd :
  data_of s = Some nd -> readEnabled nd = true ->
  (forall t, bus t (DB nd 7) = true) ->
  exists s', waitWhileBusy_4 bus fuel s = Aborted OutOfFuel s'.
Proof.
  intros Hd Hre Hbus.
  destruct (sleepIfFar_Returned s nd Hd) as (s1 & Hs1 & Hn1).
  assert (Hd1 : data_of s1 = Some nd) by (unfold data_of in *; rewrite Hn1; exact Hd).
  unfold waitWhileBusy_4. unfold bind at 1. rewrite (nodeData_of _ _ Hd), Hre.
  unfold bind at 1. rewrite Hs1.
  erewrite runs_prefix; [|apply runs_pinMode|exact Hd1]. cbv beta.
  erewrite runs_prefix; [|apply runs_setStatusPins|exact Hd1]. cbv beta.
  erewrite runs_prefix; [|apply runs_readCycleStart|exact Hd1]. cbv beta.
  unfold bind at 1.
  edestruct (while_stuck bus nd _ _ _ (runs_turn_4 nd) Hbus fuel) as (s' & Hs');
    [|rewrite Hs'; eexists; reflexivity].
  exact Hd1.
Qed.

Lemma hd44780DigitalWrite_4_stuck bus fuel pin d s n nd :
  node s = Some n -> dataStruct n = Some nd -> readEnabled nd = true ->
  (forall t, bus t (DB nd 7) = true) ->
  exists s', hd44780DigitalWrite_4 bus fuel pin d s = Aborted OutOfFuel s'.
Proof.
  intros Hn Hd Hre Hbus. pose proof (data_of_node _ _ _ Hn Hd) as Hds.
  destruct (waitWhileBusy_4_stuck bus fuel s nd Hds Hre Hbus) as (s' & Hs').
  exists s'. unfold hd44780DigitalWrite_4. unfold bind at 1, nodeStruct. rewrite Hn.
  unfold bind at 1. rewrite (nodeData_of _ _ Hds). cbv zeta.
  unfold bind at 1. rewrite Hs'. reflexivity.
Qed.

(** X15.  The read-capable busy-waits have no time-out.  On a node with
    read-back, if the busy line reads high whenever it is read (as it does
    under the pull-up of [setupPin] when no display drives it), neither
    busy-wait returns, however much fuel is given, and so neither write
    handler returns: every run ends out of fuel, inside the polling loop. *)
Theorem busy_line_stuck_never_returns :
  forall bus fuel pin d s n nd,
    node s = Some n -> dataStruct n = Some nd -> readEnabled nd = true ->
    (forall t, bus t (DB nd 7) = true) ->
    (exists s', waitWhileBusy_8 bus fuel s = Aborted OutOfFuel s')
    /\ (exists s', waitWhileBusy_4 bus fuel s = Aborted OutOfFuel s')
    /\ (exists s', hd44780DigitalWrite_4 bus fuel pin d s = Aborted OutOfFuel s')
    /\ (exists s', hd44780DigitalWrite_8 bus fuel pin d s = Aborted OutOfFuel s').
Proof.
  intros bus fuel pin d s n nd Hn Hd Hre Hbus.
  pose proof (data_of_node _ _ _ Hn Hd) as Hds.
  split; [exact (waitWhileBusy_8_stuck bus fuel s nd Hds Hre Hbus)|].
  split; [exact (waitWhileBusy_4_stuck bus fuel s nd Hds Hre Hbus)|].
  split; [exact (hd44780DigitalWrite_4_stuck bus fuel pin d s n nd Hn Hd Hre Hbus)|].
  unfold hd44780DigitalWrite_8. unfold bind at 1, nodeStruct. rewrite Hn.
  unfold bind at 1. rewrite (nodeData_of _ _ Hds). cbv zeta.
  destruct (mode8 nd) eqn:Hm; cbn [negb]; cbv iota;
    unfold bind at 1; rewrite (when_store_mode8 _ _ _ _ _ Hn Hd);
    match goal with |- context [set_mode8 s ?b] =>
      rewrite (set_mode8_node s n nd b Hn Hd);
      set (n' := mkNode _ _ (Some (with_mode8 nd b)) _ _);
      set (s1 := set_node s (Some n'));
      assert (Hn1 : node s1 = Some n') by reflexivity;
      assert (Hd1 : dataStruct n' = Some (with_mode8 nd b)) by reflexivity;
      assert (Hre1 : readEnabled (with_mode8 nd b) = true) by exact Hre;
      assert (Hbus1 : forall t, bus t (DB (with_mode8 nd b) 7) = true) by exact Hbus
    end.
  - pose proof (data_of_node _ _ _ Hn1 Hd1) as Hds1.
    destruct (waitWhileBusy_8_stuck bus fuel s1 _ Hds1 Hre1 Hbus1) as (s' & Hs').
    exists s'. unfold bind at 1. rewrite Hs'. reflexivity.
  - exact (hd44780DigitalWrite_4_stuck bus fuel pin (d mod 256) s1 n' _ Hn1 Hd1 Hre1 Hbus1).
Qed.

Lemma busy_line_stuck_never_returns_witness :
  exists s', hd44780DigitalWrite_8 pulled_up 1000 64 65 after_setup_8 = Aborted OutOfFuel s'.
Proof.
  apply (busy_line_stuck_never_returns pulled_up 1000 64 65 after_setup_8 node_8 data_8).
  - vm_compute. reflexivity.
  - reflexivity.
  - reflexivity.
  - intros t. reflexivity.
Defined.

(** * A successful set-up *)

Lemma runs_setupPin nd pin : runs nd (setupPin pin) (idle_events pin) 0.
Proof.
  unfold setupPin, idle_events.
  apply (runs_bind nd _ _ [_] 0 [_; _] 0); [apply runs_emit|].
  apply (runs_bind nd _ _ [_] 0 [_] 0); [apply runs_pinMode | apply runs_digitalWrite].
Qed.

Lemma runs_delayMicroseconds nd us :
  runs nd (delayMicroseconds us) [EvDelayUs us] (us * 1000).
Proof. intros s _. reflexivity. Qed.

Lemma store_node_run f s n :
  node s = Some n -> store_node f s = Returned tt (set_node s (Some (f n))).
Proof. intros H. unfold store_node, bind, nodeStruct. rewrite H. reflexivity. Qed.

Ltac setup_step nd0 Hd0 :=
  erewrite runs_prefix;
  [ cbv beta
  | first [ apply (runs_setupPin nd0) | apply (runs_writeCycleStart nd0)
          | apply (runs_writeCycleEnd nd0) | apply (runs_digitalWrite nd0)
          | apply (runs_delayMicroseconds nd0) | apply (runs_ret nd0) ]
  | rewrite ?data_of_log; exact Hd0 ].

Lemma hd44780Setup_install_run base re m8 RS RW E D7 D6 D5 D4 D3 D2 D1 D0 s :
  nodeAvailable s = true -> memAvailable s = true ->
  hd44780Setup_install base re m8 RS RW E D7 D6 D5 D4 D3 D2 D1 D0 s
  = Returned EXIT_SUCCESS
      (set_node (log s (setup_events re m8 RS RW E D7 D6 D5 D4 D3 D2 D1 D0)
                       (if m8 then 0 else 37600))
                (Some (installed_node base re m8 RS RW E D7 D6 D5 D4 D3 D2 D1 D0))).
Proof.
  intros Hna Hma. destruct s as [tr ck sg er na ma nod rs]. cbn in Hna, Hma. subst na ma.
  unfold hd44780Setup_install.
  unfold bind at 1. unfold wiringPiNewNode at 1. cbn [nodeAvailable].
  unfold bind at 1. cbn [negb when]. unfold ret at 1.
  unfold bind at 1. unfold malloc at 1. cbn [memAvailable set_node]. cbv iota.
  unfold bind at 1. erewrite store_node_run by reflexivity.
  cbn [set_node trace clock signals stderr nodeAvailable memAvailable node pinBase pinMax
       digitalWrite_h digitalRead_h].
  replace (base + 2 - 1) with (base + 1) by lia.
  match goal with |- context [Some (mkData ?a ?b ?c ?d ?e ?f ?g ?h)] =>
    set (nd0 := mkData a b c d e f g h) end.
  match goal with |- _ ?s0 = _ => set (st := s0) end.
  assert (Hd0 : data_of st = Some nd0) by reflexivity.
  setup_step nd0 Hd0.
  destruct re; cbn [when]; setup_step nd0 Hd0;
    do 5 setup_step nd0 Hd0;
    (destruct m8;
     [ do 4 setup_step nd0 Hd0
     | do 5 setup_step nd0 Hd0 ]);
    rewrite !log_log;
    unfold bind at 1; (erewrite store_node_run by reflexivity);
    cbn [when]; try (unfold bind at 1; erewrite store_node_run by reflexivity);
    try (unfold bind at 1; unfold ret at 1);
    unfold ret; f_equal;
    subst st nd0; unfold log, set_node, set_clock, set_trace, installed_node, setup_events;
    cbn; repeat f_equal; lia.
Qed.

(** X16.  With every referenced pin valid and both allocations succeeding,
    [hd44780Setup] returns EXIT_SUCCESS, which is 0, and has done exactly
    this: each referenced pin, in the order of the checks, got its pull-up,
    was made an output and driven low; on a 4-bit bus one enable pulse with
    DB5 alone high followed, then a wait of 37 us; the node of two pins at
    [base] holds the configuration with the active width the one asked for,
    the write handler of that width, and the read handler of that width only
    if read-back was asked for.  Nothing is printed. *)
Theorem hd44780Setup_success :
  forall find base re m8 RS RW E D7 D6 D5 D4 D3 D2 D1 D0 s,
    existsb (fun x => invalid_pin find (snd x))
            (referenced_pins re m8 RS RW E D7 D6 D5 D4 D3 D2 D1 D0) = false ->
    nodeAvailable s = true -> memAvailable s = true ->
    hd44780Setup find base re m8 RS RW E D7 D6 D5 D4 D3 D2 D1 D0 s
    = Returned EXIT_SUCCESS
        (set_node (log s (setup_events re m8 RS RW E D7 D6 D5 D4 D3 D2 D1 D0)
                         (if m8 then 0 else 37600))
                  (Some (installed_node base re m8 RS RW E D7 D6 D5 D4 D3 D2 D1 D0)))
    /\ EXIT_SUCCESS = 0
    /\ stderr (final (hd44780Setup find base re m8 RS RW E D7 D6 D5 D4 D3 D2 D1 D0 s))
       = stderr s.
Proof.
  intros find base re m8 RS RW E D7 D6 D5 D4 D3 D2 D1 D0 s Hv Hna Hma.
  rewrite (hd44780Setup_valid _ _ _ _ _ _ _ _ _ _ _ _ _ _ _ _ Hv).
  rewrite (hd44780Setup_install_run _ _ _ _ _ _ _ _ _ _ _ _ _ _ _ Hna Hma).
  split; [reflexivity|]. split; reflexivity.
Qed.

Lemma hd44780Setup_success_witness :
  hd44780Setup noreg 64 true false 1 2 3 7 6 5 4 11 10 9 8 power_on
  = Returned 0
      (mkState
         (List.concat (map idle_events [1; 2; 3; 7; 6; 5; 4]) ++ prime_4 3 5)
         37600 [] [] true true
         (Some (mkNode 64 65
                  (Some (mkData true false false 1 2 3 [8; 9; 10; 11; 4; 5; 6; 7]
                                (mkTimespec 0 0)))
                  Handler_DigitalWrite_4 Handler_DigitalRead_4))
         false).
Proof.
  apply (hd44780Setup_success noreg 64 true false 1 2 3 7 6 5 4 11 10 9 8 power_on);
    vm_compute; reflexivity.
Defined.

(** X17.  [hd44780Setup] returns EXIT_SUCCESS exactly when every referenced
    pin is valid and both allocations succeed.  Whenever it returns anything
    else, that is EXIT_FAILURE and no pin was touched. *)
Theorem hd44780Setup_success_iff :
  forall find base re m8 RS RW E D7 D6 D5 D4 D3 D2 D1 D0 s,
    ((exists s', hd44780Setup find base re m8 RS RW E D7 D6 D5 D4 D3 D2 D1 D0 s
                 = Returned EXIT_SUCCESS s')
     <-> (existsb (fun x => invalid_pin find (snd x))
                  (referenced_pins re m8 RS RW E D7 D6 D5 D4 D3 D2 D1 D0) = false
          /\ nodeAvailable s = true /\ memAvailable s = true))
    /\ (forall v s',
          hd44780Setup find base re m8 RS RW E D7 D6 D5 D4 D3 D2 D1 D0 s = Returned v s' ->
          v <> EXIT_SUCCESS ->
          v = EXIT_FAILURE /\ trace s' = trace s /\ clock s' = clock s).
Proof.
  intros find base re m8 RS RW E D7 D6 D5 D4 D3 D2 D1 D0 s.
  destruct (existsb (fun x => invalid_pin find (snd x))
              (referenced_pins re m8 RS RW E D7 D6 D5 D4 D3 D2 D1 D0)) eqn:Ev.
  - rewrite hd44780Setup_checks, Ev. split.
    + split; [intros (s' & H); discriminate | intros (H & _); discriminate].
    + intros v s' H _. unfold bind, fputs, ret in H. inversion H. subst.
      split; [reflexivity|]. split; reflexivity.
  - rewrite (hd44780Setup_valid _ _ _ _ _ _ _ _ _ _ _ _ _ _ _ _ Ev).
    destruct (nodeAvailable s) eqn:Hna.
    + destruct (memAvailable s) eqn:Hma.
      * rewrite (hd44780Setup_install_run _ _ _ _ _ _ _ _ _ _ _ _ _ _ _ Hna Hma). split.
        -- split; [intros _; repeat split | intros _; eexists; reflexivity].
        -- intros v s' H Hv. inversion H. subst. contradiction Hv. reflexivity.
      * rewrite (hd44780Setup_install_no_memory _ _ _ _ _ _ _ _ _ _ _ _ _ _ _ Hna Hma).
        split.
        -- split; [intros (s' & H); discriminate | intros (_ & _ & H); discriminate].
        -- intros v s' H _. inversion H. subst. split; [reflexivity|]. split; reflexivity.
    + rewrite (hd44780Setup_install_no_node _ _ _ _ _ _ _ _ _ _ _ _ _ _ _ Hna). split.
      * split; [intros (s' & H); discriminate | intros (_ & H & _); discriminate].
      * intros v s' H. discriminate.
Qed.

(** * What a session keeps *)

Section Static.

Variable bus : list Event -> Z -> bool.
Variable J : option wiringPiNodeStruct -> Prop.
Hypothesis J_data :
  forall n nd f, J (Some n) -> dataStruct n = Some nd ->
    J (Some (mkNode (pinBase n) (pinMax n) (Some (f nd))
                    (digitalWrite_h n) (digitalRead_h n))).

Local Abbreviation P := (fun _ : Event => True).

Ltac static_rule :=
  lazymatch goal with
  | |- triple _ _ (bind nodeStruct _) => apply triple_nodeStruct; intros
  | |- triple _ _ (store_nodeData _) =>
      apply triple_store_nodeData;
      let n := fresh "n" in let nd := fresh "nd" in
      let Hn := fresh "Hn" in let Hd := fresh "Hd" in
      intros n nd Hn Hd;
      lazymatch goal with
      | |- J (Some (mkNode _ _ (Some ?x) _ _)) => exact (J_data n nd (fun _ => x) Hn Hd)
      end
  | |- _ => triple_rule
  end.

Lemma triple_write_4_static fuel pin data :
  triple J P (hd44780DigitalWrite_4 bus fuel pin data).
Proof.
  unfold hd44780DigitalWrite_4, waitWhileBusy_4, waitWhileBusy_ReadDisabled, sleepIfFar,
    setStatusPins, writeCycleStart, writeCycleEnd, readCycleStart, readCycleEnd,
    setOperationEnd.
  repeat static_rule; exact Logic.I.
Qed.

Lemma triple_write_8_static fuel pin data :
  triple J P (hd44780DigitalWrite_8 bus fuel pin data).
Proof.
  unfold hd44780DigitalWrite_8. apply triple_nodeStruct. intros n _.
  apply triple_nodeData. intros n' nd _ _.
  apply triple_if.
  - apply triple_bind; [|intros; apply triple_write_4_static].
    repeat static_rule.
  - unfold waitWhileBusy_8, waitWhileBusy_ReadDisabled, sleepIfFar,
      setStatusPins, writeCycleStart, writeCycleEnd, readCycleStart, readCycleEnd,
      setOperationEnd.
    repeat static_rule; exact Logic.I.
Qed.

Lemma triple_nodeDigitalWrite_static fuel pin value :
  triple J P (nodeDigitalWrite bus fuel pin value).
Proof.
  unfold nodeDigitalWrite. apply triple_nodeStruct. intros n _.
  destruct (digitalWrite_h n).
  - apply triple_ret.
  - apply triple_write_8_static.
  - apply triple_write_4_static.
Qed.

Lemma triple_nodeDigitalRead_static fuel pin :
  triple J P (nodeDigitalRead bus fuel pin).
Proof.
  assert (H1 : forall e : Event, match e with EvSleep _ _ => True | _ => P e end)
    by (intros []; exact Logic.I).
  unfold nodeDigitalRead. apply triple_nodeStruct. intros n _.
  destruct (digitalRead_h n).
  - apply triple_ret.
  - apply (triple_read_8_any bus J P H1). intros; exact Logic.I.
  - apply (triple_read_4_any bus J P H1). intros; exact Logic.I.
Qed.

End Static.

Lemma triple_calls bus I P fuel :
  (forall pin value, triple I P (nodeDigitalWrite bus fuel pin value)) ->
  (forall pin, triple I P (nodeDigitalRead bus fuel pin)) ->
  forall l, triple I P (calls bus fuel l).
Proof.
  intros Hw Hr. induction l as [|[pin value|pin] l IH]; cbn [calls].
  - apply triple_ret.
  - apply triple_bind; [apply Hw | intros _; exact IH].
  - apply triple_bind; [apply Hr | intros _; exact IH].
Qed.

Lemma same_static_data n0 n nd (f : hd44780DataStruct -> hd44780DataStruct) :
  same_static n0 (Some n) -> dataStruct n = Some nd ->
  same_static n0 (Some (mkNode (pinBase n) (pinMax n) (Some (f nd))
                               (digitalWrite_h n) (digitalRead_h n))).
Proof.
  intros (H1 & H2 & H3 & H4 & _) _. cbn. repeat split; try assumption. discriminate.
Qed.

Lemma pins_used_referenced re m8 RS RW E D7 D6 D5 D4 D3 D2 D1 D0 :
  incl (pins_used (mkData re m8 false RS RW E [D0; D1; D2; D3; D4; D5; D6; D7]
                          (mkTimespec 0 0)))
       (map snd (referenced_pins re m8 RS RW E D7 D6 D5 D4 D3 D2 D1 D0)).
Proof.
  intros p. destruct re, m8; cbn; intuition.
Qed.

(** X18.  After a successful [hd44780Setup], whatever calls are then made
    through the pseudo-pins of the node, in whatever number, and whether
    they complete or not: the node is still there with its data structure,
    its two pins and the handlers installed; its configuration (capabilities
    and pin ids) is the one given to [hd44780Setup]; it is in EightBit only
    if 8-bit capable; and no pin outside those [hd44780Setup] checked was
    written, pulled or reconfigured since before the set-up. *)
Theorem session_keeps_node_and_pins :
  forall find bus fuel base re m8 RS RW E D7 D6 D5 D4 D3 D2 D1 D0 s s1 l,
    hd44780Setup find base re m8 RS RW E D7 D6 D5 D4 D3 D2 D1 D0 s
    = Returned EXIT_SUCCESS s1 ->
    exists n nd,
      node (final (calls bus fuel l s1)) = Some n /\ dataStruct n = Some nd
      /\ pinBase n = base /\ pinMax n = base + 1
      /\ digitalWrite_h n = (if m8 then Handler_DigitalWrite_8 else Handler_DigitalWrite_4)
      /\ digitalRead_h n = (if re
                            then if m8 then Handler_DigitalRead_8 else Handler_DigitalRead_4
                            else digitalReadDummy)
      /\ config nd = mkData re m8 false RS RW E [D0; D1; D2; D3; D4; D5; D6; D7]
                            (mkTimespec 0 0)
      /\ (mode8 nd = true -> m8 = true)
      /\ forall p,
           ~ In p (map snd (referenced_pins re m8 RS RW E D7 D6 D5 D4 D3 D2 D1 D0)) ->
           untouched p s (final (calls bus fuel l s1)).
Proof.
  intros find bus fuel base re m8 RS RW E D7 D6 D5 D4 D3 D2 D1 D0 s s1 l H.
  set (cfg := mkData re m8 false RS RW E [D0; D1; D2; D3; D4; D5; D6; D7] (mkTimespec 0 0)).
  set (refs := map snd (referenced_pins re m8 RS RW E D7 D6 D5 D4 D3 D2 D1 D0)).
  set (n1 := installed_node base re m8 RS RW E D7 D6 D5 D4 D3 D2 D1 D0).
  pose proof (hd44780Setup_node_ok _ _ _ _ _ _ _ _ _ _ _ _ _ _ _ _ _ H) as Hok.
  fold cfg in Hok.
  assert (Hn1 : node s1 = Some n1).
  { apply hd44780Setup_Returned in H. unfold n1, installed_node.
    replace (base + 1) with (base + 2 - 1) by lia.
    destruct m8;
      [apply hd44780Setup_install_8_node in H | apply hd44780Setup_install_4_node in H];
      exact H. }
  destruct (triple_hd44780Setup find base re m8 RS RW E D7 D6 D5 D4 D3 D2 D1 D0 s Logic.I)
    as (_ & d1 & Ht1 & Hd1).
  rewrite H in Ht1. cbn [final] in Ht1. fold refs in Hd1.
  assert (Hfoot : triple (node_ok cfg) (within refs) (calls bus fuel l)).
  { apply triple_calls; intros.
    - apply triple_nodeDigitalWrite; apply pins_used_referenced.
    - apply triple_nodeDigitalRead; apply pins_used_referenced. }
  assert (Hstat : triple (same_static n1) (fun _ => True) (calls bus fuel l)).
  { apply triple_calls; intros.
    - apply triple_nodeDigitalWrite_static; apply same_static_data.
    - apply triple_nodeDigitalRead_static; apply same_static_data. }
  destruct (Hfoot s1 Hok) as (Hok2 & d2 & Ht2 & Hd2).
  assert (Hs1 : same_static n1 (node s1)).
  { rewrite Hn1. cbn. repeat split. discriminate. }
  destruct (Hstat s1 Hs1) as (Hs2 & _).
  set (s2 := final (calls bus fuel l s1)) in *.
  destruct (node s2) as [n|] eqn:En; [|contradiction].
  destruct Hs2 as (Hb & Hm & Hw & Hr & Hds).
  destruct (dataStruct n) as [nd|] eqn:End; [|contradiction Hds; reflexivity].
  exists n, nd. cbn in Hok2. rewrite End in Hok2.
  destruct Hok2 as ((Hcfg & Hm8) & _).
  split; [reflexivity|]. split; [exact End|].
  split; [exact Hb|]. split; [exact Hm|]. split; [exact Hw|]. split; [exact Hr|].
  split; [exact Hcfg|]. split; [exact Hm8|].
  intros p Hp. exists (d1 ++ d2). split.
  - rewrite Ht2, Ht1, app_assoc. reflexivity.
  - apply Forall_app. split.
    + apply Forall_forall. intros e He. rewrite Forall_forall in Hd1.
      destruct (touches p e) eqn:T; [|reflexivity].
      exfalso. apply Hp. apply (Hd1 e He). exact T.
    + apply Forall_forall. intros e He. rewrite Forall_forall in Hd2.
      destruct (touches p e) eqn:T; [|reflexivity].
      exfalso. apply Hp. apply (Hd2 e He). exact T.
Qed.

Lemma session_keeps_node_and_pins_witness :
  exists n nd,
    node (final (calls (busy_times 1 7) 5
                   [CallWrite 65 0x38; CallWrite 64 0x41; CallRead 65; CallWrite 65 0x28]
                   after_setup_8)) = Some n
    /\ dataStruct n = Some nd
    /\ pinBase n = 64 /\ pinMax n = 64 + 1
    /\ digitalWrite_h n = Handler_DigitalWrite_8
    /\ digitalRead_h n = Handler_DigitalRead_8
    /\ config nd = mkData true true false 1 2 3 [8; 9; 10; 11; 4; 5; 6; 7] (mkTimespec 0 0)
    /\ (mode8 nd = true -> true = true)
    /\ forall p,
         ~ In p (map snd (referenced_pins true true 1 2 3 7 6 5 4 11 10 9 8)) ->
         untouched p power_on
           (final (calls (busy_times 1 7) 5
                     [CallWrite 65 0x38; CallWrite 64 0x41; CallRead 65; CallWrite 65 0x28]
                     after_setup_8)).
Proof.
  apply (session_keeps_node_and_pins noreg (busy_times 1 7) 5 64 true true
           1 2 3 7 6 5 4 11 10 9 8 power_on after_setup_8).
  vm_compute. reflexivity.
Defined.

(** * The faults of a session *)

Section Safe.

Variable bus : list Event -> Z -> bool.
Variable K : option wiringPiNodeStruct -> Prop.
Hypothesis K_live :
  forall o, K o -> exists n nd, o = Some n /\ dataStruct n = Some nd.
Hypothesis K_data :
  forall n nd nd', K (Some n) -> dataStruct n = Some nd ->
    readEnabled nd' = readEnabled nd ->
    K (Some (mkNode (pinBase n) (pinMax n) (Some nd')
                    (digitalWrite_h n) (digitalRead_h n))).

Lemma safe_ret {A} (a : A) : safe K (ret a).
Proof. intros s HK. split; [exact HK | intros f s' H; discriminate]. Qed.

Lemma safe_bind {A B} (m : M A) (k : A -> M B) :
  safe K m -> (forall a, safe K (k a)) -> safe K (bind m k).
Proof.
  intros Hm Hk s HK. destruct (Hm s HK) as [HK1 Hf1].
  unfold bind. destruct (m s) as [a s1 | f s1]; cbn in *.
  - apply Hk. exact HK1.
  - split; [exact HK1|]. intros f' s' H. inversion H. subst.
    apply (Hf1 _ _ eq_refl).
Qed.

Lemma safe_keeps {A} (m : M A) :
  (forall s, exists a s', m s = Returned a s' /\ node s' = node s) -> safe K m.
Proof.
  intros H s HK. destruct (H s) as (a & s' & E & En). rewrite E. cbn. rewrite En.
  split; [exact HK | discriminate].
Qed.

Lemma safe_emit e : safe K (emit e).
Proof. apply safe_keeps. intros s. eexists _, _. split; reflexivity. Qed.

Lemma safe_digitalRead pin : safe K (digitalRead bus pin).
Proof. apply safe_keeps. intros s. eexists _, _. split; reflexivity. Qed.

Lemma safe_delayNanoseconds ns : safe K (delayNanoseconds ns).
Proof. apply safe_keeps. intros s. eexists _, _. split; reflexivity. Qed.

Lemma safe_clock_gettime : safe K clock_gettime.
Proof. apply safe_keeps. intros s. eexists _, _. split; reflexivity. Qed.

Lemma safe_clock_nanosleep clock_id request : safe K (clock_nanosleep clock_id request).
Proof.
  apply safe_keeps. intros s. unfold clock_nanosleep.
  destruct ((clock_id =? CLOCK_MONOTONIC_RAW) && negb (rawSleep s));
    [eexists _, _; split; reflexivity|].
  destruct (ts_ns request <=? clock s); [eexists _, _; split; reflexivity|].
  destruct (signals s) as [|t rest]; [eexists _, _; split; reflexivity|].
  destruct (t <? ts_ns request); eexists _, _; split; reflexivity.
Qed.

Lemma safe_when c m : safe K m -> safe K (when c m).
Proof. intros H. destruct c; [exact H | apply safe_ret]. Qed.

Lemma safe_if {A} (c : bool) (m1 m2 : M A) :
  safe K m1 -> safe K m2 -> safe K (if c then m1 else m2).
Proof. destruct c; auto. Qed.

Lemma safe_while fuel cond body :
  safe K cond -> safe K body -> safe K (while fuel cond body).
Proof.
  intros Hc Hb. induction fuel as [|fuel IH]; cbn [while].
  - intros s HK. split; [exact HK|]. intros f s' H. inversion H. reflexivity.
  - apply safe_bind; [exact Hc|]. intros [|]; [|apply safe_ret].
    apply safe_bind; [exact Hb | intros _; exact IH].
Qed.

Lemma safe_forM l body : (forall i, safe K (body i)) -> safe K (forM l body).
Proof.
  intros H. induction l as [|i l IH]; cbn [forM]; [apply safe_ret|].
  apply safe_bind; [apply H | intros _; exact IH].
Qed.

Lemma safe_foldM {A} l (body : Z -> A -> M A) :
  (forall i a, safe K (body i a)) -> forall a, safe K (foldM l body a).
Proof.
  intros H. induction l as [|i l IH]; intros a; cbn [foldM]; [apply safe_ret|].
  apply safe_bind; [apply H | intros a'; apply IH].
Qed.

Lemma safe_nodeStruct {B} (k : wiringPiNodeStruct -> M B) :
  (forall n, K (Some n) -> safe K (k n)) -> safe K (bind nodeStruct k).
Proof.
  intros Hk s HK. destruct (K_live _ HK) as (n & nd & En & _).
  assert (HKn : K (Some n)) by (rewrite <- En; exact HK).
  unfold bind, nodeStruct. rewrite En. exact (Hk n HKn s HK).
Qed.

Lemma safe_nodeData {B} (k : hd44780DataStruct -> M B) :
  (forall n nd, K (Some n) -> dataStruct n = Some nd -> safe K (k nd)) ->
  safe K (bind nodeData k).
Proof.
  intros Hk s HK. destruct (K_live _ HK) as (n & nd & En & Ed).
  assert (HKn : K (Some n)) by (rewrite <- En; exact HK).
  unfold bind, nodeData, bind, nodeStruct. rewrite En, Ed. cbn.
  exact (Hk n nd HKn Ed s HK).
Qed.

Lemma safe_store_nodeData f :
  (forall nd, readEnabled (f nd) = readEnabled nd) -> safe K (store_nodeData f).
Proof.
  intros Hf s HK. destruct (K_live _ HK) as (n & nd & En & Ed).
  assert (HKn : K (Some n)) by (rewrite <- En; exact HK).
  unfold store_nodeData, nodeData, store_node, bind, nodeStruct. rewrite En, Ed. cbn.
  rewrite En. cbn. split; [|discriminate].
  apply (K_data n nd); [exact HKn | exact Ed | apply Hf].
Qed.

Ltac safe_rule :=
  lazymatch goal with
  | |- safe _ (ret _) => apply safe_ret
  | |- safe _ clock_gettime => apply safe_clock_gettime
  | |- safe _ (digitalWrite _ _) => apply safe_emit
  | |- safe _ (pinMode _ _) => apply safe_emit
  | |- safe _ (digitalRead _ _) => apply safe_digitalRead
  | |- safe _ (delayNanoseconds _) => apply safe_delayNanoseconds
  | |- safe _ (clock_nanosleep _ _) => apply safe_clock_nanosleep
  | |- safe _ (store_nodeData _) => apply safe_store_nodeData; intros []; reflexivity
  | |- safe _ (when _ _) => apply safe_when
  | |- safe _ (if _ then _ else _) => apply safe_if
  | |- safe _ (while _ _ _) => apply safe_while
  | |- safe _ (forM _ _) => apply safe_forM; intros
  | |- safe _ (foldM _ _ _) => apply safe_foldM; intros
  | |- safe _ (bind nodeStruct _) => apply safe_nodeStruct; intros
  | |- safe _ (bind nodeData _) => apply safe_nodeData; intros
  | |- safe _ (bind _ _) => apply safe_bind; [|intros]
  end.

Lemma safe_waitWhileBusy_8 fuel : safe K (waitWhileBusy_8 bus fuel).
Proof.
  unfold waitWhileBusy_8, waitWhileBusy_ReadDisabled, sleepIfFar,
    setStatusPins, readCycleStart, readCycleEnd.
  repeat safe_rule.
Qed.

Lemma safe_waitWhileBusy_4 fuel : safe K (waitWhileBusy_4 bus fuel).
Proof.
  unfold waitWhileBusy_4, waitWhileBusy_ReadDisabled, sleepIfFar,
    setStatusPins, readCycleStart, readCycleEnd.
  repeat safe_rule.
Qed.

Lemma safe_hd44780DigitalWrite_4 fuel pin data :
  safe K (hd44780DigitalWrite_4 bus fuel pin data).
Proof.
  unfold hd44780DigitalWrite_4. apply safe_nodeStruct. intros n _.
  apply safe_nodeData. intros n' nd _ _.
  apply safe_bind; [apply safe_waitWhileBusy_4 | intros _].
  unfold setStatusPins, writeCycleStart, writeCycleEnd, setOperationEnd.
  repeat safe_rule.
Qed.

Lemma safe_hd44780DigitalWrite_8 fuel pin data :
  safe K (hd44780DigitalWrite_8 bus fuel pin data).
Proof.
  unfold hd44780DigitalWrite_8. apply safe_nodeStruct. intros n _.
  apply safe_nodeData. intros n' nd _ _.
  apply safe_if.
  - apply safe_bind; [|intros _; apply safe_hd44780DigitalWrite_4].
    repeat safe_rule.
  - apply safe_bind; [repeat safe_rule | intros _].
    apply safe_bind; [apply safe_waitWhileBusy_8 | intros _].
    unfold setStatusPins, writeCycleStart, writeCycleEnd, setOperationEnd.
    repeat safe_rule.
Qed.

Hypothesis K_read : forall n nd, K (Some n) -> dataStruct n = Some nd -> readEnabled nd = true.

Lemma safe_hd44780DigitalRead_4 fuel pin :
  safe K (hd44780DigitalRead_4 bus fuel pin).
Proof.
  unfold hd44780DigitalRead_4. apply safe_nodeStruct. intros n _.
  apply safe_nodeData. intros n' nd HK Hd.
  rewrite (K_read n' nd HK Hd).
  apply safe_bind; [repeat safe_rule | intros _].
  apply safe_bind.
  { apply safe_if; [|unfold setStatusPins; repeat safe_rule].
    apply safe_bind; [apply safe_ret | intros _].
    apply safe_bind; [apply safe_waitWhileBusy_4 | intros _].
    unfold setStatusPins; repeat safe_rule. }
  intros _. unfold readCycleStart, readCycleEnd.
  repeat safe_rule.
Qed.

Lemma safe_hd44780DigitalRead_8 fuel pin :
  safe K (hd44780DigitalRead_8 bus fuel pin).
Proof.
  unfold hd44780DigitalRead_8. apply safe_nodeStruct. intros n _.
  apply safe_nodeData. intros n' nd HK Hd.
  apply safe_if; [apply safe_hd44780DigitalRead_4|].
  rewrite (K_read n' nd HK Hd).
  apply safe_bind.
  { apply safe_if; [|unfold setStatusPins; repeat safe_rule].
    apply safe_bind; [apply safe_ret | intros _].
    apply safe_bind; [apply safe_waitWhileBusy_8 | intros _].
    unfold setStatusPins; repeat safe_rule. }
  intros _. unfold readCycleStart, readCycleEnd.
  repeat safe_rule.
Qed.

End Safe.

Lemma held_live h re o :
  held h re o -> exists n nd, o = Some n /\ dataStruct n = Some nd.
Proof.
  destruct o as [n|]; [|contradiction]. cbn. intros [_ H].
  destruct (dataStruct n) as [nd|] eqn:Ed; [|contradiction]. exists n, nd.
  split; [reflexivity | exact Ed].
Qed.

Lemma held_data h re n nd nd' :
  held h re (Some n) -> dataStruct n = Some nd ->
  readEnabled nd' = readEnabled nd ->
  held h re (Some (mkNode (pinBase n) (pinMax n) (Some nd')
                          (digitalWrite_h n) (digitalRead_h n))).
Proof.
  cbn. intros [Hh H] Ed E. rewrite Ed in H. split; [exact Hh|]. rewrite E. exact H.
Qed.

Lemma held_read h n nd :
  held h true (Some n) -> dataStruct n = Some nd -> readEnabled nd = true.
Proof. cbn. intros [_ H] Ed. rewrite Ed in H. exact H. Qed.

Lemma held_serviceable h re o :
  (h <> digitalReadDummy -> re = true) -> held h re o -> serviceable o.
Proof.
  intros Hre. destruct o as [n|]; [|contradiction]. cbn. intros [Hh H].
  destruct (dataStruct n) as [nd|]; [|contradiction].
  intros Hne. rewrite H. apply Hre. rewrite <- Hh. exact Hne.
Qed.

Lemma serviceable_held o :
  serviceable o ->
  exists h re, (h <> digitalReadDummy -> re = true) /\ held h re o.
Proof.
  destruct o as [n|]; [|contradiction]. cbn.
  destruct (dataStruct n) as [nd|] eqn:Ed; [|contradiction]. intros H.
  exists (digitalRead_h n), (readEnabled nd). split; [exact H|].
  split; reflexivity.
Qed.

Lemma safe_nodeDigitalWrite_held bus fuel pin value h re :
  safe (held h re) (nodeDigitalWrite bus fuel pin value).
Proof.
  unfold nodeDigitalWrite. apply (safe_nodeStruct _ (held_live h re)). intros n _.
  destruct (digitalWrite_h n).
  - apply safe_ret.
  - apply (safe_hd44780DigitalWrite_8 bus (held h re));
      first [apply held_live | apply held_data].
  - apply (safe_hd44780DigitalWrite_4 bus (held h re));
      first [apply held_live | apply held_data].
Qed.

Lemma safe_nodeDigitalRead_held bus fuel pin h re :
  (h <> digitalReadDummy -> re = true) ->
  safe (held h re) (nodeDigitalRead bus fuel pin).
Proof.
  intros Hre. unfold nodeDigitalRead.
  apply (safe_nodeStruct _ (held_live h re)). intros n [Hh _].
  destruct (digitalRead_h n) eqn:E.
  - apply safe_ret.
  - assert (re = true) as -> by (apply Hre; rewrite <- Hh; discriminate).
    apply (safe_hd44780DigitalRead_8 bus (held h true));
      first [apply held_live | apply held_read | apply held_data].
  - assert (re = true) as -> by (apply Hre; rewrite <- Hh; discriminate).
    apply (safe_hd44780DigitalRead_4 bus (held h true));
      first [apply held_live | apply held_read | apply held_data].
Qed.

Lemma safe_calls bus fuel l : safe serviceable (calls bus fuel l).
Proof.
  induction l as [|c l IH]; cbn [calls]; [apply safe_ret|].
  assert (Hc : forall A (m : M A),
             (forall h re, (h <> digitalReadDummy -> re = true) -> safe (held h re) m) ->
             safe serviceable m).
  { intros A m Hm s HK. destruct (serviceable_held _ HK) as (h & re & Hre & Hh).
    destruct (Hm h re Hre s Hh) as [H1 H2]. split; [|exact H2].
    exact (held_serviceable h re _ Hre H1). }
  destruct c as [pin value|pin].
  - apply safe_bind; [|intros _; exact IH].
    apply Hc. intros h re _. apply safe_nodeDigitalWrite_held.
  - apply safe_bind; [|intros _; exact IH].
    apply Hc. intros h re Hre. apply safe_nodeDigitalRead_held, Hre.
Qed.

(** X19.  After a successful [hd44780Setup], a session of calls made through
    the pseudo-pins either completes or is still inside one of the waiting
    loops when the fuel runs out: no call dereferences a null pointer, and
    the [[gnu::assume (readEnabled)]] of the read handlers is never
    violated, as a read handler is installed only on a node capable of
    read-back. *)
Theorem session_faults :
  forall find bus fuel base re m8 RS RW E D7 D6 D5 D4 D3 D2 D1 D0 s s1 l,
    hd44780Setup find base re m8 RS RW E D7 D6 D5 D4 D3 D2 D1 D0 s
    = Returned EXIT_SUCCESS s1 ->
    (exists s', calls bus fuel l s1 = Returned tt s')
    \/ (exists s', calls bus fuel l s1 = Aborted OutOfFuel s').
Proof.
  intros find bus fuel base re m8 RS RW E D7 D6 D5 D4 D3 D2 D1 D0 s s1 l H.
  assert (Hs1 : serviceable (node s1)).
  { apply hd44780Setup_Returned in H.
    destruct m8;
      [apply hd44780Setup_install_8_node in H | apply hd44780Setup_install_4_node in H];
      rewrite H; cbn; destruct re; intros Hne; try reflexivity; contradiction Hne;
      reflexivity. }
  destruct (safe_calls bus fuel l s1 Hs1) as [_ Hf].
  destruct (calls bus fuel l s1) as [[] s' | f s'].
  - left. exists s'. reflexivity.
  - right. exists s'. rewrite (Hf f s' eq_refl). reflexivity.
Qed.

Lemma session_faults_witness :
  (exists s', calls pulled_up 20 [CallRead 65; CallWrite 64 0x41] after_setup_8
              = Returned tt s')
  \/ (exists s', calls pulled_up 20 [CallRead 65; CallWrite 64 0x41] after_setup_8
                 = Aborted OutOfFuel s').
Proof.
  apply (session_faults noreg pulled_up 20 64 true true 1 2 3 7 6 5 4 11 10 9 8
           power_on after_setup_8).
  vm_compute. reflexivity.
Defined.

(** * The read of the data pseudo-pin *)

Lemma poll_loop_data bus nd (body : M unit) d dt :
  runs nd body d dt ->
  forall fuel s s',
    data_of s = Some nd ->
    while fuel (bind (digitalRead bus (DB nd 7)) (fun v => ret (negb (v =? LOW)))) body s
    = Returned tt s' ->
    data_of s' = Some nd.
Proof.
  intros Hbody. induction fuel as [|fuel IH]; intros s s' Hd H; cbn [while] in H.
  - discriminate.
  - unfold bind at 1 in H. unfold bind at 1 in H. rewrite digitalRead_run in H.
    unfold ret at 1 in H.
    destruct (bus (trace s) (DB nd 7)); cbn [Z.b2z] in H.
    + change (negb (1 =? LOW)) with true in H. cbv iota in H.
      unfold bind at 1 in H.
      rewrite (Hbody (log s [EvRead (DB nd 7) true] 0) Hd) in H.
      apply IH in H; [exact H | exact Hd].
    + change (negb (0 =? LOW)) with false in H. cbv iota in H.
      inversion H. exact Hd.
Qed.

Lemma waitWhileBusy_4_close bus fuel s sw nd :
  data_of s = Some nd -> readEnabled nd = true ->
  waitWhileBusy_4 bus fuel s = Returned tt sw ->
  data_of sw = Some nd /\ exists t, trace sw = t ++ wait_close_4 nd.
Proof.
  intros Hd Hre H.
  destruct (sleepIfFar_Returned s nd Hd) as (s1 & Hs1 & Hn1).
  assert (Hd1 : data_of s1 = Some nd) by (unfold data_of in *; rewrite Hn1; exact Hd).
  unfold waitWhileBusy_4 in H. unfold bind at 1 in H.
  rewrite (nodeData_of _ _ Hd), Hre in H.
  unfold bind at 1 in H. rewrite Hs1 in H.
  erewrite runs_prefix in H; [|apply runs_pinMode|exact Hd1]. cbv beta in H.
  erewrite runs_prefix in H; [|apply runs_setStatusPins|exact Hd1]. cbv beta in H.
  erewrite runs_prefix in H; [|apply runs_readCycleStart|exact Hd1]. cbv beta in H.
  bind_inv H a sA HA. destruct a.
  apply (poll_loop_data bus nd _ _ _ (runs_turn_4 nd)) in HA; [|exact Hd1].
  erewrite runs_prefix in H; [|apply runs_pinMode|exact HA]. cbv beta in H.
  erewrite runs_prefix in H; [|apply runs_readCycleEnd|exact HA]. cbv beta in H.
  erewrite runs_prefix in H; [|apply runs_readCycleStart|exact HA]. cbv beta in H.
  rewrite (runs_readCycleEnd nd (pinE nd)) in H by exact HA.
  inversion H. split; [exact HA|].
  exists (trace sA). rewrite !log_log, trace_log. reflexivity.
Qed.

Lemma waitWhileBusy_8_close bus fuel s sw nd :
  data_of s = Some nd -> readEnabled nd = true ->
  waitWhileBusy_8 bus fuel s = Returned tt sw ->
  data_of sw = Some nd /\ exists t, trace sw = t ++ wait_close_8 nd.
Proof.
  intros Hd Hre H.
  destruct (sleepIfFar_Returned s nd Hd) as (s1 & Hs1 & Hn1).
  assert (Hd1 : data_of s1 = Some nd) by (unfold data_of in *; rewrite Hn1; exact Hd).
  unfold waitWhileBusy_8 in H. unfold bind at 1 in H.
  rewrite (nodeData_of _ _ Hd), Hre in H.
  unfold bind at 1 in H. rewrite Hs1 in H.
  erewrite runs_prefix in H; [|apply runs_pinMode|exact Hd1]. cbv beta in H.
  erewrite runs_prefix in H; [|apply runs_setStatusPins|exact Hd1]. cbv beta in H.
  erewrite runs_prefix in H; [|apply runs_readCycleStart|exact Hd1]. cbv beta in H.
  bind_inv H a sA HA. destruct a.
  apply (poll_loop_data bus nd _ _ _ (runs_turn_8 nd)) in HA; [|exact Hd1].
  erewrite runs_prefix in H; [|apply runs_pinMode|exact HA]. cbv beta in H.
  rewrite (runs_readCycleEnd nd (pinE nd)) in H by exact HA.
  inversion H. split; [exact HA|].
  exists (trace sA). rewrite !log_log, trace_log. reflexivity.
Qed.

Lemma direction_of_app a b p m :
  direction_of (a ++ b) p m = direction_of b p (direction_of a p m).
Proof.
  revert m. induction a as [|e a IH]; intros m; cbn [app direction_of]; [reflexivity|].
  destruct e; apply IH.
Qed.

Lemma direction_of_status nd RS RW p m : direction_of (status_events nd RS RW) p m = m.
Proof. unfold status_events. destruct (readEnabled nd); reflexivity. Qed.

Lemma direction_of_reads pins bits p m : direction_of (read_events pins bits) p m = m.
Proof.
  unfold read_events. revert bits. induction pins as [|q pins IH]; intros bits; [reflexivity|].
  destruct bits as [|b bits]; [reflexivity|]. cbn. apply IH.
Qed.

Lemma direction_of_inputs (f : Z -> Z) l p m :
  direction_of (map (fun i => EvMode (f i) INPUT) l) p m
  = if existsb (fun i => f i =? p) l then INPUT else m.
Proof.
  revert m. induction l as [|i l IH]; intros m; cbn [map direction_of existsb]; [reflexivity|].
  rewrite IH. destruct (f i =? p); cbn [orb]; [|reflexivity].
  destruct (existsb (fun i0 => f i0 =? p) l); reflexivity.
Qed.

(** X20.  A completed read of the data pseudo-pin through the 4-bit handler
    turned lines 7 to 4 to input first and waited for the display after:
    the busy-wait returned, ending with line 7 turned back to output, and
    nothing reconfigures a line between that and the two nibbles sampled.
    So both nibbles are sampled with line 7 an output of the host.  The
    value returned has the first nibble sampled as its high half. *)
Theorem data_read_4_samples_line_7_as_output :
  forall bus fuel s n nd v s',
    node s = Some n -> dataStruct n = Some nd -> readEnabled nd = true ->
    hd44780DigitalRead_4 bus fuel (pinBase n) s = Returned v s' ->
    exists sw t,
      waitWhileBusy_4 bus fuel
        (log s (map (fun i => EvMode (DB nd i) INPUT) (range 4 8)) 0) = Returned tt sw
      /\ trace sw = t ++ wait_close_4 nd
      /\ v = bits_value (data_hi_4 bus nd (trace sw) ++ data_lo_4 bus nd (trace sw))
      /\ trace s' = trace sw ++ status_events nd true true ++ strobe_up nd
                    ++ read_events (lines_4 nd) (data_hi_4 bus nd (trace sw))
                    ++ strobe_down nd ++ strobe_up nd
                    ++ read_events (lines_4 nd) (data_lo_4 bus nd (trace sw))
                    ++ close_read_4 nd
      /\ (forall m,
            direction_of (trace sw ++ status_events nd true true ++ strobe_up nd)
                         (DB nd 7) m = OUTPUT
            /\ direction_of (trace sw ++ status_events nd true true ++ strobe_up nd
                             ++ read_events (lines_4 nd) (data_hi_4 bus nd (trace sw))
                             ++ strobe_down nd ++ strobe_up nd)
                            (DB nd 7) m = OUTPUT).
Proof.
  intros bus fuel s n nd v s' Hn Hd Hre H.
  pose proof (data_of_node _ _ _ Hn Hd) as Hds.
  unfold hd44780DigitalRead_4 in H. unfold bind at 1, nodeStruct in H. rewrite Hn in H.
  unfold bind at 1 in H. rewrite (nodeData_of _ _ Hds), Z.eqb_refl, Hre in H.
  cbv beta iota in H.
  erewrite runs_prefix in H; [|apply runs_modes|exact Hds]. cbv beta in H.
  bind_inv H a sS HS. destruct a.
  unfold bind at 1 in HS. unfold assume, ret at 1 in HS.
  bind_inv HS a sw Hw. destruct a.
  pose proof Hw as Hc. apply (waitWhileBusy_4_close bus fuel _ sw nd) in Hc;
    [|exact Hds|exact Hre].
  destruct Hc as (Hdw & t & Htw).
  rewrite (runs_setStatusPins nd true true sw Hdw) in HS. inversion HS; subst sS. clear HS.
  erewrite runs_prefix in H; [|apply runs_readCycleStart|exact Hdw]. cbv beta in H.
  rewrite !log_log in H.
  unfold bind at 1 in H.
  rewrite (foldM_reads bus (DB nd) (fun v => Z.b2z (negb (v =? 0)))) in H
    by (intros []; reflexivity).
  erewrite runs_prefix in H; [|apply runs_readCycleEnd|exact Hdw]. cbv beta in H.
  erewrite runs_prefix in H; [|apply runs_readCycleStart|exact Hdw]. cbv beta in H.
  rewrite !log_log in H.
  unfold bind at 1 in H.
  rewrite (foldM_reads bus (DB nd) (fun v => Z.b2z (negb (v =? 0)))) in H
    by (intros []; reflexivity).
  erewrite runs_prefix in H; [|apply runs_readCycleEnd|exact Hdw]. cbv beta in H.
  erewrite runs_prefix in H; [|apply runs_modes|exact Hdw]. cbv beta in H.
  rewrite !log_log, !trace_log in H.
  unfold ret in H. rewrite <- fold_left_app in H.
  rewrite shift_in_bits in H by (rewrite length_app, !sample_length; reflexivity).
  pose proof (f_equal (fun o => match o with Returned a _ => a | Aborted _ _ => 0 end) H)
    as Hv.
  pose proof (f_equal final H) as Hs'.
  cbv beta iota delta [final] in Hv, Hs'. clear H.
  exists sw, t. split; [exact Hw|]. split; [exact Htw|]. split; [|split].
  - rewrite <- Hv. unfold data_lo_4, data_hi_4, lines_4, strobe_up, strobe_down.
    rewrite <- !app_assoc. reflexivity.
  - rewrite <- Hs', trace_log.
    unfold data_lo_4, data_hi_4, close_read_4, strobe_down, strobe_up, lines_4.
    rewrite <- !app_assoc. reflexivity.
  - intros m. rewrite Htw.
    assert (Hc : forall m' rest,
               (forall m'', direction_of rest (DB nd 7) m'' = m'') ->
               direction_of ((t ++ wait_close_4 nd) ++ rest) (DB nd 7) m' = OUTPUT).
    { intros m' rest Hrest. rewrite direction_of_app, Hrest, direction_of_app.
      unfold wait_close_4. cbn. rewrite Z.eqb_refl. reflexivity. }
    split; apply Hc; intros m''.
    + rewrite direction_of_app, direction_of_status. reflexivity.
    + rewrite direction_of_app, direction_of_status.
      rewrite (direction_of_app (strobe_up nd)). cbn [strobe_up direction_of].
      rewrite direction_of_app, direction_of_reads. reflexivity.
Qed.

Lemma data_read_4_samples_line_7_as_output_witness :
  exists sw t,
    waitWhileBusy_4 quiet 1
      (log after_setup_4r (map (fun i => EvMode (DB data_4r i) INPUT) (range 4 8)) 0)
    = Returned tt sw
    /\ trace sw = t ++ wait_close_4 data_4r
    /\ direction_of (trace sw ++ status_events data_4r true true ++ strobe_up data_4r)
                    (DB data_4r 7) INPUT = OUTPUT.
Proof.
  destruct (data_read_4_samples_line_7_as_output quiet 1 after_setup_4r
              (mkNode 64 65 (Some data_4r) Handler_DigitalWrite_4 Handler_DigitalRead_4)
              data_4r 0 (final (hd44780DigitalRead_4 quiet 1 64 after_setup_4r)))
    as (sw & t & Hw & Ht & _ & _ & Hdir);
    [vm_compute; reflexivity | reflexivity | reflexivity | vm_compute; reflexivity |].
  exists sw, t. split; [exact Hw|]. split; [exact Ht|]. apply Hdir.
Defined.

(** X21.  A completed read of the data pseudo-pin through the 8-bit handler,
    the node being in EightBit, waited for the display first and turned the
    eight lines to input after: every line is an input of the host when it
    is sampled.  The value returned is the number whose binary digits, most
    significant first, are the levels sampled on lines 7 down to 0. *)
Theorem data_read_8_samples_inputs :
  forall bus fuel s n nd v s',
    node s = Some n -> dataStruct n = Some nd -> readEnabled nd = true ->
    mode8 nd = true ->
    hd44780DigitalRead_8 bus fuel (pinBase n) s = Returned v s' ->
    exists sw t,
      waitWhileBusy_8 bus fuel s = Returned tt sw
      /\ trace sw = t ++ wait_close_8 nd
      /\ v = bits_value (sample bus (lines_8 nd) (trace sw ++ open_read_8 nd true))
      /\ trace s' = trace sw ++ open_read_8 nd true
                    ++ read_events (lines_8 nd)
                         (sample bus (lines_8 nd) (trace sw ++ open_read_8 nd true))
                    ++ close_read_8 nd
      /\ (forall i m, In i (range 0 8) ->
            direction_of (trace sw ++ open_read_8 nd true) (DB nd i) m = INPUT).
Proof.
  intros bus fuel s n nd v s' Hn Hd Hre Hm H.
  pose proof (data_of_node _ _ _ Hn Hd) as Hds.
  unfold hd44780DigitalRead_8 in H. unfold bind at 1, nodeStruct in H. rewrite Hn in H.
  unfold bind at 1 in H. rewrite (nodeData_of _ _ Hds), Hm, Z.eqb_refl, Hre in H.
  cbv beta iota in H. cbn [negb] in H. cbv beta iota in H.
  bind_inv H a sS HS. destruct a.
  unfold bind at 1 in HS. unfold assume, ret at 1 in HS.
  bind_inv HS a sw Hw. destruct a.
  destruct (waitWhileBusy_8_close bus fuel s sw nd Hds Hre Hw) as (Hdw & t & Htw).
  rewrite (runs_setStatusPins nd true true sw Hdw) in HS.
  pose proof (f_equal final HS) as HsS. cbv beta iota delta [final] in HsS.
  subst sS. clear HS.
  erewrite runs_prefix in H; [|apply runs_modes|exact Hdw]. cbv beta in H.
  erewrite runs_prefix in H; [|apply runs_readCycleStart|exact Hdw]. cbv beta in H.
  rewrite !log_log in H.
  unfold bind at 1 in H.
  rewrite foldM_reads in H by (intros []; reflexivity).
  erewrite runs_prefix in H; [|apply runs_readCycleEnd|exact Hdw]. cbv beta in H.
  erewrite runs_prefix in H; [|apply runs_modes|exact Hdw]. cbv beta in H.
  rewrite !log_log, !trace_log in H.
  unfold ret in H.
  rewrite shift_in_bits in H by (rewrite sample_length; reflexivity).
  pose proof (f_equal (fun o => match o with Returned a _ => a | Aborted _ _ => 0 end) H)
    as Hv.
  pose proof (f_equal final H) as Hs'.
  cbv beta iota delta [final] in Hv, Hs'. clear H.
  exists sw, t. split; [exact Hw|]. split; [exact Htw|]. split; [|split].
  - rewrite <- Hv. unfold lines_8, open_read_8, strobe_up.
    rewrite <- ?app_assoc. reflexivity.
  - rewrite <- Hs', trace_log. unfold close_read_8, open_read_8, strobe_down, strobe_up, lines_8.
    rewrite <- ?app_assoc. reflexivity.
  - intros i m Hi. unfold open_read_8.
    rewrite !direction_of_app, direction_of_inputs.
    replace (existsb (fun j => DB nd j =? DB nd i) (range 0 8)) with true; [reflexivity|].
    symmetry. apply existsb_exists. exists i. split; [exact Hi | apply Z.eqb_refl].
Qed.

Lemma data_read_8_samples_inputs_witness :
  exists sw t,
    waitWhileBusy_8 quiet 1 after_setup_8 = Returned tt sw
    /\ trace sw = t ++ wait_close_8 data_8
    /\ direction_of (trace sw ++ open_read_8 data_8 true) (DB data_8 7) OUTPUT = INPUT.
Proof.
  destruct (data_read_8_samples_inputs quiet 1 after_setup_8 node_8 data_8 0
              (final (hd44780DigitalRead_8 quiet 1 64 after_setup_8)))
    as (sw & t & Hw & Ht & _ & _ & Hdir);
    [vm_compute; reflexivity | reflexivity | reflexivity | reflexivity
    | vm_compute; reflexivity |].
  exists sw, t. split; [exact Hw|]. split; [exact Ht|].
  apply Hdir. cbn. auto 10.
Defined.
